(** * MoodLens: the multi-signal scoring and fusion engine

    A shallow embedding of
      - [src/core/emotion_detector.py]  (class [UnifiedEmotionDetector]) and
      - [src/utils/advanced_fusion_system.py]
        (class [AdvancedEmotionFusionSystem], the fusion part),
    followed by the properties of the specification that concern them.

    Modelling conventions.
      - Python floats are modelled twice.  The modules [Detector] and
        [Fusion] compute with exact rationals ([Q], compared with [==]):
        rounding and overflow are not modelled there, and their properties
        are stated for scores in the range the analyzers produce.  The
        module [Binary64] repeats the numeric core of the detector in IEEE
        double arithmetic (Rocq's primitive floats), for the properties that
        rounding or overflow decides: the tiers of the confidence, exact
        ties, scores that overflow.
      - A Python [dict] is an association list in insertion order, because
        [max] and [sorted] observe that order.  Lookup takes the first
        binding of a key.
      - Python text is a [string] of bytes; [lower], [strip] and [len]
        follow Python on ASCII text.
      - Exceptions are values of the monad [py]: [max] of an empty
        sequence, a subscript on a missing key and a division by zero
        raise, as in Python. *)

From Stdlib Require Import ZArith QArith Qminmax Lqa Znat.
From Stdlib Require Import List String Ascii Bool Arith Lia Permutation Sorted.
From Corelib Require Import PrimFloat SpecFloat FloatOps FloatAxioms.
Import ListNotations.

Set Warnings "-inexact-float".

Local Open Scope string_scope.
Local Open Scope list_scope.
Local Open Scope Q_scope.

(** ** Exceptions *)

Inductive exn : Set := ValueError | KeyError | ZeroDivisionError.

Inductive py (A : Type) : Type :=
| Ok (a : A)
| Raise (e : exn).

Arguments Ok {A} a.
Arguments Raise {A} e.

Definition bind {A B : Type} (c : py A) (k : A -> py B) : py B :=
  match c with
  | Ok a => k a
  | Raise e => Raise e
  end.

Notation "x <- c ;; k" := (bind c (fun x => k))
  (at level 61, c at next level, right associativity).

(** A [for] loop whose body may raise. *)
Fixpoint foldM {A B : Type} (f : A -> B -> py A) (l : list B) (a : A) : py A :=
  match l with
  | [] => Ok a
  | x :: l' => a' <- f a x ;; foldM f l' a'
  end.

(** ** Comparisons and division on floats *)

Definition Qltb (x y : Q) : bool := negb (Qle_bool y x).

Definition py_div (x y : Q) : py Q :=
  if Qeq_bool y 0 then Raise ZeroDivisionError else Ok (x / y).

(** ** Text *)

Module PyStr.

Definition lower_ascii (c : ascii) : ascii :=
  let n := nat_of_ascii c in
  if ((65 <=? n) && (n <=? 90))%nat then ascii_of_nat (n + 32) else c.

(** [str.lower()] *)
Fixpoint lower (s : string) : string :=
  match s with
  | EmptyString => EmptyString
  | String c s' => String (lower_ascii c) (lower s')
  end.

(** The ASCII characters for which [str.isspace()] holds. *)
Definition is_space (c : ascii) : bool :=
  let n := nat_of_ascii c in
  (((9 <=? n) && (n <=? 13)) || ((28 <=? n) && (n <=? 32)))%nat.

Fixpoint lstrip (s : string) : string :=
  match s with
  | EmptyString => EmptyString
  | String c s' => if is_space c then lstrip s' else s
  end.

Fixpoint rev_onto (s acc : string) : string :=
  match s with
  | EmptyString => acc
  | String c s' => rev_onto s' (String c acc)
  end.

Definition rev (s : string) : string := rev_onto s EmptyString.

Definition rstrip (s : string) : string := rev (lstrip (rev s)).

(** [str.strip()] *)
Definition strip (s : string) : string := rstrip (lstrip s).

(** Truth value of a string: non-empty. *)
Definition truthy (s : string) : bool :=
  match s with EmptyString => false | String _ _ => true end.

(** [needle in hay] *)
Fixpoint contains (needle hay : string) : bool :=
  prefix needle hay ||
  match hay with
  | EmptyString => false
  | String _ hay' => contains needle hay'
  end.

End PyStr.

(** ** Dictionaries *)

Definition dict (V : Type) : Type := list (string * V).

Module PyDict.
Section Dict.
Context {V : Type}.

(** [d.get(k)] *)
Fixpoint get (d : dict V) (k : string) : option V :=
  match d with
  | [] => None
  | (k', v) :: d' => if String.eqb k' k then Some v else get d' k
  end.

(** [d.get(k, dflt)] *)
Definition get_or (d : dict V) (k : string) (dflt : V) : V :=
  match get d k with Some v => v | None => dflt end.

(** [k in d] *)
Definition mem (k : string) (d : dict V) : bool :=
  match get d k with Some _ => true | None => false end.

(** [d[k]] *)
Definition getitem (d : dict V) (k : string) : py V :=
  match get d k with Some v => Ok v | None => Raise KeyError end.

(** [d[k] = v]: an existing key keeps its position, a new key goes last. *)
Fixpoint setitem (d : dict V) (k : string) (v : V) : dict V :=
  match d with
  | [] => [(k, v)]
  | (k', v') :: d' =>
      if String.eqb k' k then (k', v) :: d' else (k', v') :: setitem d' k v
  end.

Definition keys (d : dict V) : list string := map fst d.
Definition values (d : dict V) : list V := map snd d.

End Dict.

(** [d[k] += w] *)
Definition additem (d : dict Q) (k : string) (w : Q) : py (dict Q) :=
  v <- getitem d k ;; Ok (setitem d k (v + w)).

End PyDict.

Import PyDict.

(** ** [max] and [sorted] *)

(** [max(xs)]: the first greatest element; [ValueError] when [xs] is empty. *)
Definition py_max (xs : list Q) : py Q :=
  match xs with
  | [] => Raise ValueError
  | x :: xs' => Ok (fold_left (fun m v => if Qltb m v then v else m) xs' x)
  end.

(** [max(d.items(), key=lambda x: x[1])] *)
Definition py_max_by_value (items : dict Q) : py (string * Q) :=
  match items with
  | [] => Raise ValueError
  | x :: items' =>
      Ok (fold_left (fun m it => if Qltb (snd m) (snd it) then it else m) items' x)
  end.

(** [sorted(d.items(), key=lambda x: x[1], reverse=True)]: a stable sort,
    equal scores keep their order. *)
Fixpoint insert_desc (x : string * Q) (l : dict Q) : dict Q :=
  match l with
  | [] => [x]
  | y :: l' => if Qle_bool (snd y) (snd x) then x :: l else y :: insert_desc x l'
  end.

Definition sorted_by_value_desc (items : dict Q) : dict Q :=
  fold_right insert_desc [] items.


(** ** Analyzer output

    The face and voice analyzers hand over a dictionary.  Only the keys the
    engine reads are modelled; [other_keys] records whether the dictionary
    holds any other key, which matters for its truth value alone. *)

Record ModalityData : Type := {
  cluster_scores : option (dict Q);
  actionable_category : option string;
  category_confidence : option Q;
  confidence_key : option Q;          (* the key 'confidence' *)
  stress_analysis : option (dict Q);
  ensemble_info : option string;
  other_keys : bool
}.

Definition is_some {A : Type} (o : option A) : bool :=
  match o with Some _ => true | None => false end.

(** Truth value of an optional dictionary: neither [None] nor empty. *)
Definition data_truthy (data : option ModalityData) : bool :=
  match data with
  | None => false
  | Some d =>
      is_some (cluster_scores d) || is_some (actionable_category d) ||
      is_some (category_confidence d) || is_some (confidence_key d) ||
      is_some (stress_analysis d) || is_some (ensemble_info d) || other_keys d
  end.

(** * [emotion_detector.py] *)

Module Detector.

(** [self.emotions]: the category registry, name and description of each
    category (the emoji and the indicator tags are left out). *)
Definition emotions : dict (string * string) :=
  [ ("anxious",     ("Anxious/Worried",  "Racing thoughts, tension, worry"));
    ("sad",         ("Sad/Down",         "Low energy, withdrawn, tearful"));
    ("frustrated",  ("Frustrated/Angry", "Tense, irritable, ready to explode"));
    ("overwhelmed", ("Overwhelmed",      "Too much, stuck, can't cope"));
    ("calm",        ("Calm/Peaceful",    "Relaxed, balanced, content"));
    ("happy",       ("Happy/Energized",  "High energy, positive, excited"));
    ("neutral",     ("Neutral/Flat",     "Numb, disconnected, empty"));
    ("tired",       ("Tired/Drained",    "Exhausted, depleted, need rest")) ].

(** [{emotion: 0.0 for emotion in self.emotions.keys()}] *)
Definition zero_scores : dict Q := map (fun e => (e, 0)) (keys emotions).

(** [self.question_weights] *)
Definition question_weights : dict (dict (dict Q)) :=
  [ ("energy_level",
      [ ("high",     [("happy", 0.8); ("anxious", 0.3); ("frustrated", 0.2)]);
        ("moderate", [("calm", 0.7); ("neutral", 0.3)]);
        ("low",      [("sad", 0.7); ("tired", 0.8); ("overwhelmed", 0.3);
                      ("neutral", 0.2)]) ]);
    ("thoughts",
      [ ("racing",  [("anxious", 0.8); ("overwhelmed", 0.9); ("frustrated", 0.3)]);
        ("flowing", [("calm", 0.9); ("happy", 0.5)]);
        ("stuck",   [("overwhelmed", 0.9); ("sad", 0.6); ("neutral", 0.2)]) ]);
    ("physical",
      [ ("tense",   [("anxious", 0.8); ("frustrated", 0.7); ("overwhelmed", 0.6)]);
        ("neutral", [("calm", 0.6); ("neutral", 0.5)]);
        ("relaxed", [("calm", 0.9); ("happy", 0.4)]) ]);
    ("worry",
      [ ("nothing",    [("calm", 0.8); ("happy", 0.5); ("neutral", 0.2)]);
        ("few_things", [("anxious", 0.5); ("overwhelmed", 0.4)]);
        ("a_lot",      [("anxious", 0.8); ("overwhelmed", 0.9)]) ]);
    ("feeling_like",
      [ ("crying",    [("sad", 0.9); ("overwhelmed", 0.6)]);
        ("screaming", [("frustrated", 0.9); ("overwhelmed", 0.4); ("anxious", 0.3)]);
        ("laughing",  [("happy", 0.9); ("calm", 0.5)]);
        ("nothing",   [("neutral", 0.7); ("overwhelmed", 0.4); ("calm", 0.2);
                       ("sad", 0.2); ("tired", 0.2)]) ]);
    ("mood_comparison",
      [ ("better", [("happy", 0.8); ("calm", 0.4)]);
        ("same",   [("neutral", 0.5); ("calm", 0.4)]);
        ("worse",  [("sad", 0.7); ("anxious", 0.5); ("overwhelmed", 0.4);
                    ("tired", 0.3)]) ]);
    ("need_most",
      [ ("company", [("sad", 0.6); ("anxious", 0.3)]);
        ("rest",    [("tired", 0.9); ("overwhelmed", 0.5); ("calm", 0.3)]);
        ("focus",   [("anxious", 0.5); ("overwhelmed", 0.6)]);
        ("action",  [("frustrated", 0.8); ("overwhelmed", 0.3); ("anxious", 0.3)]) ]) ].

(** The normalisation that closes each of the four scorers:
[[
    max_score = max(scores.values()) if max(scores.values()) > 0 else 1
    for emotion in scores:
        scores[emotion] = scores[emotion] / max_score
]] *)
Fixpoint divide_all (scores : dict Q) (max_score : Q) : py (dict Q) :=
  match scores with
  | [] => Ok []
  | (emotion, v) :: rest =>
      q <- py_div v max_score ;;
      rest' <- divide_all rest max_score ;;
      Ok ((emotion, q) :: rest')
  end.

Definition normalize_scores (scores : dict Q) : py (dict Q) :=
  m <- py_max (values scores) ;;
  let max_score := if Qltb 0 m then m else 1 in
  divide_all scores max_score.

(** The weights a (question, answer) pair adds; nothing for a pair the
    table does not know. *)
Definition answer_weights (question answer : string) : dict Q :=
  match get question_weights question with
  | Some answers =>
      match get answers answer with
      | Some weights => weights
      | None => []
      end
  | None => []
  end.

Definition add_weights (scores : dict Q) (weights : dict Q) : py (dict Q) :=
  foldM (fun s ew => additem s (fst ew) (snd ew)) weights scores.

(** The accumulation loop of [_score_initial_responses]. *)
Definition initial_counts (responses : dict string) : py (dict Q) :=
  foldM (fun s qa => add_weights s (answer_weights (fst qa) (snd qa)))
        responses zero_scores.

Definition _score_initial_responses (responses : dict string) : py (dict Q) :=
  scores <- initial_counts responses ;;
  normalize_scores scores.

(** [emotion_keywords] of [_score_journaling_responses] *)
Definition emotion_keywords : dict (list string) :=
  [ ("anxious",
      [ "worried"; "anxious"; "nervous"; "stressed"; "panic"; "fear"; "scared";
        "racing thoughts"; "can't stop thinking"; "overwhelming"; "tense";
        "heart racing"; "sweating"; "shaking"; "restless" ]);
    ("sad",
      [ "sad"; "depressed"; "down"; "hopeless"; "empty"; "lonely"; "crying";
        "tears"; "grief"; "loss"; "disappointed"; "hurt"; "broken"; "heavy";
        "can't get out of bed"; "no energy"; "worthless" ]);
    ("frustrated",
      [ "frustrated"; "angry"; "mad"; "irritated"; "annoyed"; "furious";
        "rage"; "explosive"; "can't take it"; "fed up"; "sick of";
        "want to scream"; "punch something"; "so angry" ]);
    ("overwhelmed",
      [ "overwhelmed"; "too much"; "can't cope"; "drowning"; "stuck";
        "paralyzed"; "frozen"; "don't know where to start"; "everything at once";
        "too many things"; "can't handle"; "breaking down" ]);
    ("calm",
      [ "calm"; "peaceful"; "relaxed"; "centered"; "balanced"; "serene";
        "content"; "at ease"; "comfortable"; "breathing easy"; "quiet mind";
        "peaceful"; "tranquil"; "grounded" ]);
    ("happy",
      [ "happy"; "joyful"; "excited"; "energized"; "positive"; "optimistic";
        "grateful"; "blessed"; "lucky"; "amazing"; "wonderful"; "fantastic";
        "smiling"; "laughing"; "celebrating" ]);
    ("neutral",
      [ "okay"; "fine"; "neutral"; "nothing"; "empty"; "numb"; "flat";
        "don't feel anything"; "meh"; "whatever"; "indifferent"; "bored" ]);
    ("tired",
      [ "tired"; "exhausted"; "drained"; "fatigued"; "worn out"; "burned out";
        "no energy"; "can't keep going"; "need rest"; "sleepy"; "lethargic";
        "running on empty"; "depleted" ]) ].

(** [not response_text or not response_text.strip()] *)
Definition skipped (response_text : string) : bool :=
  negb (PyStr.truthy response_text) ||
  negb (PyStr.truthy (PyStr.strip response_text)).

(** [for keyword in keywords: if keyword in response_lower: scores[emotion] += 1.0] *)
Definition scan_keywords (response_lower : string) (emotion : string)
  (keywords : list string) (scores : dict Q) : py (dict Q) :=
  foldM (fun s keyword =>
           if PyStr.contains keyword response_lower
           then additem s emotion 1.0 else Ok s)
        keywords scores.

(** The body of the loop over the journaling responses. *)
Definition scan_response (scores : dict Q) (response_text : string) : py (dict Q) :=
  if skipped response_text then Ok scores
  else
    let response_lower := PyStr.lower response_text in
    foldM (fun s ek => scan_keywords response_lower (fst ek) (snd ek) s)
          emotion_keywords scores.

(** The counts of [_score_journaling_responses] before they are normalised. *)
Definition journaling_counts (responses : dict string) : py (dict Q) :=
  foldM (fun s r => scan_response s (snd r)) responses zero_scores.

Definition _score_journaling_responses (responses : dict string) : py (dict Q) :=
  match responses with
  | [] => Ok zero_scores
  | _ =>
      scores <- journaling_counts responses ;;
      normalize_scores scores
  end.

(** [mapping] of [_score_face] and of [_score_voice] (the same table). *)
Definition face_mapping : dict string :=
  [ ("stressed", "anxious"); ("anxious", "anxious");
    ("frustrated", "frustrated"); ("sad", "sad");
    ("overwhelmed", "overwhelmed"); ("positive", "happy");
    ("calm", "calm"); ("energized", "happy") ].

Definition voice_mapping : dict string := face_mapping.

(** The accumulation loop shared by [_score_face] and [_score_voice]. *)
Definition mapped_counts (mapping : dict string) (native_scores : dict Q)
  : py (dict Q) :=
  foldM (fun s es =>
           match get mapping (fst es) with
           | Some mapped_emotion => additem s mapped_emotion (snd es)
           | None => Ok s
           end)
        native_scores zero_scores.

Definition score_modality (mapping : dict string) (data : option ModalityData)
  : py (dict Q) :=
  if negb (data_truthy data) then Ok zero_scores
  else
    match data with
    | None => Ok zero_scores
    | Some d =>
        match cluster_scores d with
        | None => Ok zero_scores
        | Some native_scores =>
            scores <- mapped_counts mapping native_scores ;;
            normalize_scores scores
        end
    end.

Definition _score_face (face_data : option ModalityData) : py (dict Q) :=
  score_modality face_mapping face_data.

Definition _score_voice (voice_data : option ModalityData) : py (dict Q) :=
  score_modality voice_mapping voice_data.

(** [_combine_scores] *)
Definition combined_score (initial_scores journaling_scores face_scores
  voice_scores : dict Q) (emotion : string) : Q :=
  get_or initial_scores emotion 0 * 0.3 +
  get_or journaling_scores emotion 0 * 0.4 +
  get_or face_scores emotion 0 * 0.2 +
  get_or voice_scores emotion 0 * 0.1.

Definition _combine_scores (initial_scores journaling_scores face_scores
  voice_scores : dict Q) : dict Q :=
  fold_left
    (fun final_scores emotion =>
       setitem final_scores emotion
         (combined_score initial_scores journaling_scores face_scores
            voice_scores emotion))
    (keys emotions) zero_scores.

(** [_calculate_confidence] *)
Definition separation_boost (separation : Q) : Q :=
  if Qltb 0.3 separation then 0.35
  else if Qltb 0.15 separation then separation * 0.5
  else separation * 0.2.

Definition _calculate_confidence (scores : dict Q) (dominant_emotion : string * Q)
  : Q :=
  let score := snd dominant_emotion in
  let confidence := score in
  let sorted_scores := sorted_by_value_desc scores in
  let confidence :=
    match sorted_scores with
    | _ :: (_, second_best) :: _ =>
        let separation := score - second_best in
        confidence + separation_boost separation
    | _ => confidence
    end in
  let confidence :=
    if Qltb score 0.3 then confidence * 0.7
    else if Qltb 0.6 score then Qmin (confidence + 0.15) 1.0
    else confidence in
  Qmin confidence 1.0.

(** [_get_indicators] *)
Definition among (x : string) (l : list string) : bool :=
  existsb (String.eqb x) l.

Definition answered (responses : dict string) (question answer : string) : bool :=
  match get responses question with
  | Some a => String.eqb a answer
  | None => false
  end.

Definition any_in (words : list string) (text : string) : bool :=
  existsb (fun word => PyStr.contains word text) words.

Definition writing_indicator (emotion response_lower : string) : list string :=
  if String.eqb emotion "anxious" &&
     any_in ["worried"; "nervous"; "stressed"; "panic"] response_lower
  then ["Your writing shows signs of worry"]
  else if String.eqb emotion "sad" &&
          any_in ["sad"; "down"; "hopeless"; "empty"] response_lower
  then ["Your writing reflects sadness"]
  else if String.eqb emotion "frustrated" &&
          any_in ["angry"; "mad"; "frustrated"; "irritated"] response_lower
  then ["Your writing shows frustration"]
  else if String.eqb emotion "overwhelmed" &&
          any_in ["overwhelmed"; "too much"; "can't cope"] response_lower
  then ["Your writing indicates feeling overwhelmed"]
  else [].

(** The loop over the journaling responses; it ends at the first
    substantial response. *)
Fixpoint journaling_indicator (emotion : string) (responses : dict string)
  : list string :=
  match responses with
  | [] => []
  | (_, response_text) :: rest =>
      if PyStr.truthy response_text &&
         (10 <? String.length (PyStr.strip response_text))%nat
      then writing_indicator emotion (PyStr.lower response_text)
      else journaling_indicator emotion rest
  end.

Definition category_indicator (data : option ModalityData) (emotion message : string)
  : list string :=
  match data with
  | Some d =>
      if data_truthy data then
        match actionable_category d with
        | Some c => if String.eqb c emotion then [message] else []
        | None => []
        end
      else []
  | None => []
  end.

Definition when (b : bool) (message : string) : list string :=
  if b then [message] else [].

Definition _get_indicators (initial_responses journaling_responses : dict string)
  (face_data voice_data : option ModalityData) (emotion : string) : list string :=
  let indicators :=
    when (answered initial_responses "thoughts" "racing" &&
          among emotion ["anxious"; "overwhelmed"])
         "Your thoughts are racing" ++
    when (answered initial_responses "energy_level" "low" &&
          among emotion ["sad"; "tired"])
         "Your energy feels low" ++
    when (answered initial_responses "physical" "tense" &&
          among emotion ["anxious"; "frustrated"])
         "You feel physically tense" ++
    when (answered initial_responses "feeling_like" "crying" &&
          String.eqb emotion "sad")
         "You feel like crying" ++
    when (answered initial_responses "feeling_like" "screaming" &&
          String.eqb emotion "frustrated")
         "You feel like screaming" ++
    when (answered initial_responses "feeling_like" "laughing" &&
          String.eqb emotion "happy")
         "You feel like laughing" ++
    journaling_indicator emotion journaling_responses ++
    category_indicator face_data emotion
      "Your facial expression shows this emotion" ++
    category_indicator voice_data emotion
      "Your voice tone indicates this emotion" in
  firstn 3 indicators.

(** The record [detect_emotion] returns (the action lists, which are
    fixed content looked up by category, are left out). *)
Record Detection : Type := {
  emotion : string;
  emotion_name : string;
  confidence : Q;
  description : string;
  indicators : list string;
  all_scores : dict Q
}.

(** [_get_fallback_result] *)
Definition _get_fallback_result : Detection :=
  {| emotion := "neutral";
     emotion_name := "Neutral/Flat";
     confidence := 0.5;
     description := "Unable to determine emotion clearly";
     indicators := ["Analysis incomplete"];
     all_scores := [("neutral", 0.5)] |}.

(** The [try] block of [detect_emotion]. *)
Definition detect_emotion_body (initial_responses journaling_responses : dict string)
  (face_data voice_data : option ModalityData) : py Detection :=
  initial_scores <- _score_initial_responses initial_responses ;;
  journaling_scores <- _score_journaling_responses journaling_responses ;;
  face_scores <- (if data_truthy face_data then _score_face face_data else Ok []) ;;
  voice_scores <- (if data_truthy voice_data then _score_voice voice_data else Ok []) ;;
  let final_scores :=
    _combine_scores initial_scores journaling_scores face_scores voice_scores in
  dominant_emotion <- py_max_by_value final_scores ;;
  let conf := _calculate_confidence final_scores dominant_emotion in
  let inds := _get_indicators initial_responses journaling_responses
                face_data voice_data (fst dominant_emotion) in
  meta <- getitem emotions (fst dominant_emotion) ;;
  Ok {| emotion := fst dominant_emotion;
        emotion_name := fst meta;
        confidence := conf;
        description := snd meta;
        indicators := inds;
        all_scores := final_scores |}.

(** [detect_emotion]: any exception of the body yields the fallback. *)
Definition detect_emotion (initial_responses journaling_responses : dict string)
  (face_data voice_data : option ModalityData) : Detection :=
  match detect_emotion_body initial_responses journaling_responses
          face_data voice_data with
  | Ok result => result
  | Raise _ => _get_fallback_result
  end.

End Detector.

(** * [advanced_fusion_system.py] *)

Module Fusion.

(** The keys of [self.unified_categories], in order. *)
Definition unified_categories : list string :=
  [ "stressed"; "anxious"; "frustrated"; "sad"; "overwhelmed"; "positive"; "calm" ].

(** One entry of [valid_results]: (modality, cluster_scores, weight). *)
Definition ValidResult : Type := (string * dict Q * Q)%type.

Definition vr_modality (r : ValidResult) : string := fst (fst r).
Definition vr_scores (r : ValidResult) : dict Q := snd (fst r).
Definition vr_weight (r : ValidResult) : Q := snd r.

(** [_create_cluster_scores] *)
Definition _create_cluster_scores (modality : string) (data : ModalityData)
  : dict Q :=
  let fallback := [("calm", 0.5)] in
  let from_category :=
    match actionable_category data with
    | Some category =>
        [(category,
          match category_confidence data with Some c => c | None => 0.5 end)]
    | None => fallback
    end in
  if String.eqb modality "text" then
    match cluster_scores data with Some cs => cs | None => fallback end
  else if String.eqb modality "face" then from_category
  else if String.eqb modality "voice" then from_category
  else fallback.

(** [base_weights] of [_calculate_modality_weight] *)
Definition base_weights : dict Q :=
  [ ("text", 1.0); ("voice", 0.8); ("face", 0.7) ].

(** [data.get('category_confidence', 0) or data.get('confidence', 0)] *)
Definition reported_confidence (data : ModalityData) : Q :=
  let c := match category_confidence data with Some c => c | None => 0 end in
  if Qeq_bool c 0
  then match confidence_key data with Some c' => c' | None => 0 end
  else c.

Definition stress_boost (modality : string) (data : ModalityData) : Q :=
  match stress_analysis data with
  | Some (b :: sa) =>
      if String.eqb modality "voice" &&
         Qltb 0.5 (get_or (b :: sa) "stress_likelihood" 0)
      then 0.2 else 0
  | _ => 0
  end.

Definition ensemble_boost (modality : string) (data : ModalityData) : Q :=
  match ensemble_info data with
  | Some info =>
      if String.eqb modality "face" &&
         PyStr.contains "ensemble" (PyStr.lower info)
      then 0.1 else 0
  | None => 0
  end.

Definition confidence_boost (data : ModalityData) : Q :=
  if Qltb 0.7 (reported_confidence data) then 0.1 else 0.

(** [_calculate_modality_weight] *)
Definition _calculate_modality_weight (modality : string) (data : ModalityData)
  : Q :=
  let weight := get_or base_weights modality 0.5 in
  let weight := weight + stress_boost modality data in
  let weight := weight + ensemble_boost modality data in
  let weight := weight + confidence_boost data in
  Qmin weight 1.0.

Definition among_modalities (modality : string) : bool :=
  String.eqb modality "text" || String.eqb modality "face" ||
  String.eqb modality "voice".

(** The cluster scores [weighted_fusion] takes from one modality. *)
Definition modality_cluster_scores (modality : string) (data : ModalityData)
  : dict Q :=
  match cluster_scores data with
  | Some cs =>
      if among_modalities modality then cs
      else _create_cluster_scores modality data
  | None => _create_cluster_scores modality data
  end.

(** The first loop of [weighted_fusion]: the modalities that give a
    non-empty score map, each with its weight. *)
Fixpoint collect_valid_results (modality_results : dict (option ModalityData))
  : list ValidResult :=
  match modality_results with
  | [] => []
  | (modality, None) :: rest => collect_valid_results rest
  | (modality, Some data) :: rest =>
      match modality_cluster_scores modality data with
      | [] => collect_valid_results rest
      | cs => (modality, cs, _calculate_modality_weight modality data)
              :: collect_valid_results rest
      end
  end.

(** The keys in the order in which they enter [all_categories]. *)
Definition inserted_categories (valid_results : list ValidResult) : list string :=
  flat_map (fun r => keys (vr_scores r)) valid_results.

(** [weighted_sum] and [total_weight] of one category. *)
Definition weighted_sum (valid_results : list ValidResult) (category : string) : Q :=
  fold_left
    (fun acc r =>
       match get (vr_scores r) category with
       | Some s => acc + s * vr_weight r
       | None => acc
       end)
    valid_results 0.

Definition total_weight (valid_results : list ValidResult) (category : string) : Q :=
  fold_left
    (fun acc r => if mem category (vr_scores r) then acc + vr_weight r else acc)
    valid_results 0.

Definition fused_score (valid_results : list ValidResult) (category : string) : Q :=
  if Qltb 0 (total_weight valid_results category)
  then weighted_sum valid_results category / total_weight valid_results category
  else 0.

(** [_calculate_fusion_confidence] *)
Definition agrees (dominant_emotion : string) (r : ValidResult) : bool :=
  match get (vr_scores r) dominant_emotion with
  | Some s => Qltb 0.3 s
  | None => false
  end.

Definition agrees_strongly (dominant_emotion : string) (r : ValidResult) : bool :=
  match get (vr_scores r) dominant_emotion with
  | Some s => Qltb 0.5 s && Qltb 0.8 (vr_weight r)
  | None => false
  end.

Definition count_if {A : Type} (p : A -> bool) (l : list A) : nat :=
  fold_left (fun n x => if p x then S n else n) l 0%nat.

Definition _calculate_fusion_confidence (valid_results : list ValidResult)
  (dominant_emotion : string) : Q :=
  let agreement_count := count_if (agrees dominant_emotion) valid_results in
  let total_modalities := List.length valid_results in
  let agreement_confidence :=
    if (0 <? total_modalities)%nat
    then inject_Z (Z.of_nat agreement_count) / inject_Z (Z.of_nat total_modalities)
    else 0 in
  let quality_boost :=
    fold_left
      (fun b r => if agrees_strongly dominant_emotion r then b + 0.1 else b)
      valid_results 0 in
  Qmin (agreement_confidence + quality_boost) 1.0.

(** [_assess_fusion_quality] *)
Definition _assess_fusion_quality (valid_results : list ValidResult)
  (fusion_confidence : Q) : string :=
  let modality_count := List.length valid_results in
  let quality_score :=
    ((if 3 <=? modality_count then 2 else if 2 <=? modality_count then 1 else 0) +
     (if Qltb 0.8 fusion_confidence then 2
      else if Qltb 0.6 fusion_confidence then 1 else 0) +
     (if 2 <=? count_if (fun r => Qltb 0.8 (vr_weight r)) valid_results
      then 1 else 0))%nat in
  if (4 <=? quality_score)%nat then "high"
  else if (2 <=? quality_score)%nat then "medium"
  else if (1 <=? quality_score)%nat then "low"
  else "very_low".

(** The dictionary [weighted_fusion] returns (without [modality_details]). *)
Record FusionResult : Type := {
  dominant_emotion : string;
  confidence : Q;
  all_scores : dict Q;
  modalities_used : list string;
  fusion_method : string;
  fusion_quality : string
}.

Section WeightedFusion.

(** [all_categories] is a Python [set] of strings: the order in which the
    loop over it meets the categories is not the order of insertion and
    is fixed by the hashes of the strings.  [set_order] gives that order
    for the keys inserted. *)
Variable set_order : list string -> list string.

Definition fused_scores_of (valid_results : list ValidResult) : dict Q :=
  fold_left
    (fun fused_scores category =>
       setitem fused_scores category (fused_score valid_results category))
    (set_order (inserted_categories valid_results)) [].

Definition top_category_of (fused_scores : dict Q) : string * Q :=
  match fused_scores with
  | [] => ("calm", 0.5)
  | _ =>
      match py_max_by_value fused_scores with
      | Ok top => top
      | Raise _ => ("calm", 0.5)
      end
  end.

(** [weighted_fusion]; the result [None] is Python's [None]. *)
Definition weighted_fusion (modality_results : dict (option ModalityData))
  : option FusionResult :=
  let valid_results := collect_valid_results modality_results in
  match valid_results with
  | [] => None
  | _ =>
      let fused_scores := fused_scores_of valid_results in
      let top_category := top_category_of fused_scores in
      let fusion_confidence :=
        _calculate_fusion_confidence valid_results (fst top_category) in
      let quality := _assess_fusion_quality valid_results fusion_confidence in
      Some {| dominant_emotion := fst top_category;
              confidence := fusion_confidence;
              all_scores := fused_scores;
              modalities_used := map vr_modality valid_results;
              fusion_method := "weighted_probability";
              fusion_quality := quality |}
  end.

End WeightedFusion.

(** An iteration order of a set enumerates its elements once each. *)
Definition set_iteration (set_order : list string -> list string) : Prop :=
  forall l, NoDup (set_order l) /\ forall x, In x (set_order l) <-> In x l.

End Fusion.

(** * [question_prompts.py] (the functions the check-in flow calls around
    [detect_emotion]) *)

Module Prompts.

(** [self.initial_questions]: the id of each question and the values of
    its options (question text, option text and emoji are left out). *)
Definition initial_questions : list (string * list string) :=
  [ ("energy_level", ["high"; "moderate"; "low"]);
    ("thoughts",     ["racing"; "flowing"; "stuck"]);
    ("physical",     ["tense"; "neutral"; "relaxed"]);
    ("feeling_like", ["crying"; "screaming"; "laughing"; "nothing"]) ].

(** [validate_initial_response] *)
Definition validate_initial_response (question_id response : string) : bool :=
  match find (fun q => String.eqb (fst q) question_id) initial_questions with
  | None => false
  | Some question =>
      let valid_values := snd question in
      existsb (String.eqb response) valid_values
  end.

(** [scores[k] += n] on integer scores *)
Definition additem_int (d : dict Z) (k : string) (n : Z) : py (dict Z) :=
  v <- getitem d k ;; Ok (setitem d k (v + n)%Z).

(** [max(scores.values())] on integers *)
Definition py_max_int (xs : list Z) : py Z :=
  match xs with
  | [] => Raise ValueError
  | x :: xs' => Ok (fold_left (fun m v => if (m <? v)%Z then v else m) xs' x)
  end.

(** [for emotion, score in scores.items(): if score == max_score: return emotion]
    followed by [return 'neutral'] *)
Fixpoint first_with_score (scores : dict Z) (max_score : Z) : string :=
  match scores with
  | [] => "neutral"
  | (emotion, score) :: rest =>
      if (score =? max_score)%Z then emotion else first_with_score rest max_score
  end.

Definition category_scores : dict Z :=
  [ ("anxious", 0%Z); ("sad", 0%Z); ("frustrated", 0%Z); ("overwhelmed", 0%Z);
    ("calm", 0%Z); ("happy", 0%Z); ("neutral", 0%Z); ("tired", 0%Z) ].

Definition score_energy (energy : string) (scores : dict Z) : py (dict Z) :=
  if String.eqb energy "high" then
    s <- additem_int scores "happy" 2 ;; additem_int s "anxious" 1
  else if String.eqb energy "low" then
    s <- additem_int scores "sad" 2 ;;
    s <- additem_int s "tired" 2 ;; additem_int s "neutral" 1
  else Ok scores.

Definition score_thoughts (thoughts : string) (scores : dict Z) : py (dict Z) :=
  if String.eqb thoughts "racing" then
    s <- additem_int scores "anxious" 2 ;; additem_int s "overwhelmed" 1
  else if String.eqb thoughts "stuck" then
    s <- additem_int scores "overwhelmed" 2 ;; additem_int s "sad" 1
  else Ok scores.

Definition score_physical (physical : string) (scores : dict Z) : py (dict Z) :=
  if String.eqb physical "tense" then
    s <- additem_int scores "anxious" 2 ;; additem_int s "frustrated" 1
  else if String.eqb physical "relaxed" then additem_int scores "calm" 2
  else Ok scores.

Definition score_feeling (feeling : string) (scores : dict Z) : py (dict Z) :=
  if String.eqb feeling "crying" then
    s <- additem_int scores "sad" 3 ;; additem_int s "overwhelmed" 1
  else if String.eqb feeling "screaming" then
    s <- additem_int scores "frustrated" 3 ;; additem_int s "anxious" 1
  else if String.eqb feeling "laughing" then additem_int scores "happy" 3
  else if String.eqb feeling "nothing" then
    s <- additem_int scores "neutral" 2 ;; additem_int s "tired" 1
  else Ok scores.

(** The work of [determine_emotion_category] on the four answers read
    from the responses. *)
Definition category_of_answers (energy thoughts physical feeling : string)
  : py string :=
  s <- score_energy energy category_scores ;;
  s <- score_thoughts thoughts s ;;
  s <- score_physical physical s ;;
  s <- score_feeling feeling s ;;
  max_score <- py_max_int (values s) ;;
  if (max_score =? 0)%Z then Ok "neutral"
  else Ok (first_with_score s max_score).

(** The [try] block of [determine_emotion_category]. *)
Definition determine_emotion_category_body (initial_responses : dict string)
  : py string :=
  category_of_answers
    (get_or initial_responses "energy_level" "moderate")
    (get_or initial_responses "thoughts" "flowing")
    (get_or initial_responses "physical" "neutral")
    (get_or initial_responses "feeling_like" "nothing").

(** [determine_emotion_category]: "neutral" on any exception. *)
Definition determine_emotion_category (initial_responses : dict string) : string :=
  match determine_emotion_category_body initial_responses with
  | Ok category => category
  | Raise _ => "neutral"
  end.

End Prompts.

(** * [emotion_detector.py]: the actions of a category *)

Module Actions.

Record Action : Type := {
  action : string;
  action_type : string;       (* the key 'type' *)
  duration : string
}.

Record ActionPlan : Type := {
  immediate : list Action;
  short_term : list Action
}.

Definition act (a t d : string) : Action :=
  {| action := a; action_type := t; duration := d |}.

(** [actions] of [_get_actions_for_emotion] *)
Definition actions : dict ActionPlan :=
  [ ("anxious",
      {| immediate :=
           [ act "3 Deep Breaths" "breathing" "2 min";
             act "5-4-3-2-1 Grounding" "grounding" "3 min";
             act "Quick Body Scan" "mindfulness" "2 min" ];
         short_term :=
           [ act "Take a 10-minute walk" "movement" "10 min";
             act "Write down your worries" "journaling" "15 min";
             act "Text a supportive friend" "social" "5 min" ] |});
    ("sad",
      {| immediate :=
           [ act "Gentle Self-Hug" "self-care" "1 min";
             act "Listen to Comforting Music" "audio" "5 min";
             act "Look at Happy Photos" "visual" "3 min" ];
         short_term :=
           [ act "Take a warm shower" "self-care" "15 min";
             act "Call someone you love" "social" "20 min";
             act "Do something creative" "expression" "30 min" ] |});
    ("frustrated",
      {| immediate :=
           [ act "10 Jumping Jacks" "movement" "1 min";
             act "Scream into Pillow" "release" "30 sec";
             act "Write Frustrations Down" "journaling" "3 min" ];
         short_term :=
           [ act "Go for a run or workout" "movement" "30 min";
             act "Talk to someone about it" "social" "20 min";
             act "Do something productive" "action" "45 min" ] |});
    ("overwhelmed",
      {| immediate :=
           [ act "Brain Dump Everything" "journaling" "5 min";
             act "Pick Just ONE Thing" "focus" "2 min";
             act "Take 5 Deep Breaths" "breathing" "2 min" ];
         short_term :=
           [ act "Make a simple to-do list" "organization" "10 min";
             act "Say no to one thing" "boundaries" "5 min";
             act "Ask for help" "social" "15 min" ] |});
    ("calm",
      {| immediate :=
           [ act "Savor This Moment" "mindfulness" "2 min";
             act "Gentle Stretching" "movement" "5 min";
             act "Gratitude Practice" "mindfulness" "3 min" ];
         short_term :=
           [ act "Plan something you enjoy" "planning" "20 min";
             act "Have a meaningful conversation" "social" "30 min";
             act "Do something creative" "expression" "45 min" ] |});
    ("happy",
      {| immediate :=
           [ act "Share Your Joy" "social" "2 min";
             act "Dance or Move" "movement" "3 min";
             act "Write Down What's Good" "journaling" "3 min" ];
         short_term :=
           [ act "Do something fun" "enjoyment" "30 min";
             act "Help someone else" "service" "20 min";
             act "Plan more good things" "planning" "15 min" ] |});
    ("neutral",
      {| immediate :=
           [ act "Check In With Body" "mindfulness" "2 min";
             act "Do Something Small" "action" "5 min";
             act "Connect With Someone" "social" "3 min" ];
         short_term :=
           [ act "Try something new" "exploration" "30 min";
             act "Reflect on your needs" "journaling" "20 min";
             act "Do something meaningful" "purpose" "45 min" ] |});
    ("tired",
      {| immediate :=
           [ act "Rest Your Eyes" "rest" "3 min";
             act "Drink Water" "self-care" "1 min";
             act "Gentle Stretching" "movement" "2 min" ];
         short_term :=
           [ act "Take a nap" "rest" "20 min";
             act "Go to bed early" "rest" "8 hours";
             act "Reduce commitments" "boundaries" "10 min" ] |}) ].

Definition default_plan : ActionPlan :=
  {| immediate := [ act "Take a deep breath" "breathing" "1 min" ];
     short_term := [ act "Check in with yourself" "mindfulness" "10 min" ] |}.

(** [_get_actions_for_emotion] *)
Definition _get_actions_for_emotion (emotion : string) : ActionPlan :=
  get_or actions emotion default_plan.

End Actions.

(** * [advanced_fusion_system.py]: the details of each modality *)

Module FusionDetails.

Record ModalityDetail : Type := {
  weight : Q;
  top_category : string;
  confidence : Q
}.

Definition modality_detail (r : Fusion.ValidResult) : py ModalityDetail :=
  top <- (match Fusion.vr_scores r with
          | [] => Ok "unknown"
          | _ => t <- py_max_by_value (Fusion.vr_scores r) ;; Ok (fst t)
          end) ;;
  conf <- (match Fusion.vr_scores r with
           | [] => Ok 0
           | _ => py_max (values (Fusion.vr_scores r))
           end) ;;
  Ok {| weight := Fusion.vr_weight r; top_category := top; confidence := conf |}.

(** [_get_modality_details] *)
Definition _get_modality_details (valid_results : list Fusion.ValidResult)
  : py (dict ModalityDetail) :=
  foldM (fun details r =>
           d <- modality_detail r ;;
           Ok (setitem details (Fusion.vr_modality r) d))
        valid_results [].

End FusionDetails.

(** * [emotion_detector.py] in double arithmetic

    The scorers, [_combine_scores], [_calculate_confidence] and the numeric
    part of [detect_emotion] once more, every operation on scores being the
    IEEE double operation that Python carries out: [+], [-], [*] and [/]
    round to nearest, [<] and [>] are false on [nan], a sum may overflow to
    [infinity].  Text, tables and control flow are those of [Detector]. *)

Module Binary64.

(** The double that a decimal literal of the source denotes.  Numerator
    and denominator of the literals used (at most three digits) are exact
    doubles and the division rounds to nearest, which is the double that
    Python reads the literal as. *)
Fixpoint of_pos (p : positive) : float :=
  match p with
  | xH => 1%float
  | xO p' => (2 * of_pos p')%float
  | xI p' => (2 * of_pos p' + 1)%float
  end.

Definition of_Z (z : Z) : float :=
  match z with
  | Z0 => 0%float
  | Zpos p => of_pos p
  | Zneg p => (- of_pos p)%float
  end.

Definition of_decimal (q : Q) : float := (of_Z (Qnum q) / of_pos (Qden q))%float.

(** [x / y] on floats: [ZeroDivisionError] when [y] is a zero. *)
Definition py_div (x y : float) : py float :=
  if PrimFloat.eqb y 0%float then Raise ZeroDivisionError else Ok (x / y)%float.

(** [d[k] += w] *)
Definition additem (d : dict float) (k : string) (w : float) : py (dict float) :=
  v <- getitem d k ;; Ok (setitem d k (v + w)%float).

(** [max(xs)]: an element replaces the current maximum when it is greater. *)
Definition py_max (xs : list float) : py float :=
  match xs with
  | [] => Raise ValueError
  | x :: xs' => Ok (fold_left (fun m v => if PrimFloat.ltb m v then v else m) xs' x)
  end.

(** [min(a, b)]: [b] when it is less than [a], else [a]. *)
Definition py_min (a b : float) : float := if PrimFloat.ltb b a then b else a.

(** [max(d.items(), key=lambda x: x[1])] *)
Definition py_max_by_value (items : dict float) : py (string * float) :=
  match items with
  | [] => Raise ValueError
  | x :: items' =>
      Ok (fold_left
            (fun m it => if PrimFloat.ltb (snd m) (snd it) then it else m)
            items' x)
  end.

(** [sorted(d.items(), key=lambda x: x[1], reverse=True)]: a stable sort.
    On scores that are numbers (no [nan]) every stable sort gives this
    list. *)
Fixpoint insert_desc (x : string * float) (l : dict float) : dict float :=
  match l with
  | [] => [x]
  | y :: l' =>
      if PrimFloat.ltb (snd x) (snd y) then y :: insert_desc x l' else x :: l
  end.

Definition sorted_by_value_desc (items : dict float) : dict float :=
  fold_right insert_desc [] items.

(** [{emotion: 0.0 for emotion in self.emotions.keys()}] *)
Definition zero_scores : dict float :=
  map (fun e => (e, 0%float)) (keys Detector.emotions).

(** [self.question_weights], each literal read as a double. *)
Definition question_weights : dict (dict (dict float)) :=
  map (fun question =>
         (fst question,
          map (fun answer =>
                 (fst answer,
                  map (fun ew => (fst ew, of_decimal (snd ew))) (snd answer)))
              (snd question)))
      Detector.question_weights.

Fixpoint divide_all (scores : dict float) (max_score : float) : py (dict float) :=
  match scores with
  | [] => Ok []
  | (emotion, v) :: rest =>
      q <- py_div v max_score ;;
      rest' <- divide_all rest max_score ;;
      Ok ((emotion, q) :: rest')
  end.

Definition normalize_scores (scores : dict float) : py (dict float) :=
  m <- py_max (values scores) ;;
  let max_score := if PrimFloat.ltb 0%float m then m else 1%float in
  divide_all scores max_score.

Definition answer_weights (question answer : string) : dict float :=
  match get question_weights question with
  | Some answers =>
      match get answers answer with
      | Some weights => weights
      | None => []
      end
  | None => []
  end.

Definition add_weights (scores : dict float) (weights : dict float)
  : py (dict float) :=
  foldM (fun s ew => additem s (fst ew) (snd ew)) weights scores.

Definition initial_counts (responses : dict string) : py (dict float) :=
  foldM (fun s qa => add_weights s (answer_weights (fst qa) (snd qa)))
        responses zero_scores.

Definition _score_initial_responses (responses : dict string) : py (dict float) :=
  scores <- initial_counts responses ;;
  normalize_scores scores.

Definition scan_keywords (response_lower : string) (emotion : string)
  (keywords : list string) (scores : dict float) : py (dict float) :=
  foldM (fun s keyword =>
           if PyStr.contains keyword response_lower
           then additem s emotion 1.0%float else Ok s)
        keywords scores.

Definition scan_response (scores : dict float) (response_text : string)
  : py (dict float) :=
  if Detector.skipped response_text then Ok scores
  else
    let response_lower := PyStr.lower response_text in
    foldM (fun s ek => scan_keywords response_lower (fst ek) (snd ek) s)
          Detector.emotion_keywords scores.

Definition journaling_counts (responses : dict string) : py (dict float) :=
  foldM (fun s r => scan_response s (snd r)) responses zero_scores.

Definition _score_journaling_responses (responses : dict string)
  : py (dict float) :=
  match responses with
  | [] => Ok zero_scores
  | _ =>
      scores <- journaling_counts responses ;;
      normalize_scores scores
  end.

(** Analyzer output as the scorers read it: the entry 'cluster_scores',
    and whether the dictionary holds any other key (which matters for its
    truth value alone). *)
Record Analysis : Type := {
  native_scores : option (dict float);
  has_other_keys : bool
}.

Definition analysis_truthy (data : option Analysis) : bool :=
  match data with
  | None => false
  | Some d => is_some (native_scores d) || has_other_keys d
  end.

Definition mapped_counts (mapping : dict string) (scores : dict float)
  : py (dict float) :=
  foldM (fun s es =>
           match get mapping (fst es) with
           | Some mapped_emotion => additem s mapped_emotion (snd es)
           | None => Ok s
           end)
        scores zero_scores.

Definition score_modality (mapping : dict string) (data : option Analysis)
  : py (dict float) :=
  if negb (analysis_truthy data) then Ok zero_scores
  else
    match data with
    | None => Ok zero_scores
    | Some d =>
        match native_scores d with
        | None => Ok zero_scores
        | Some scores =>
            counts <- mapped_counts mapping scores ;;
            normalize_scores counts
        end
    end.

Definition _score_face (face_data : option Analysis) : py (dict float) :=
  score_modality Detector.face_mapping face_data.

Definition _score_voice (voice_data : option Analysis) : py (dict float) :=
  score_modality Detector.voice_mapping voice_data.

(** [_combine_scores]: the four products are added from left to right. *)
Definition combined_score (initial_scores journaling_scores face_scores
  voice_scores : dict float) (emotion : string) : float :=
  (get_or initial_scores emotion 0 * 0.3 +
   get_or journaling_scores emotion 0 * 0.4 +
   get_or face_scores emotion 0 * 0.2 +
   get_or voice_scores emotion 0 * 0.1)%float.

Definition _combine_scores (initial_scores journaling_scores face_scores
  voice_scores : dict float) : dict float :=
  fold_left
    (fun final_scores emotion =>
       setitem final_scores emotion
         (combined_score initial_scores journaling_scores face_scores
            voice_scores emotion))
    (keys Detector.emotions) zero_scores.

(** [_calculate_confidence] *)
Definition separation_boost (separation : float) : float :=
  if PrimFloat.ltb 0.3 separation then 0.35%float
  else if PrimFloat.ltb 0.15 separation then (separation * 0.5)%float
  else (separation * 0.2)%float.

Definition _calculate_confidence (scores : dict float)
  (dominant_emotion : string * float) : float :=
  let score := snd dominant_emotion in
  let confidence := score in
  let sorted_scores := sorted_by_value_desc scores in
  let confidence :=
    match sorted_scores with
    | _ :: (_, second_best) :: _ =>
        let separation := (score - second_best)%float in
        (confidence + separation_boost separation)%float
    | _ => confidence
    end in
  let confidence :=
    if PrimFloat.ltb score 0.3 then (confidence * 0.7)%float
    else if PrimFloat.ltb 0.6 score then py_min (confidence + 0.15)%float 1.0%float
    else confidence in
  py_min confidence 1.0%float.

(** The numeric part of the record [detect_emotion] returns. *)
Record Detection : Type := {
  emotion : string;
  confidence : float;
  all_scores : dict float
}.

Definition _get_fallback_result : Detection :=
  {| emotion := "neutral";
     confidence := 0.5%float;
     all_scores := [("neutral", 0.5%float)] |}.

Definition detect_emotion_body (initial_responses journaling_responses : dict string)
  (face_data voice_data : option Analysis) : py Detection :=
  initial_scores <- _score_initial_responses initial_responses ;;
  journaling_scores <- _score_journaling_responses journaling_responses ;;
  face_scores <-
    (if analysis_truthy face_data then _score_face face_data else Ok []) ;;
  voice_scores <-
    (if analysis_truthy voice_data then _score_voice voice_data else Ok []) ;;
  let final_scores :=
    _combine_scores initial_scores journaling_scores face_scores voice_scores in
  dominant_emotion <- py_max_by_value final_scores ;;
  let conf := _calculate_confidence final_scores dominant_emotion in
  _ <- getitem Detector.emotions (fst dominant_emotion) ;;
  Ok {| emotion := fst dominant_emotion;
        confidence := conf;
        all_scores := final_scores |}.

Definition detect_emotion (initial_responses journaling_responses : dict string)
  (face_data voice_data : option Analysis) : Detection :=
  match detect_emotion_body initial_responses journaling_responses
          face_data voice_data with
  | Ok result => result
  | Raise _ => _get_fallback_result
  end.

End Binary64.

(** * Notions used to state the properties *)

(** The score of a category in a score map; an absent category scores 0. *)
Definition val (s : dict Q) (e : string) : Q := get_or s e 0.

Definition nonneg (s : dict Q) : Prop := Forall (fun kv => 0 <= snd kv) s.

Definition all_zero (s : dict Q) : Prop := Forall (fun kv => snd kv == 0) s.

Definition has_positive (s : dict Q) : Prop := Exists (fun kv => 0 < snd kv) s.

(** Two score maps with the same keys in the same order and equal scores. *)
Definition scores_eq (s s' : dict Q) : Prop :=
  Forall2 (fun a b => fst a = fst b /\ snd a == snd b) s s'.

(** What a sequence of [d[k] += w] adds to the entry of [e]. *)
Definition sum_for (e : string) (adds : dict Q) : Q :=
  fold_right (fun kw acc => (if String.eqb (fst kw) e then snd kw else 0) + acc)
             0 adds.

(** The increments [scores[k] += w] that the counting loops carry out, in
    the order in which they carry them out. *)
Definition initial_increments (responses : dict string) : dict Q :=
  flat_map (fun qa => Detector.answer_weights (fst qa) (snd qa)) responses.

Definition keyword_increments (response_lower emotion : string)
  (keywords : list string) : dict Q :=
  flat_map (fun keyword =>
              if PyStr.contains keyword response_lower
              then [(emotion, 1.0)] else [])
           keywords.

Definition response_increments (response_text : string) : dict Q :=
  if Detector.skipped response_text then []
  else flat_map (fun ek => keyword_increments (PyStr.lower response_text)
                             (fst ek) (snd ek))
                Detector.emotion_keywords.

Definition journaling_increments (responses : dict string) : dict Q :=
  flat_map (fun r => response_increments (snd r)) responses.

Definition mapped_increments (mapping : dict string) (native_scores : dict Q)
  : dict Q :=
  flat_map (fun es =>
              match get mapping (fst es) with
              | Some mapped_emotion => [(mapped_emotion, snd es)]
              | None => []
              end)
           native_scores.

(** Every key of [adds] is a category of the registry. *)
Definition keys_known (adds : dict Q) : bool :=
  forallb (fun kw => existsb (String.eqb (fst kw)) (keys Detector.emotions)) adds.

Definition weights_nonneg (adds : dict Q) : bool :=
  forallb (fun kw => Qle_bool 0 (snd kw)) adds.

(** The native scores of an analyzer are non-negative. *)
Definition data_nonneg (data : option ModalityData) : Prop :=
  match data with
  | Some d =>
      match cluster_scores d with
      | Some native_scores => nonneg native_scores
      | None => True
      end
  | None => True
  end.

(** A modality abstains: no data at all, or data with no score map or an
    empty one, and no category of its own. *)
Definition modality_abstains (data : option ModalityData) : Prop :=
  match data with
  | None => True
  | Some d =>
      (cluster_scores d = None \/ cluster_scores d = Some []) /\
      actionable_category d = None
  end.

(** What the specification promises when every source abstains. *)
Definition abstention_default (r : Detector.Detection) : Prop :=
  Detector.emotion r = "calm" /\ Detector.confidence r == 0 /\
  Detector.indicators r = [].

(** No modality hands a score to the quality-adjusted fusion. *)
Definition no_modality_scores (modality_results : dict (option ModalityData))
  : Prop :=
  Forall (fun md =>
            match snd md with
            | None => True
            | Some data =>
                Fusion.among_modalities (fst md) = true /\
                cluster_scores data = Some []
            end)
         modality_results.

(** The confidence estimator in the words of the specification. *)
Definition margin_boost (margin : Q) : Q :=
  if Qltb 0.3 margin then 0.35
  else if Qltb 0.15 margin then 0.5 * margin
  else 0.2 * margin.

Definition strength_adjust (score conf : Q) : Q :=
  if Qltb score 0.3 then conf * 0.7
  else if Qltb 0.6 score then conf + 0.15
  else conf.

Definition clamp01 (x : Q) : Q := Qmax 0 (Qmin x 1).

(** [second] is the second-highest score of the map (counted with
    multiplicity: it equals the highest when the highest occurs twice). *)
Definition second_highest_of (scores : dict Q) (second : Q) : Prop :=
  exists top rest,
    Permutation (values scores) (top :: second :: rest) /\
    second <= top /\ Forall (fun x => x <= second) rest.

Definition nonzero_count (scores : dict Q) : nat :=
  List.length (filter (fun kv => negb (Qeq_bool (snd kv) 0)) scores).

(** The margin as the specification has it: 0 when only one category has
    a non-zero score. *)
Definition claimed_margin (scores : dict Q) (score second : Q) : Q :=
  if (nonzero_count scores <=? 1)%nat then 0 else score - second.

Definition claimed_confidence (scores : dict Q) (score second : Q) : Q :=
  clamp01 (strength_adjust score
             (score + margin_boost (claimed_margin scores score second))).

(** The fused scores of the journaling note "I am worried" with no other
    input: one keyword of "anxious", nothing else. *)
Definition worried_scores : dict Q :=
  [ ("anxious", 0.4); ("sad", 0); ("frustrated", 0); ("overwhelmed", 0);
    ("calm", 0); ("happy", 0); ("neutral", 0); ("tired", 0) ].

(** Scores in descending order. *)
Definition descending (l : dict Q) : Prop :=
  StronglySorted (fun a b => snd b <= snd a) l.

(** The keyword scorer in the words of the specification. *)
Definition Q_of_nat (n : nat) : Q := inject_Z (Z.of_nat n).

(** Empty or whitespace only. *)
Fixpoint is_blank (s : string) : bool :=
  match s with
  | EmptyString => true
  | String c s' => PyStr.is_space c && is_blank s'
  end.

(** The number of configured keywords (entries of the list) that occur in
    the lower-cased response: an entry counts once however often it recurs
    in the text. *)
Definition keyword_hits (keywords : list string) (response_lower : string) : nat :=
  List.length
    (filter (fun keyword => PyStr.contains keyword response_lower) keywords).

Definition response_hits (keywords : list string) (response_text : string) : nat :=
  if is_blank response_text then 0%nat
  else keyword_hits keywords (PyStr.lower response_text).

Definition total_hits (keywords : list string) (responses : dict string) : nat :=
  fold_right (fun r n => (response_hits keywords (snd r) + n)%nat) 0%nat responses.

(** What the keyword [keyword] alone adds to the count of a category whose
    list is [keywords], and what the other keywords of the list add. *)
Definition keyword_adds (keywords : list string) (keyword response_lower : string)
  : nat :=
  keyword_hits (filter (String.eqb keyword) keywords) response_lower.

Definition other_keywords (keywords : list string) (keyword : string) : list string :=
  filter (fun k => negb (String.eqb keyword k)) keywords.

(** Quality-adjusted fusion in the words of the specification. *)
Definition sumQ (l : list Q) : Q := fold_right Qplus 0 l.

(** The sources that have an entry for [category]. *)
Definition contributing (sources : list Fusion.ValidResult) (category : string)
  : list Fusion.ValidResult :=
  filter (fun s => mem category (Fusion.vr_scores s)) sources.

Definition weighted_average (sources : list Fusion.ValidResult) (category : string)
  : Q :=
  sumQ (map (fun s => val (Fusion.vr_scores s) category * Fusion.vr_weight s)
            (contributing sources category)) /
  sumQ (map Fusion.vr_weight (contributing sources category)).

Definition base_weight (modality : string) : Q :=
  if String.eqb modality "text" then 1.0
  else if String.eqb modality "voice" then 0.8
  else if String.eqb modality "face" then 0.7
  else 0.5.

Definition quality_boost (modality : string) (data : ModalityData) : Q :=
  Fusion.stress_boost modality data + Fusion.ensemble_boost modality data +
  Fusion.confidence_boost data.

(** Analyzer output that holds a score map and nothing else. *)
Definition scores_only (cs : dict Q) : ModalityData :=
  {| cluster_scores := Some cs;
     actionable_category := None;
     category_confidence := None;
     confidence_key := None;
     stress_analysis := None;
     ensemble_info := None;
     other_keys := false |}.

(** One admissible iteration order of a set: each key where it was
    inserted last. *)
Definition last_seen_order (l : list string) : list string := nodup string_dec l.

(** Source [s] with its score for [category] set to [x]. *)
Definition with_score (s : Fusion.ValidResult) (category : string) (x : Q)
  : Fusion.ValidResult :=
  (Fusion.vr_modality s, setitem (Fusion.vr_scores s) category x,
   Fusion.vr_weight s).

(** Two fusion inputs that differ in one score: the text analyzer scores
    "anxious" 0.9 in both; the face analyzer scores "calm" 0.1 and, in the
    second input, "anxious" 0.1 as well, a category it did not score in the
    first (absent, that is 0). *)
Definition fusion_without_face_anxious : dict (option ModalityData) :=
  [ ("text", Some (scores_only [("anxious", 0.9)]));
    ("face", Some (scores_only [("calm", 0.1)])) ].

Definition fusion_with_face_anxious : dict (option ModalityData) :=
  [ ("text", Some (scores_only [("anxious", 0.9)]));
    ("face", Some (scores_only (setitem [("calm", 0.1)] "anxious" 0.1))) ].

Definition fused_at (o : option Fusion.FusionResult) (category : string) : Q :=
  match o with
  | Some r => val (Fusion.all_scores r) category
  | None => 0
  end.

(** [winner] is the first key of [order] with the greatest score in
    [scores]: the keys before it score strictly less, the keys after it
    score no more. *)
Definition first_greatest (order : list string) (scores : dict Q)
  (winner : string) : Prop :=
  exists before after,
    order = before ++ winner :: after /\
    (forall e, In e before -> val scores e < val scores winner) /\
    (forall e, In e after -> val scores e <= val scores winner).

(** [a] stands before [b] in [l]. *)
Definition precedes (a b : string) (l : list string) : Prop :=
  exists l1 l2 l3, l = l1 ++ a :: l2 ++ b :: l3.

(** A tie in the quality-adjusted fusion: one analyzer scores "calm" and
    "anxious" 0.5 each. *)
Definition tie_calm_first : dict (option ModalityData) :=
  [ ("text", Some (scores_only [("calm", 0.5); ("anxious", 0.5)])) ].

(** Every score lies in [0, 1]. *)
Definition unit_scores (s : dict Q) : Prop :=
  Forall (fun kv => 0 <= snd kv <= 1) s.

(** [question in self.question_weights and answer in self.question_weights[question]] *)
Definition known_answer (question answer : string) : bool :=
  match get Detector.question_weights question with
  | Some answers => mem answer answers
  | None => false
  end.

(** [response_text and len(response_text.strip()) > 10] *)
Definition substantial (response_text : string) : bool :=
  PyStr.truthy response_text &&
  (10 <? String.length (PyStr.strip response_text))%nat.

(** The (question, answer) pairs that [validate_initial_response] accepts. *)
Definition valid_pairs : list (string * string) :=
  flat_map (fun q => map (fun v => (fst q, v)) (snd q)) Prompts.initial_questions.

(** The detail [d] describes the source [s]: its weight, and a category of
    its score map together with that category's score, which no other score
    of the map exceeds. *)
Definition describes (s : Fusion.ValidResult) (d : FusionDetails.ModalityDetail)
  : Prop :=
  FusionDetails.weight d = Fusion.vr_weight s /\
  In (FusionDetails.top_category d, FusionDetails.confidence d)
     (Fusion.vr_scores s) /\
  Forall (fun kv => snd kv <= FusionDetails.confidence d) (Fusion.vr_scores s).

(** The native scores of an analyzer lie in [0, 1], the range of the
    cluster scores the analyzers produce. *)
Definition data_unit (data : option ModalityData) : Prop :=
  match data with
  | Some d =>
      match cluster_scores d with
      | Some native_scores => unit_scores native_scores
      | None => True
      end
  | None => True
  end.

(** Analyzer output that holds nothing at all: the empty dictionary. *)
Definition empty_data : ModalityData :=
  {| cluster_scores := None;
     actionable_category := None;
     category_confidence := None;
     confidence_key := None;
     stress_analysis := None;
     ensemble_info := None;
     other_keys := false |}.

(** The modality hands a score to the quality-adjusted fusion: its data is
    there, and it is not a text, face or voice analysis whose score map is
    empty (data without a score map is given a score by the fusion). *)
Definition gives_scores (md : string * option ModalityData) : bool :=
  match snd md with
  | None => false
  | Some data =>
      match cluster_scores data with
      | Some [] => negb (Fusion.among_modalities (fst md))
      | _ => true
      end
  end.

(** The boosts of a source's weight, in the words of the specification:
    +0.2 for a voice source whose stress analysis gives a likelihood above
    0.5, +0.1 for a face source whose ensemble information mentions an
    ensemble, +0.1 for a source that states a confidence above 0.7 (its
    category confidence or, when that is missing or zero, its overall
    confidence). *)
Definition clear_stress (data : ModalityData) : bool :=
  match stress_analysis data with
  | Some analysis => Qltb 0.5 (val analysis "stress_likelihood")
  | None => false
  end.

Definition models_agree (data : ModalityData) : bool :=
  match ensemble_info data with
  | Some info => PyStr.contains "ensemble" (PyStr.lower info)
  | None => false
  end.

Definition stated_confidence (data : ModalityData) : Q :=
  let overall := match confidence_key data with Some c => c | None => 0 end in
  match category_confidence data with
  | Some c => if Qeq_bool c 0 then overall else c
  | None => overall
  end.

Definition claimed_boost (modality : string) (data : ModalityData) : Q :=
  (if String.eqb modality "voice" && clear_stress data then 0.2 else 0) +
  (if String.eqb modality "face" && models_agree data then 0.1 else 0) +
  (if Qltb 0.7 (stated_confidence data) then 0.1 else 0).

(** A fusion input in which every weight is boosted: a text analysis that
    states a confidence of 0.9, a voice analysis with a clear stress
    reading, a face analysis made by an ensemble. *)
Definition confident_text : ModalityData :=
  {| cluster_scores := Some [("anxious", 0.8); ("calm", 0.1)];
     actionable_category := None;
     category_confidence := None;
     confidence_key := Some 0.9;
     stress_analysis := None;
     ensemble_info := None;
     other_keys := false |}.

Definition stressed_voice : ModalityData :=
  {| cluster_scores := Some [("anxious", 0.6)];
     actionable_category := None;
     category_confidence := None;
     confidence_key := None;
     stress_analysis := Some [("stress_likelihood", 0.9)];
     ensemble_info := None;
     other_keys := false |}.

Definition ensemble_face : ModalityData :=
  {| cluster_scores := Some [("calm", 0.4)];
     actionable_category := None;
     category_confidence := None;
     confidence_key := None;
     stress_analysis := None;
     ensemble_info := Some "Ensemble of 3 models";
     other_keys := false |}.

Definition boosted_sources : dict (option ModalityData) :=
  [ ("text", Some confident_text); ("voice", Some stressed_voice);
    ("face", Some ensemble_face) ].

(** Text made of ASCII characters only: one byte is one character, so
    that [String.length] is Python's [len]. *)
Definition is_ascii (s : string) : bool :=
  forallb (fun c => (nat_of_ascii c <? 128)%nat) (list_ascii_of_string s).

(** ** Notions on doubles *)

(** No score is [nan]. *)
Definition no_nan (scores : dict float) : Prop :=
  Forall (fun kv => PrimFloat.is_nan (snd kv) = false) scores.

(** Scores in descending order: no entry is greater than an earlier one. *)
Definition descending_f (l : dict float) : Prop :=
  StronglySorted (fun a b => PrimFloat.ltb (snd a) (snd b) = false) l.

(** The confidence estimator in the words of the specification, every
    comparison and operation on the computed doubles. *)
Definition margin_boost_f (margin : float) : float :=
  if PrimFloat.ltb 0.3 margin then 0.35%float
  else if PrimFloat.ltb 0.15 margin then (margin * 0.5)%float
  else (margin * 0.2)%float.

Definition strength_adjust_f (score conf : float) : float :=
  if PrimFloat.ltb score 0.3 then (conf * 0.7)%float
  else if PrimFloat.ltb 0.6 score then (conf + 0.15)%float
  else conf.

Definition cap_at_one (x : float) : float :=
  if PrimFloat.ltb 1 x then 1%float else x.

(** The dominant score plus the boost of its margin over the second entry
    of [arrangement]; no boost when there is no second entry. *)
Definition boosted (score : float) (arrangement : dict float) : float :=
  match arrangement with
  | _ :: (_, second) :: _ => (score + margin_boost_f (score - second))%float
  | _ => score
  end.

(** The score of a category in a map of doubles; an absent category
    scores 0. *)
Definition val_f (s : dict float) (e : string) : float := get_or s e 0%float.

(** [winner] is the first key of [order] with the greatest score in
    [scores]: the keys before it score less, no key after it scores more. *)
Definition first_greatest_f (order : list string) (scores : dict float)
  (winner : string) : Prop :=
  exists before after,
    order = before ++ winner :: after /\
    (forall e, In e before ->
       PrimFloat.ltb (val_f scores e) (val_f scores winner) = true) /\
    (forall e, In e after ->
       PrimFloat.ltb (val_f scores winner) (val_f scores e) = false).

(** [c] lies in [0, 1]. *)
Definition in_unit_interval (c : float) : bool :=
  PrimFloat.leb 0 c && PrimFloat.leb c 1.

(** Two fused scores 0.3 apart as decimals: the computed margin
    [0.4 - 0.1] is 0.30000000000000004. *)
Definition close_scores : dict float :=
  [ ("anxious", 0.4%float); ("sad", 0.1%float) ].

(** The same three answers in two iteration orders. *)
Definition answers_energy_first : dict string :=
  [ ("energy_level", "moderate"); ("physical", "neutral");
    ("feeling_like", "nothing") ].

Definition answers_feeling_first : dict string :=
  [ ("feeling_like", "nothing"); ("energy_level", "moderate");
    ("physical", "neutral") ].

(** A face analysis with two huge, non-negative scores that map to the
    same category. *)
Definition overflowing_face : Binary64.Analysis :=
  {| Binary64.native_scores :=
       Some [ ("stressed", 1e308%float); ("anxious", 1e308%float) ];
     Binary64.has_other_keys := false |}.

(** * Properties *)

(** ** Comparisons *)

Lemma Qltb_lt (x y : Q) : Qltb x y = true <-> x < y.
Proof.
  unfold Qltb. rewrite negb_true_iff.
  split; intro H.
  - apply Qnot_le_lt. intro L. apply Qle_bool_iff in L. congruence.
  - destruct (Qle_bool y x) eqn:E; [|reflexivity].
    apply Qle_bool_iff in E. exfalso. apply (Qlt_not_le _ _ H E).
Qed.

Lemma Qltb_ge (x y : Q) : Qltb x y = false <-> y <= x.
Proof.
  unfold Qltb. rewrite negb_false_iff. apply Qle_bool_iff.
Qed.

Lemma Qltb_cases (x y : Q) :
  (Qltb x y = true /\ x < y) \/ (Qltb x y = false /\ y <= x).
Proof.
  destruct (Qltb x y) eqn:E; [left|right]; split; auto.
  - now apply Qltb_lt.
  - now apply Qltb_ge.
Qed.

#[global] Instance Qltb_proper : Proper (Qeq ==> Qeq ==> eq) Qltb.
Proof.
  intros a b Hab c d Hcd. unfold Qltb. now rewrite Hab, Hcd.
Qed.

Ltac case_Qltb x y :=
  let E := fresh "E" in
  let L := fresh "L" in
  destruct (Qltb_cases x y) as [[E L]|[E L]]; rewrite ?E in *.

(** ** The exception monad *)

Lemma bind_Ok {A B : Type} (c : py A) (k : A -> py B) (b : B) :
  bind c k = Ok b -> exists a, c = Ok a /\ k a = Ok b.
Proof.
  destruct c as [a|e]; simpl; intro H; [eauto | discriminate].
Qed.

Lemma foldM_app {A B : Type} (f : A -> B -> py A) (l1 l2 : list B) (a : A) :
  foldM f (l1 ++ l2) a = (a' <- foldM f l1 a ;; foldM f l2 a').
Proof.
  revert a. induction l1 as [|x l1 IH]; intro a; simpl; [reflexivity|].
  destruct (f a x); simpl; auto.
Qed.

Lemma foldM_ext {A B : Type} (f g : A -> B -> py A) (l : list B) (a : A) :
  (forall a x, In x l -> f a x = g a x) -> foldM f l a = foldM g l a.
Proof.
  revert a. induction l as [|x l IH]; intros a H; simpl; [reflexivity|].
  rewrite (H a x (or_introl eq_refl)).
  destruct (g a x); simpl; [|reflexivity].
  apply IH. intros; apply H; now right.
Qed.

(** A loop of loops is one loop over the concatenated work. *)
Lemma foldM_flat_map {A B C : Type} (f : A -> C -> py A) (g : B -> list C)
  (l : list B) (a : A) :
  foldM (fun s x => foldM f (g x) s) l a = foldM f (flat_map g l) a.
Proof.
  revert a. induction l as [|x l IH]; intro a; simpl; [reflexivity|].
  rewrite foldM_app. destruct (foldM f (g x) a); simpl; auto.
Qed.

(** An invariant of the loop body is an invariant of the loop. *)
Lemma foldM_invariant {A B : Type} (P : A -> Prop) (f : A -> B -> py A)
  (l : list B) :
  (forall a x a', In x l -> P a -> f a x = Ok a' -> P a') ->
  forall a a', P a -> foldM f l a = Ok a' -> P a'.
Proof.
  induction l as [|x l IH]; intros Hf a a' Ha H; simpl in H.
  - now inversion H; subst.
  - apply bind_Ok in H as (a1 & H1 & H2).
    apply (IH (fun a x a' Hx => Hf a x a' (or_intror Hx)) a1 a'); auto.
    apply (Hf a x a1); simpl; auto.
Qed.

(** ** Dictionaries *)

Lemma get_setitem {V : Type} (d : dict V) (k k' : string) (v : V) :
  get (setitem d k v) k' = if String.eqb k k' then Some v else get d k'.
Proof.
  induction d as [|[k0 v0] d IH]; simpl.
  - reflexivity.
  - destruct (String.eqb k0 k) eqn:E0; simpl.
    + apply String.eqb_eq in E0; subst k0.
      destruct (String.eqb k k'); reflexivity.
    + destruct (String.eqb k0 k') eqn:E1.
      * apply String.eqb_eq in E1; subst k0.
        rewrite String.eqb_sym, E0. reflexivity.
      * exact IH.
Qed.

Lemma keys_setitem {V : Type} (d : dict V) (k : string) (v : V) :
  In k (keys d) -> keys (setitem d k v) = keys d.
Proof.
  induction d as [|[k0 v0] d IH]; simpl; intro H; [contradiction|].
  destruct (String.eqb k0 k) eqn:E; simpl; [reflexivity|].
  f_equal. apply IH. destruct H as [H|H]; [|exact H].
  subst. rewrite String.eqb_refl in E. discriminate.
Qed.

Lemma get_Some_In {V : Type} (d : dict V) (k : string) (v : V) :
  get d k = Some v -> In (k, v) d.
Proof.
  induction d as [|[k0 v0] d IH]; simpl; [discriminate|].
  destruct (String.eqb k0 k) eqn:E.
  - apply String.eqb_eq in E. intro H; inversion H; subst. now left.
  - intro H. right. now apply IH.
Qed.

Lemma In_keys_get {V : Type} (d : dict V) (k : string) :
  In k (keys d) -> exists v, get d k = Some v.
Proof.
  induction d as [|[k0 v0] d IH]; simpl; [contradiction|].
  intros [H|H]; destruct (String.eqb k0 k) eqn:E; eauto.
  subst. rewrite String.eqb_refl in E. discriminate.
Qed.

Lemma In_get_NoDup {V : Type} (d : dict V) (k : string) (v : V) :
  NoDup (keys d) -> In (k, v) d -> get d k = Some v.
Proof.
  induction d as [|[k0 v0] d IH]; simpl; [contradiction|].
  intros ND [H|H].
  - inversion H; subst. now rewrite String.eqb_refl.
  - inversion ND as [|? ? Hn ND']; subst.
    destruct (String.eqb k0 k) eqn:E.
    + apply String.eqb_eq in E; subst. exfalso. apply Hn.
      apply (in_map fst) in H. exact H.
    + now apply IH.
Qed.

(** ** [max] *)

Lemma fold_max_spec (l : list Q) (x : Q) :
  In (fold_left (fun m v => if Qltb m v then v else m) l x) (x :: l) /\
  Forall (fun v => v <= fold_left (fun m v => if Qltb m v then v else m) l x)
         (x :: l).
Proof.
  revert x. induction l as [|y l IH]; intro x; simpl.
  - split; [now left | constructor; [apply Qle_refl | constructor]].
  - destruct (IH (if Qltb x y then y else x)) as [Hin Hall].
    inversion Hall as [|? ? Hx' Hl]; subst.
    split.
    + destruct Hin as [Hin|Hin]; [|now right; right].
      rewrite <- Hin. destruct (Qltb x y); [right; now left | now left].
    + case_Qltb x y.
      * constructor; [|constructor; auto]. apply Qlt_le_weak in L.
        eapply Qle_trans; eauto.
      * constructor; [auto|constructor; auto]. eapply Qle_trans; eauto.
Qed.

Lemma py_max_spec (l : list Q) (m : Q) :
  py_max l = Ok m -> In m l /\ Forall (fun v => v <= m) l.
Proof.
  destruct l as [|x l]; simpl; [discriminate|].
  intro H; inversion H; subst. apply fold_max_spec.
Qed.

Lemma py_max_total (l : list Q) : l <> [] -> exists m, py_max l = Ok m.
Proof.
  destruct l; [congruence | simpl; eauto].
Qed.

(** ** Normalisation *)

Lemma divide_all_Ok (scores : dict Q) (d : Q) :
  ~ d == 0 ->
  Detector.divide_all scores d = Ok (map (fun kv => (fst kv, snd kv / d)) scores).
Proof.
  intro Hd. induction scores as [|[e v] s IH]; simpl; [reflexivity|].
  unfold py_div. destruct (Qeq_bool d 0) eqn:E.
  - apply Qeq_bool_iff in E. contradiction.
  - simpl. rewrite IH. reflexivity.
Qed.

Lemma normalize_scores_Ok (scores : dict Q) :
  scores <> [] ->
  exists m, py_max (values scores) = Ok m /\
    Detector.normalize_scores scores =
      Ok (map (fun kv => (fst kv, snd kv / (if Qltb 0 m then m else 1))) scores).
Proof.
  intro H. destruct (py_max_total (values scores)) as [m Hm].
  { destruct scores; [congruence | discriminate]. }
  exists m. split; [exact Hm|].
  unfold Detector.normalize_scores. rewrite Hm; simpl.
  apply divide_all_Ok. case_Qltb 0 m; lra.
Qed.

Lemma keys_scaled (scores : dict Q) (d : Q) :
  keys (map (fun kv => (fst kv, snd kv / d)) scores) = keys scores.
Proof.
  unfold keys. rewrite map_map. reflexivity.
Qed.

Lemma In_values_scaled (scores : dict Q) (d x : Q) :
  In x (values (map (fun kv => (fst kv, snd kv / d)) scores)) ->
  exists v, In v (values scores) /\ x = v / d.
Proof.
  unfold values. rewrite map_map; simpl. intro H.
  apply in_map_iff in H as (kv & Hx & Hin).
  exists (snd kv). split; [now apply in_map | now symmetry].
Qed.

Lemma scaled_by_one (scores : dict Q) (d : Q) :
  d == 1 -> scores_eq (map (fun kv => (fst kv, snd kv / d)) scores) scores.
Proof.
  intro Hd. induction scores as [|[e v] s IH]; simpl; constructor; auto.
  simpl. split; [reflexivity|]. rewrite Hd. field.
Qed.

Lemma max_of_normalized (scores : dict Q) (m : Q) :
  py_max (values scores) = Ok m -> 0 < m ->
  forall m', py_max (values (map (fun kv => (fst kv, snd kv / m)) scores)) = Ok m' ->
  m' == 1.
Proof.
  intros Hm Hpos m' Hm'.
  apply py_max_spec in Hm as [Hin Hall].
  apply py_max_spec in Hm' as [Hin' Hall'].
  apply Qle_antisym.
  - apply In_values_scaled in Hin' as (v & Hv & ->).
    rewrite Forall_forall in Hall. specialize (Hall v Hv).
    apply Qle_shift_div_r; lra.
  - rewrite Forall_forall in Hall'.
    assert (In (m / m) (values (map (fun kv => (fst kv, snd kv / m)) scores))) as H.
    { unfold values in *. rewrite map_map; simpl.
      apply in_map_iff in Hin as (kv & <- & Hkv).
      apply in_map_iff. exists kv. split; auto. }
    specialize (Hall' _ H).
    assert (m / m == 1) as E by (field; lra).
    now rewrite E in Hall'.
Qed.

(** C5. The normalisation that closes every scorer: it never raises on a
    non-empty score map (no division by zero); a map with a strictly positive
    entry comes out with maximum exactly 1; an all-zero map comes out
    unchanged, all-zero; and normalising a normalised map changes nothing. *)
Theorem normalize_scores_max_one_idempotent (scores : dict Q) :
  scores <> [] ->
  exists n, Detector.normalize_scores scores = Ok n /\
    keys n = keys scores /\
    (has_positive scores -> exists m, py_max (values n) = Ok m /\ m == 1) /\
    (all_zero scores -> scores_eq n scores /\ all_zero n) /\
    (exists n', Detector.normalize_scores n = Ok n' /\ scores_eq n' n).
Proof.
  intro Hne.
  destruct (normalize_scores_Ok scores Hne) as (m & Hm & Hn).
  set (d := if Qltb 0 m then m else 1) in *.
  set (n := map (fun kv => (fst kv, snd kv / d)) scores) in *.
  assert (Hn_ne : n <> []).
  { subst n. destruct scores; [congruence | discriminate]. }
  exists n. split; [exact Hn|]. split; [apply keys_scaled|].
  destruct (normalize_scores_Ok n Hn_ne) as (m2 & Hm2 & Hn2).
  pose proof (py_max_spec _ _ Hm) as [Hin Hall].
  rewrite Forall_forall in Hall.
  split; [|split].
  - (* maximum 1 *)
    intro Hpos. exists m2. split; [exact Hm2|].
    apply Exists_exists in Hpos as (kv & Hkv & Hv).
    assert (0 < m) as Hmpos.
    { eapply Qlt_le_trans; [exact Hv|]. apply Hall.
      unfold values. now apply in_map. }
    subst n d. apply Qltb_lt in Hmpos as Hb. rewrite Hb in *.
    exact (max_of_normalized scores m Hm Hmpos m2 Hm2).
  - (* all-zero *)
    intro Hz.
    assert (m == 0) as Hm0.
    { unfold all_zero in Hz. rewrite Forall_forall in Hz.
      unfold values in Hin. apply in_map_iff in Hin as (kv & <- & Hkv).
      now apply Hz. }
    assert (d == 1) as Hd.
    { subst d. case_Qltb 0 m; [lra | reflexivity]. }
    pose proof (scaled_by_one scores d Hd) as Heq. fold n in Heq.
    split; [exact Heq|].
    unfold all_zero in *. clear - Heq Hz.
    induction Heq as [|a b s s' [_ Hab] _ IH]; constructor.
    + inversion Hz; subst. now rewrite Hab.
    + apply IH. now inversion Hz.
  - (* idempotence *)
    exists (map (fun kv => (fst kv, snd kv / (if Qltb 0 m2 then m2 else 1))) n).
    split; [exact Hn2|]. apply scaled_by_one.
    case_Qltb 0 m2; [|reflexivity].
    case_Qltb 0 m.
    + subst n d. rewrite E0 in *.
      exact (max_of_normalized scores m Hm L0 m2 Hm2).
    + exfalso. apply py_max_spec in Hm2 as [Hin2 _].
      subst n d. rewrite E0 in Hin2.
      apply In_values_scaled in Hin2 as (v & Hv & ->).
      specialize (Hall v Hv).
      assert (v / 1 == v) as E1 by field. lra.
Qed.

(** ** Accumulating into a score map *)

Lemma additem_spec (d : dict Q) (k : string) (w : Q) (d' : dict Q) :
  additem d k w = Ok d' ->
  keys d' = keys d /\
  forall e, val d' e == val d e + (if String.eqb k e then w else 0).
Proof.
  unfold additem, getitem. destruct (get d k) as [v|] eqn:G; simpl; [|discriminate].
  intro H; inversion H; subst d'; clear H. split.
  - apply keys_setitem. apply get_Some_In in G.
    change k with (fst (k, v)). now apply in_map.
  - intro e. unfold val, get_or. rewrite get_setitem.
    destruct (String.eqb k e) eqn:E.
    + apply String.eqb_eq in E; subst e. rewrite G. reflexivity.
    + ring.
Qed.

Lemma additem_Ok (d : dict Q) (k : string) (w : Q) :
  In k (keys d) -> exists d', additem d k w = Ok d'.
Proof.
  intro H. apply In_keys_get in H as [v Hv].
  unfold additem, getitem. rewrite Hv. simpl. eauto.
Qed.

Lemma sum_for_app (e : string) (a b : dict Q) :
  sum_for e (a ++ b) == sum_for e a + sum_for e b.
Proof.
  induction a as [|x a IH]; simpl; [ring|]. rewrite IH. ring.
Qed.

Lemma add_weights_spec (adds s : dict Q) :
  Forall (fun kw => In (fst kw) (keys s)) adds ->
  exists s', Detector.add_weights s adds = Ok s' /\ keys s' = keys s /\
    forall e, val s' e == val s e + sum_for e adds.
Proof.
  unfold Detector.add_weights.
  revert s. induction adds as [|[k w] adds IH]; intros s H; simpl.
  - exists s. repeat split; auto. intro; ring.
  - inversion H as [|? ? Hk Hrest]; subst. simpl in Hk.
    destruct (additem_Ok s k w Hk) as [s1 H1]. rewrite H1; simpl.
    apply additem_spec in H1 as [K1 V1].
    destruct (IH s1) as (s' & H' & K' & V').
    { rewrite K1. exact Hrest. }
    exists s'. split; [exact H'|]. split; [congruence|].
    intro e. rewrite V', V1. ring.
Qed.

Lemma nonneg_setitem (d : dict Q) (k : string) (x : Q) :
  nonneg d -> 0 <= x -> nonneg (setitem d k x).
Proof.
  unfold nonneg. intros Hd Hx. induction d as [|[k0 v0] d IH]; simpl.
  - constructor; auto.
  - inversion Hd; subst. destruct (String.eqb k0 k); constructor; auto.
Qed.

Lemma nonneg_get (d : dict Q) (k : string) (v : Q) :
  nonneg d -> get d k = Some v -> 0 <= v.
Proof.
  intros Hd G. apply get_Some_In in G. unfold nonneg in Hd.
  rewrite Forall_forall in Hd. exact (Hd _ G).
Qed.

Lemma nonneg_val (d : dict Q) (k : string) : nonneg d -> 0 <= val d k.
Proof.
  intro Hd. unfold val, get_or. destruct (get d k) eqn:G; [|lra].
  eapply nonneg_get; eauto.
Qed.

Lemma add_weights_nonneg (adds s s' : dict Q) :
  weights_nonneg adds = true -> nonneg s ->
  Detector.add_weights s adds = Ok s' -> nonneg s'.
Proof.
  unfold Detector.add_weights, weights_nonneg. intros Hw Hs H.
  rewrite forallb_forall in Hw.
  revert H. apply foldM_invariant with (P := nonneg); auto.
  intros a [k w] a' Hin Ha Hadd. simpl in Hadd.
  unfold additem, getitem in Hadd.
  destruct (get a k) as [v|] eqn:G; simpl in Hadd; [|discriminate].
  inversion Hadd; subst. apply nonneg_setitem; auto.
  specialize (Hw _ Hin). simpl in Hw. apply Qle_bool_iff in Hw.
  pose proof (nonneg_get _ _ _ Ha G). lra.
Qed.

(** Each counting loop is the accumulation of its increments. *)

Lemma initial_counts_increments (responses : dict string) :
  Detector.initial_counts responses =
  Detector.add_weights Detector.zero_scores (initial_increments responses).
Proof.
  unfold Detector.initial_counts, Detector.add_weights, initial_increments.
  apply foldM_flat_map
    with (f := fun s ew => additem s (fst ew) (snd ew))
         (g := fun qa => Detector.answer_weights (fst qa) (snd qa)).
Qed.

Lemma bind_ret {A : Type} (c : py A) : (a <- c ;; Ok a) = c.
Proof. destruct c; reflexivity. Qed.

Lemma scan_keywords_increments (response_lower emotion : string)
  (keywords : list string) (s : dict Q) :
  Detector.scan_keywords response_lower emotion keywords s =
  Detector.add_weights s (keyword_increments response_lower emotion keywords).
Proof.
  unfold Detector.scan_keywords, Detector.add_weights, keyword_increments.
  rewrite <- foldM_flat_map. apply foldM_ext. intros a kw _.
  destruct (PyStr.contains kw response_lower); simpl; [|reflexivity].
  now rewrite bind_ret.
Qed.

Lemma scan_response_increments (s : dict Q) (response_text : string) :
  Detector.scan_response s response_text =
  Detector.add_weights s (response_increments response_text).
Proof.
  unfold Detector.scan_response, response_increments.
  destruct (Detector.skipped response_text); [reflexivity|].
  unfold Detector.add_weights. rewrite <- foldM_flat_map.
  apply foldM_ext. intros a ek _. apply scan_keywords_increments.
Qed.

Lemma journaling_counts_increments (responses : dict string) :
  Detector.journaling_counts responses =
  Detector.add_weights Detector.zero_scores (journaling_increments responses).
Proof.
  unfold Detector.journaling_counts, journaling_increments, Detector.add_weights.
  rewrite <- foldM_flat_map. apply foldM_ext. intros a r _.
  apply scan_response_increments.
Qed.

Lemma mapped_counts_increments (mapping : dict string) (native_scores : dict Q) :
  Detector.mapped_counts mapping native_scores =
  Detector.add_weights Detector.zero_scores
    (mapped_increments mapping native_scores).
Proof.
  unfold Detector.mapped_counts, mapped_increments, Detector.add_weights.
  rewrite <- foldM_flat_map. apply foldM_ext. intros a es _.
  destruct (get mapping (fst es)); simpl; [|reflexivity].
  now rewrite bind_ret.
Qed.

(** ** The static tables mention registry categories only *)

Lemma keys_zero_scores : keys Detector.zero_scores = keys Detector.emotions.
Proof. reflexivity. Qed.

Lemma NoDup_registry : NoDup (keys Detector.emotions).
Proof.
  simpl. repeat (constructor; [simpl; intuition discriminate|]). constructor.
Qed.

Lemma nonneg_zero_scores : nonneg Detector.zero_scores.
Proof.
  unfold nonneg. apply Forall_forall. intros kv H.
  unfold Detector.zero_scores in H. apply in_map_iff in H as (e & <- & _).
  simpl. lra.
Qed.

Lemma val_zero_scores (e : string) : val Detector.zero_scores e == 0.
Proof.
  unfold val, get_or. destruct (get Detector.zero_scores e) as [v|] eqn:G; [|lra].
  apply get_Some_In in G. unfold Detector.zero_scores in G.
  apply in_map_iff in G as (e' & H & _). inversion H. reflexivity.
Qed.

Lemma keys_known_In (adds : dict Q) :
  keys_known adds = true ->
  Forall (fun kw => In (fst kw) (keys Detector.zero_scores)) adds.
Proof.
  unfold keys_known. rewrite forallb_forall. intro H.
  apply Forall_forall. intros kw Hin. specialize (H kw Hin).
  apply existsb_exists in H as (e & He & E).
  apply String.eqb_eq in E. rewrite E. exact He.
Qed.

Lemma forallb_flat_map {A B : Type} (p : B -> bool) (g : A -> list B) (l : list A) :
  (forall x, In x l -> forallb p (g x) = true) ->
  forallb p (flat_map g l) = true.
Proof.
  intro H. apply forallb_forall. intros y Hy.
  apply in_flat_map in Hy as (x & Hx & Hy).
  specialize (H x Hx). rewrite forallb_forall in H. auto.
Qed.

Lemma question_weights_checked :
  forallb (fun qa =>
             forallb (fun aw => keys_known (snd aw) && weights_nonneg (snd aw))
                     (snd qa))
          Detector.question_weights = true.
Proof. vm_compute. reflexivity. Qed.

Lemma answer_weights_checked (question answer : string) :
  keys_known (Detector.answer_weights question answer) = true /\
  weights_nonneg (Detector.answer_weights question answer) = true.
Proof.
  unfold Detector.answer_weights.
  destruct (get Detector.question_weights question) as [answers|] eqn:G1;
    [|split; reflexivity].
  destruct (get answers answer) as [weights|] eqn:G2; [|split; reflexivity].
  pose proof question_weights_checked as H. rewrite forallb_forall in H.
  specialize (H _ (get_Some_In _ _ _ G1)). simpl in H.
  rewrite forallb_forall in H.
  specialize (H _ (get_Some_In _ _ _ G2)). simpl in H.
  now apply andb_true_iff in H.
Qed.

Lemma initial_increments_checked (responses : dict string) :
  keys_known (initial_increments responses) = true /\
  weights_nonneg (initial_increments responses) = true.
Proof.
  split; apply forallb_flat_map; intros; apply answer_weights_checked.
Qed.

Lemma emotion_keywords_checked :
  forallb (fun ek => existsb (String.eqb (fst ek)) (keys Detector.emotions))
          Detector.emotion_keywords = true.
Proof. vm_compute. reflexivity. Qed.

Lemma journaling_increments_checked (responses : dict string) :
  keys_known (journaling_increments responses) = true /\
  weights_nonneg (journaling_increments responses) = true.
Proof.
  pose proof emotion_keywords_checked as H. rewrite forallb_forall in H.
  split; apply forallb_flat_map; intros r _; unfold response_increments;
    destruct (Detector.skipped (snd r)); try reflexivity;
    apply forallb_flat_map; intros ek Hek; unfold keyword_increments;
    apply forallb_flat_map; intros kw _;
    destruct (PyStr.contains kw (PyStr.lower (snd r))); try reflexivity; simpl.
  specialize (H _ Hek). simpl in H. now rewrite H.
Qed.

Lemma face_mapping_checked :
  forallb (fun m => existsb (String.eqb (snd m)) (keys Detector.emotions))
          Detector.face_mapping = true.
Proof. vm_compute. reflexivity. Qed.

Lemma mapped_increments_known (native_scores : dict Q) :
  keys_known (mapped_increments Detector.face_mapping native_scores) = true.
Proof.
  apply forallb_flat_map. intros es _.
  destruct (get Detector.face_mapping (fst es)) as [m|] eqn:G; [|reflexivity].
  simpl. pose proof face_mapping_checked as H. rewrite forallb_forall in H.
  specialize (H _ (get_Some_In _ _ _ G)). simpl in H. now rewrite H.
Qed.

Lemma mapped_increments_nonneg (native_scores : dict Q) :
  nonneg native_scores ->
  weights_nonneg (mapped_increments Detector.face_mapping native_scores) = true.
Proof.
  intro Hn. apply forallb_flat_map. intros es Hes.
  destruct (get Detector.face_mapping (fst es)); [|reflexivity].
  simpl. unfold nonneg in Hn. rewrite Forall_forall in Hn.
  specialize (Hn _ Hes). apply Qle_bool_iff in Hn. now rewrite Hn.
Qed.

(** ** What a scorer returns *)

Lemma counts_spec (adds : dict Q) :
  keys_known adds = true ->
  exists s, Detector.add_weights Detector.zero_scores adds = Ok s /\
    keys s = keys Detector.emotions /\
    (forall e, val s e == sum_for e adds) /\
    (weights_nonneg adds = true -> nonneg s).
Proof.
  intro Hk.
  destruct (add_weights_spec adds Detector.zero_scores (keys_known_In _ Hk))
    as (s & Hs & K & V).
  exists s. split; [exact Hs|]. split; [now rewrite K|]. split.
  - intro e. rewrite V, val_zero_scores. ring.
  - intro Hw. eapply add_weights_nonneg; eauto. apply nonneg_zero_scores.
Qed.

Lemma nonneg_scaled (s : dict Q) (d : Q) :
  0 < d -> nonneg s -> nonneg (map (fun kv => (fst kv, snd kv / d)) s).
Proof.
  unfold nonneg. intros Hd Hs. induction Hs as [|kv s Hkv _ IH]; simpl;
    constructor; auto.
  simpl. apply Qle_shift_div_l; lra.
Qed.

Lemma normalize_scores_spec (s : dict Q) :
  keys s = keys Detector.emotions ->
  exists n, Detector.normalize_scores s = Ok n /\
    keys n = keys Detector.emotions /\ (nonneg s -> nonneg n).
Proof.
  intro K.
  assert (s <> []) as Hne by (intro; subst; discriminate).
  destruct (normalize_scores_Ok s Hne) as (m & Hm & Hn).
  eexists. split; [exact Hn|]. split.
  - now rewrite keys_scaled.
  - apply nonneg_scaled. case_Qltb 0 m; lra.
Qed.

Lemma scorer_spec (adds : dict Q) :
  keys_known adds = true ->
  exists n,
    (s <- Detector.add_weights Detector.zero_scores adds ;;
     Detector.normalize_scores s) = Ok n /\
    keys n = keys Detector.emotions /\
    (weights_nonneg adds = true -> nonneg n).
Proof.
  intro Hk. destruct (counts_spec adds Hk) as (s & Hs & K & _ & Hnn).
  destruct (normalize_scores_spec s K) as (n & Hn & Kn & Hnn').
  exists n. rewrite Hs; simpl. repeat split; auto.
Qed.

Lemma score_initial_spec (responses : dict string) :
  exists n, Detector._score_initial_responses responses = Ok n /\
    keys n = keys Detector.emotions /\ nonneg n.
Proof.
  unfold Detector._score_initial_responses. rewrite initial_counts_increments.
  destruct (initial_increments_checked responses) as [Hk Hw].
  destruct (scorer_spec _ Hk) as (n & Hn & K & Hnn). eauto.
Qed.

Lemma score_journaling_spec (responses : dict string) :
  exists n, Detector._score_journaling_responses responses = Ok n /\
    keys n = keys Detector.emotions /\ nonneg n.
Proof.
  unfold Detector._score_journaling_responses.
  destruct responses as [|r responses].
  - exists Detector.zero_scores. repeat split; auto. apply nonneg_zero_scores.
  - rewrite journaling_counts_increments.
    destruct (journaling_increments_checked (r :: responses)) as [Hk Hw].
    destruct (scorer_spec _ Hk) as (n & Hn & K & Hnn). eauto.
Qed.

Lemma score_modality_spec (data : option ModalityData) :
  exists n, Detector.score_modality Detector.face_mapping data = Ok n /\
    keys n = keys Detector.emotions /\ (data_nonneg data -> nonneg n).
Proof.
  unfold Detector.score_modality.
  assert (exists n, Ok Detector.zero_scores = Ok n /\
            keys n = keys Detector.emotions /\ (data_nonneg data -> nonneg n)) as Z.
  { exists Detector.zero_scores. repeat split; auto.
    intro. apply nonneg_zero_scores. }
  destruct (data_truthy data); simpl; [|exact Z].
  destruct data as [d|]; [|exact Z].
  destruct (cluster_scores d) as [native|] eqn:C; [|exact Z].
  rewrite mapped_counts_increments.
  destruct (scorer_spec _ (mapped_increments_known native)) as (n & Hn & K & Hnn).
  exists n. repeat split; auto. simpl. rewrite C. intro H.
  apply Hnn. now apply mapped_increments_nonneg.
Qed.

(** ** Simple weighted fusion *)

Lemma combine_scores_map (i j f v : dict Q) :
  Detector._combine_scores i j f v =
  map (fun e => (e, Detector.combined_score i j f v e)) (keys Detector.emotions).
Proof. reflexivity. Qed.

Lemma keys_combine_scores (i j f v : dict Q) :
  keys (Detector._combine_scores i j f v) = keys Detector.emotions.
Proof. reflexivity. Qed.

Lemma get_map_keys {V : Type} (g : string -> V) (l : list string) (e : string) :
  In e l -> get (map (fun k => (k, g k)) l) e = Some (g e).
Proof.
  induction l as [|k l IH]; simpl; [contradiction|].
  intros [H|H].
  - subst. now rewrite String.eqb_refl.
  - destruct (String.eqb k e) eqn:E; [|auto].
    apply String.eqb_eq in E. now subst.
Qed.

(** C6. Simple weighted fusion: for every registry category the fused score
    is 0.3 x answers + 0.4 x journaling + 0.2 x face + 0.1 x voice, a source
    without an entry counting 0; with the face and voice maps absent (empty)
    the score is 0.3 x answers + 0.4 x journaling, with no division by the
    weights present. *)
Theorem combine_scores_weighted_sum (i j f v : dict Q) (e : string) :
  In e (keys Detector.emotions) ->
  get (Detector._combine_scores i j f v) e =
    Some (get_or i e 0 * 0.3 + get_or j e 0 * 0.4 +
          get_or f e 0 * 0.2 + get_or v e 0 * 0.1) /\
  get (Detector._combine_scores i j [] []) e =
    Some (get_or i e 0 * 0.3 + get_or j e 0 * 0.4 + 0 * 0.2 + 0 * 0.1) /\
  val (Detector._combine_scores i j [] []) e ==
    val i e * 0.3 + val j e * 0.4.
Proof.
  intro He. rewrite !combine_scores_map.
  assert (forall f v, get (map (fun e => (e, Detector.combined_score i j f v e))
                        (keys Detector.emotions)) e =
                  Some (Detector.combined_score i j f v e)) as G.
  { intros. now apply get_map_keys with (g := Detector.combined_score i j f0 v0). }
  split; [apply G|]. split; [apply G|].
  unfold val at 1. unfold get_or at 1. rewrite G.
  unfold Detector.combined_score, val. unfold get_or at 3 4. simpl. ring.
Qed.

Lemma combine_scores_witness :
  In "calm" (keys Detector.emotions) /\
  get (Detector._combine_scores [("calm", 1)] [("calm", 0.5)] [] []) "calm" =
    Some (1 * 0.3 + 0.5 * 0.4 + 0 * 0.2 + 0 * 0.1).
Proof.
  split; [simpl; tauto|].
  apply (combine_scores_weighted_sum [("calm", 1)] [("calm", 0.5)] [] [] "calm").
  simpl; tauto.
Defined.

(** ** The dominant category *)

Lemma fold_max_by_spec (l : dict Q) (x r : string * Q) :
  fold_left (fun m it => if Qltb (snd m) (snd it) then it else m) l x = r ->
  exists l1 l2,
    x :: l = l1 ++ r :: l2 /\
    Forall (fun it => snd it < snd r) l1 /\
    Forall (fun it => snd it <= snd r) l2.
Proof.
  revert x. induction l as [|y l IH]; intros x Hr; simpl in Hr.
  - subst r. exists [], []. repeat split; constructor.
  - destruct (IH _ Hr) as (l1 & l2 & Hsplit & H1 & H2). clear IH Hr.
    case_Qltb (snd x) (snd y).
    + exists (x :: l1), l2. split; [simpl; now rewrite Hsplit|].
      split; [|exact H2]. constructor; [|exact H1].
      destruct l1 as [|z l1]; simpl in Hsplit; injection Hsplit as Hz Hl.
      * now rewrite <- Hz.
      * inversion H1 as [|? ? Hzr ?]; subst. eapply Qlt_trans; eauto.
    + destruct l1 as [|z l1]; simpl in Hsplit; injection Hsplit as Hz Hl.
      * exists [], (y :: l2). split; [simpl; congruence|].
        split; [constructor|]. constructor; [now rewrite <- Hz | exact H2].
      * exists (z :: y :: l1), l2. split; [simpl; congruence|].
        split; [|exact H2].
        inversion H1 as [|? ? Hzr Hrest]; subst.
        constructor; [exact Hzr|]. constructor; [|exact Hrest].
        eapply Qle_lt_trans; eauto.
Qed.

(** [max(items, key=...)] returns the first item of greatest score. *)
Lemma py_max_by_value_spec (items : dict Q) (top : string * Q) :
  py_max_by_value items = Ok top ->
  exists before after,
    items = before ++ top :: after /\
    Forall (fun it => snd it < snd top) before /\
    Forall (fun it => snd it <= snd top) after.
Proof.
  destruct items as [|x l]; simpl; [discriminate|].
  intro H; inversion H; subst. now apply fold_max_by_spec.
Qed.

Lemma py_max_by_value_max (items : dict Q) (top : string * Q) :
  py_max_by_value items = Ok top ->
  In top items /\ forall it, In it items -> snd it <= snd top.
Proof.
  intro H. apply py_max_by_value_spec in H as (b & a & -> & Hb & Ha).
  split; [apply in_elt|].
  intros it Hin. rewrite Forall_forall in Hb, Ha.
  apply in_app_or in Hin as [Hin|[Hin|Hin]].
  - apply Qlt_le_weak. auto.
  - subst. apply Qle_refl.
  - auto.
Qed.

(** ** The confidence estimator *)

Lemma in_insert_desc (x y : string * Q) (l : dict Q) :
  In y (insert_desc x l) <-> y = x \/ In y l.
Proof.
  induction l as [|z l IH]; simpl.
  - intuition.
  - destruct (Qle_bool (snd z) (snd x)); simpl; [intuition|].
    rewrite IH. intuition.
Qed.

Lemma in_sorted_by_value_desc (y : string * Q) (items : dict Q) :
  In y (sorted_by_value_desc items) <-> In y items.
Proof.
  unfold sorted_by_value_desc. induction items as [|x l IH]; simpl; [tauto|].
  rewrite in_insert_desc, IH. intuition.
Qed.

Lemma separation_boost_bounds (separation : Q) :
  0 <= separation -> 0 <= Detector.separation_boost separation.
Proof.
  intro H. unfold Detector.separation_boost.
  case_Qltb 0.3 separation; [lra|].
  case_Qltb 0.15 separation; lra.
Qed.

Lemma Qmin_one_bounds (a : Q) : 0 <= a -> 0 <= Qmin a 1.0 <= 1.
Proof.
  intro H. split.
  - apply Q.min_glb; lra.
  - eapply Qle_trans; [apply Q.le_min_r|]. lra.
Qed.

Lemma calculate_confidence_bounds (scores : dict Q) (dominant : string * Q) :
  nonneg scores -> py_max_by_value scores = Ok dominant ->
  0 <= Detector._calculate_confidence scores dominant <= 1.
Proof.
  intros Hnn Hmax. apply py_max_by_value_max in Hmax as [Hin Hle].
  assert (0 <= snd dominant) as Hs.
  { unfold nonneg in Hnn. rewrite Forall_forall in Hnn. now apply Hnn. }
  unfold Detector._calculate_confidence.
  apply Qmin_one_bounds.
  assert (0 <= match sorted_by_value_desc scores with
               | _ :: (_, second_best) :: _ =>
                   snd dominant +
                   Detector.separation_boost (snd dominant - second_best)
               | _ => snd dominant
               end) as Hc.
  { destruct (sorted_by_value_desc scores) as [|a [|[k2 v2] r]] eqn:S; auto.
    assert (In (k2, v2) scores) as H2.
    { apply in_sorted_by_value_desc. rewrite S. right; now left. }
    specialize (Hle _ H2). simpl in Hle.
    pose proof (separation_boost_bounds (snd dominant - v2)). lra. }
  set (c := match sorted_by_value_desc scores with
            | _ :: (_, second_best) :: _ => _ | _ => _ end) in *.
  case_Qltb (snd dominant) 0.3; [lra|].
  case_Qltb 0.6 (snd dominant); [|exact Hc].
  apply Q.min_glb; lra.
Qed.

(** ** [detect_emotion] never takes the fallback *)

Lemma nonneg_combine_scores (i j f v : dict Q) :
  nonneg i -> nonneg j -> nonneg f -> nonneg v ->
  nonneg (Detector._combine_scores i j f v).
Proof.
  intros Hi Hj Hf Hv. rewrite combine_scores_map. unfold nonneg.
  apply Forall_forall. intros kv H. apply in_map_iff in H as (e & <- & _).
  simpl. unfold Detector.combined_score.
  pose proof (nonneg_val i e Hi). pose proof (nonneg_val j e Hj).
  pose proof (nonneg_val f e Hf). pose proof (nonneg_val v e Hv).
  unfold val in *. lra.
Qed.

Lemma optional_score_spec (data : option ModalityData) :
  exists n,
    (if data_truthy data
     then Detector.score_modality Detector.face_mapping data else Ok []) = Ok n /\
    (data_nonneg data -> nonneg n).
Proof.
  destruct (data_truthy data).
  - destruct (score_modality_spec data) as (n & Hn & _ & Hnn). eauto.
  - exists []. split; [reflexivity|]. intro. constructor.
Qed.

Lemma detect_emotion_body_spec (i j : dict string) (fd vd : option ModalityData) :
  exists si sj sf sv dominant meta,
    Detector._score_initial_responses i = Ok si /\
    Detector._score_journaling_responses j = Ok sj /\
    (if data_truthy fd then Detector._score_face fd else Ok []) = Ok sf /\
    (if data_truthy vd then Detector._score_voice vd else Ok []) = Ok sv /\
    nonneg si /\ nonneg sj /\
    (data_nonneg fd -> nonneg sf) /\ (data_nonneg vd -> nonneg sv) /\
    py_max_by_value (Detector._combine_scores si sj sf sv) = Ok dominant /\
    get Detector.emotions (fst dominant) = Some meta /\
    Detector.detect_emotion_body i j fd vd =
      Ok {| Detector.emotion := fst dominant;
            Detector.emotion_name := fst meta;
            Detector.confidence :=
              Detector._calculate_confidence
                (Detector._combine_scores si sj sf sv) dominant;
            Detector.description := snd meta;
            Detector.indicators :=
              Detector._get_indicators i j fd vd (fst dominant);
            Detector.all_scores := Detector._combine_scores si sj sf sv |}.
Proof.
  destruct (score_initial_spec i) as (si & Hi & _ & Ni).
  destruct (score_journaling_spec j) as (sj & Hj & _ & Nj).
  destruct (optional_score_spec fd) as (sf & Hf & Nf).
  destruct (optional_score_spec vd) as (sv & Hv & Nv).
  set (final := Detector._combine_scores si sj sf sv).
  destruct (py_max_by_value final) as [dominant|] eqn:Hmax;
    [|unfold final in Hmax; rewrite combine_scores_map in Hmax; discriminate].
  assert (In (fst dominant) (keys Detector.emotions)) as Hk.
  { apply py_max_by_value_max in Hmax as [Hin _].
    rewrite <- (keys_combine_scores si sj sf sv). unfold keys.
    now apply in_map. }
  destruct (In_keys_get _ _ Hk) as [meta Hmeta].
  exists si, sj, sf, sv, dominant, meta.
  repeat (split; [assumption|]).
  unfold Detector.detect_emotion_body, Detector._score_face, Detector._score_voice,
    Detector.voice_mapping.
  rewrite Hi, Hj; cbn [bind]. rewrite Hf, Hv; cbn [bind]. fold final.
  rewrite Hmax; cbn [bind]. unfold getitem. rewrite Hmeta. reflexivity.
Qed.

(** ** Confidence of the quality-adjusted fusion *)

Lemma fold_boost_nonneg {A : Type} (p : A -> bool) (l : list A) (b : Q) :
  0 <= b -> 0 <= fold_left (fun b r => if p r then b + 0.1 else b) l b.
Proof.
  revert b. induction l as [|x l IH]; intros b Hb; simpl; [exact Hb|].
  apply IH. destruct (p x); lra.
Qed.

Lemma inject_nat_nonneg (n : nat) : 0 <= inject_Z (Z.of_nat n).
Proof. unfold Qle; simpl. lia. Qed.

Lemma fusion_confidence_bounds (valid_results : list Fusion.ValidResult)
  (dominant : string) :
  0 <= Fusion._calculate_fusion_confidence valid_results dominant <= 1.
Proof.
  unfold Fusion._calculate_fusion_confidence.
  apply Qmin_one_bounds.
  pose proof (fold_boost_nonneg (Fusion.agrees_strongly dominant) valid_results 0
                (Qle_refl 0)) as Hb.
  assert (0 <= (if (0 <? List.length valid_results)%nat
                then inject_Z (Z.of_nat
                       (Fusion.count_if (Fusion.agrees dominant) valid_results)) /
                     inject_Z (Z.of_nat (List.length valid_results))
                else 0)) as Ha.
  { destruct (0 <? List.length valid_results)%nat eqn:E; [|lra].
    apply Nat.ltb_lt in E.
    apply Qle_shift_div_l.
    - unfold Qlt; simpl. lia.
    - pose proof (inject_nat_nonneg
                    (Fusion.count_if (Fusion.agrees dominant) valid_results)). lra. }
  lra.
Qed.

Lemma data_unit_nonneg (data : option ModalityData) :
  data_unit data -> data_nonneg data.
Proof.
  destruct data as [d|]; simpl; [|trivial].
  destruct (cluster_scores d) as [native_scores|]; [|trivial].
  unfold unit_scores, nonneg. apply Forall_impl. intros kv H. apply H.
Qed.

(** A modality is left out of [valid_results] exactly when it is a text,
    face or voice analysis with an empty score map. *)
Lemma modality_cluster_scores_empty (modality : string) (data : ModalityData) :
  Fusion.modality_cluster_scores modality data = [] <->
  gives_scores (modality, Some data) = false.
Proof.
  unfold Fusion.modality_cluster_scores, gives_scores, Fusion.among_modalities,
    Fusion._create_cluster_scores.
  cbn [fst snd].
  destruct (cluster_scores data) as [[|x cs]|];
    destruct (String.eqb modality "text"), (String.eqb modality "face"),
             (String.eqb modality "voice");
    cbn [orb negb]; destruct (actionable_category data);
    split; intro H; try discriminate H; reflexivity.
Qed.

Lemma modalities_collected (modality_results : dict (option ModalityData)) :
  map Fusion.vr_modality (Fusion.collect_valid_results modality_results) =
  map fst (filter gives_scores modality_results).
Proof.
  induction modality_results as [|[m [d|]] l IH]; simpl; [reflexivity| |exact IH].
  destruct (gives_scores (m, Some d)) eqn:G.
  - destruct (Fusion.modality_cluster_scores m d) as [|x cs] eqn:C.
    + apply modality_cluster_scores_empty in C. congruence.
    + simpl. now rewrite IH.
  - apply modality_cluster_scores_empty in G. now rewrite G.
Qed.

Lemma no_modality_scores_filter (modality_results : dict (option ModalityData)) :
  no_modality_scores modality_results <->
  filter gives_scores modality_results = [].
Proof.
  unfold no_modality_scores.
  induction modality_results as [|[m [d|]] l IH]; simpl.
  - split; [reflexivity | constructor].
  - unfold gives_scores at 1. cbn [fst snd]. split.
    + intro H. inversion H as [|? ? Hh Hl]; subst. cbn [fst snd] in Hh.
      destruct Hh as [Hm Hc]. rewrite Hc, Hm. cbn [negb]. now apply IH.
    + destruct (cluster_scores d) as [[|x cs]|] eqn:Hc; try discriminate.
      destruct (Fusion.among_modalities m) eqn:Hm; cbn [negb]; try discriminate.
      intro H. constructor; [now split | now apply IH].
  - split.
    + intro H. inversion H; subst. now apply IH.
    + intro H. constructor; [exact I | now apply IH].
Qed.

(** [weighted_fusion] returns no result exactly when no modality hands it
    a score. *)
Lemma weighted_fusion_None (set_order : list string -> list string)
  (modality_results : dict (option ModalityData)) :
  Fusion.weighted_fusion set_order modality_results = None <->
  no_modality_scores modality_results.
Proof.
  rewrite no_modality_scores_filter.
  pose proof (modalities_collected modality_results) as M.
  unfold Fusion.weighted_fusion.
  destruct (Fusion.collect_valid_results modality_results) as [|s l];
    destruct (filter gives_scores modality_results) as [|md l'];
    try discriminate M; split; intro H; try discriminate H; reflexivity.
Qed.

(** C8, as the code has it.  For all answers and journaling texts and for
    face and voice scores in [0, 1], the confidence that [detect_emotion]
    returns lies in [0, 1]; the quality-adjusted fusion returns a result as
    soon as one modality hands it a score, and the confidence of every
    result it returns lies in [0, 1]. *)
Theorem confidence_in_unit_interval (i j : dict string)
  (fd vd : option ModalityData) (set_order : list string -> list string)
  (modality_results : dict (option ModalityData)) :
  data_unit fd -> data_unit vd ->
  0 <= Detector.confidence (Detector.detect_emotion i j fd vd) <= 1 /\
  (existsb gives_scores modality_results = true ->
   exists r, Fusion.weighted_fusion set_order modality_results = Some r) /\
  (forall r, Fusion.weighted_fusion set_order modality_results = Some r ->
             0 <= Fusion.confidence r <= 1).
Proof.
  intros Hfd Hvd. split; [|split].
  - destruct (detect_emotion_body_spec i j fd vd)
      as (si & sj & sf & sv & dominant & meta & _ & _ & _ & _ &
          Ni & Nj & Nf & Nv & Hmax & _ & Hbody).
    unfold Detector.detect_emotion. rewrite Hbody. simpl.
    apply calculate_confidence_bounds; [|exact Hmax].
    apply nonneg_combine_scores; auto using data_unit_nonneg.
  - intro H.
    destruct (Fusion.weighted_fusion set_order modality_results) as [r|] eqn:W;
      [now exists r|].
    apply weighted_fusion_None, no_modality_scores_filter in W.
    apply existsb_exists in H as (md & Hin & Hmd).
    assert (In md (filter gives_scores modality_results)) as F
      by (apply filter_In; now split).
    rewrite W in F. contradiction.
  - intros r Hr. unfold Fusion.weighted_fusion in Hr.
    destruct (Fusion.collect_valid_results modality_results) as [|s l];
      [discriminate|].
    injection Hr as <-. simpl. apply fusion_confidence_bounds.
Qed.

(** C8 as the specification states it fails on doubles: two non-negative
    face scores of 1e308 map to the same category, their sum overflows, the
    normalised score is [nan] and so is the confidence returned. *)
Lemma confidence_overflow_counterexample :
  Binary64.native_scores overflowing_face =
    Some [ ("stressed", 1e308%float); ("anxious", 1e308%float) ] /\
  PrimFloat.leb 0 1e308 = true /\
  Binary64.detect_emotion_body [] [] (Some overflowing_face) None =
    Ok (Binary64.detect_emotion [] [] (Some overflowing_face) None) /\
  PrimFloat.is_nan
    (Binary64.confidence
       (Binary64.detect_emotion [] [] (Some overflowing_face) None)) = true /\
  in_unit_interval
    (Binary64.confidence
       (Binary64.detect_emotion [] [] (Some overflowing_face) None)) = false.
Proof.
  repeat split; vm_compute; reflexivity.
Qed.

(** ** Every source abstains *)

Lemma all_zero_val (s : dict Q) (e : string) : all_zero s -> val s e == 0.
Proof.
  intro H. unfold val, get_or. destruct (get s e) as [v|] eqn:G; [|reflexivity].
  apply get_Some_In in G. unfold all_zero in H. rewrite Forall_forall in H.
  exact (H _ G).
Qed.

Lemma all_zero_zero_scores : all_zero Detector.zero_scores.
Proof.
  unfold all_zero. apply Forall_forall. intros kv H.
  unfold Detector.zero_scores in H. apply in_map_iff in H as (e & <- & _).
  reflexivity.
Qed.

Lemma abstaining_modality_scores (data : option ModalityData) (n : dict Q) :
  modality_abstains data ->
  (if data_truthy data
   then Detector.score_modality Detector.face_mapping data else Ok []) = Ok n ->
  all_zero n.
Proof.
  intros Ha H.
  destruct (data_truthy data) eqn:T.
  - unfold Detector.score_modality in H. rewrite T in H. simpl in H.
    destruct data as [d|]; [|inversion H; apply all_zero_zero_scores].
    destruct Ha as [[C|C] _]; rewrite C in H.
    + inversion H. apply all_zero_zero_scores.
    + vm_compute in H. inversion H. unfold all_zero.
      repeat (constructor; [reflexivity|]). constructor.
  - inversion H. constructor.
Qed.

Lemma all_zero_combine_scores (i j f v : dict Q) :
  all_zero i -> all_zero j -> all_zero f -> all_zero v ->
  all_zero (Detector._combine_scores i j f v).
Proof.
  intros Hi Hj Hf Hv. rewrite combine_scores_map. unfold all_zero.
  apply Forall_forall. intros kv H. apply in_map_iff in H as (e & <- & _).
  simpl. unfold Detector.combined_score.
  pose proof (all_zero_val i e Hi). pose proof (all_zero_val j e Hj).
  pose proof (all_zero_val f e Hf). pose proof (all_zero_val v e Hv).
  unfold val in *. lra.
Qed.

Lemma calculate_confidence_all_zero (scores : dict Q) (dominant : string * Q) :
  all_zero scores -> snd dominant == 0 ->
  Detector._calculate_confidence scores dominant == 0.
Proof.
  intros Hz Hs. unfold Detector._calculate_confidence.
  assert (match sorted_by_value_desc scores with
          | _ :: (_, second_best) :: _ =>
              snd dominant +
              Detector.separation_boost (snd dominant - second_best)
          | _ => snd dominant
          end == 0) as Hc.
  { destruct (sorted_by_value_desc scores) as [|a [|[k2 v2] r]] eqn:S; auto.
    assert (v2 == 0) as H2.
    { unfold all_zero in Hz. rewrite Forall_forall in Hz.
      apply (Hz (k2, v2)). apply in_sorted_by_value_desc. rewrite S.
      right; now left. }
    unfold Detector.separation_boost.
    case_Qltb 0.3 (snd dominant - v2); [lra|].
    case_Qltb 0.15 (snd dominant - v2); lra. }
  set (c := match sorted_by_value_desc scores with
            | _ :: (_, second_best) :: _ => _ | _ => _ end) in *.
  case_Qltb (snd dominant) 0.3; [|lra].
  rewrite Q.min_l; lra.
Qed.

Lemma first_of_all_zero (scores : dict Q) (x top : string * Q) :
  all_zero (x :: scores) -> py_max_by_value (x :: scores) = Ok top -> top = x.
Proof.
  intros Hz H. apply py_max_by_value_spec in H as (b & a & Hsplit & Hb & _).
  destruct b as [|y b]; simpl in Hsplit; [now inversion Hsplit|].
  exfalso. inversion Hsplit; subst y.
  unfold all_zero in Hz. rewrite Forall_forall in Hz.
  assert (snd top == 0) as Ht.
  { apply Hz. rewrite Hsplit. right. apply in_elt. }
  assert (snd x == 0) as Hx by (apply Hz; now left).
  inversion Hb; subst. lra.
Qed.

Lemma no_indicators (fd vd : option ModalityData) (e : string) :
  modality_abstains fd -> modality_abstains vd ->
  Detector._get_indicators [] [] fd vd e = [].
Proof.
  intros Hf Hv. unfold Detector._get_indicators. simpl.
  assert (forall d m, modality_abstains d ->
            Detector.category_indicator d e m = []) as H.
  { intros [d|] m Hd; [|reflexivity]. destruct Hd as [_ Hd].
    unfold Detector.category_indicator. rewrite Hd.
    now destruct (data_truthy (Some d)). }
  rewrite (H fd), (H vd); auto.
Qed.

(** ** The second-best score *)

Lemma insert_desc_perm (x : string * Q) (l : dict Q) :
  Permutation (insert_desc x l) (x :: l).
Proof.
  induction l as [|y l IH]; simpl; [reflexivity|].
  destruct (Qle_bool (snd y) (snd x)); [reflexivity|].
  rewrite IH. apply perm_swap.
Qed.

Lemma sorted_by_value_desc_perm (items : dict Q) :
  Permutation (sorted_by_value_desc items) items.
Proof.
  unfold sorted_by_value_desc. induction items as [|x l IH]; simpl; [reflexivity|].
  rewrite insert_desc_perm. now constructor.
Qed.

Lemma insert_desc_descending (x : string * Q) (l : dict Q) :
  descending l -> descending (insert_desc x l).
Proof.
  unfold descending. induction 1 as [|y l Hl IH Hy]; simpl.
  - constructor; constructor.
  - destruct (Qle_bool (snd y) (snd x)) eqn:E.
    + apply Qle_bool_iff in E. constructor; [constructor; assumption|].
      constructor; [exact E|].
      rewrite Forall_forall in Hy |- *. intros z Hz.
      eapply Qle_trans; [apply Hy; exact Hz | exact E].
    + constructor; [exact IH|].
      apply Forall_forall. intros z Hz. apply in_insert_desc in Hz as [->|Hz].
      * apply Qlt_le_weak. apply Qnot_le_lt. intro L.
        apply Qle_bool_iff in L. congruence.
      * rewrite Forall_forall in Hy. auto.
Qed.

Lemma sorted_by_value_desc_descending (items : dict Q) :
  descending (sorted_by_value_desc items).
Proof.
  unfold sorted_by_value_desc. induction items as [|x l IH]; simpl.
  - constructor.
  - now apply insert_desc_descending.
Qed.

Lemma second_le (a b t s : Q) (r rest : list Q) :
  Permutation (a :: b :: r) (t :: s :: rest) ->
  b <= a -> Forall (fun x => x <= s) rest -> b <= s.
Proof.
  intros P Hba Hrest. rewrite Forall_forall in Hrest.
  assert (In a (t :: s :: rest)) as Ha.
  { eapply Permutation_in; [exact P | now left]. }
  destruct Ha as [Ha|Ha].
  - subst t. apply Permutation_cons_inv in P.
    assert (In b (s :: rest)) as Hb.
    { eapply Permutation_in; [exact P | now left]. }
    destruct Hb as [->|Hb]; [apply Qle_refl | auto].
  - assert (a <= s) as Has.
    { destruct Ha as [->|Ha]; [apply Qle_refl | auto]. }
    eapply Qle_trans; eauto.
Qed.

Lemma second_best_unique (scores : dict Q) (second : Q) :
  second_highest_of scores second ->
  exists a k2 v2 r,
    sorted_by_value_desc scores = a :: (k2, v2) :: r /\ v2 == second.
Proof.
  intros (top & rest & P & Hst & Hrest).
  pose proof (sorted_by_value_desc_perm scores) as PS.
  pose proof (sorted_by_value_desc_descending scores) as DS.
  apply (Permutation_map snd) in PS. fold (values scores) in PS.
  rewrite P in PS.
  destruct (sorted_by_value_desc scores) as [|a [|[k2 v2] r]].
  - apply Permutation_length in PS. discriminate.
  - apply Permutation_length in PS. discriminate.
  - exists a, k2, v2, r. split; [reflexivity|].
    simpl in PS. unfold descending in DS.
    inversion DS as [|? ? DS' Ha]; subst.
    inversion DS' as [|? ? _ H2]; subst.
    inversion Ha as [|? ? Hv2a _]; subst. simpl in Hv2a.
    assert (Forall (fun x => x <= v2) (map snd r)) as Hr.
    { apply Forall_forall. intros x Hx. apply in_map_iff in Hx as (kv & <- & Hkv).
      rewrite Forall_forall in H2. exact (H2 _ Hkv). }
    apply Qle_antisym.
    + eapply second_le; eauto.
    + eapply second_le; [symmetry; exact PS | exact Hst | exact Hr].
Qed.

Lemma Qmin_proper_one (x y : Q) : x == y -> Qmin x 1.0 == Qmin y 1.
Proof.
  intro H. destruct (Q.min_spec x 1.0) as [[L E]|[L E]]; rewrite E;
    destruct (Q.min_spec y 1) as [[L' E']|[L' E']]; rewrite E'; lra.
Qed.

(** ** Order of doubles

    [<] on doubles, read through its specification on [spec_float]: it is
    asymmetric, and on numbers (no [nan]) "not less" is transitive. *)

Lemma SFltb_asym (x y : spec_float) : SFltb x y = true -> SFltb y x = false.
Proof.
  unfold SFltb, SFcompare.
  destruct x as [sx|sx| |sx mx ex], y as [sy|sy| |sy my ey];
    try discriminate; try reflexivity;
    repeat match goal with s : bool |- _ => destruct s end;
    try discriminate; try reflexivity;
    change (PosDef.Pos.compare_cont Eq) with Pos.compare;
    rewrite (Z.compare_antisym ex ey);
    destruct (ex ?= ey)%Z; simpl; try discriminate; try reflexivity;
    rewrite (Pos.compare_antisym mx my);
    destruct (mx ?= my)%positive; simpl; try discriminate; reflexivity.
Qed.

Ltac compare_cases :=
  repeat match goal with
  | |- context [(?a ?= ?b)%Z] =>
      destruct (Z.compare_spec a b); try lia; simpl
  | H : context [(?a ?= ?b)%Z] |- _ =>
      destruct (Z.compare_spec a b); try lia; simpl in H
  | |- context [(?a ?= ?b)%positive] =>
      destruct (Pos.compare_spec a b); try lia; simpl
  | H : context [(?a ?= ?b)%positive] |- _ =>
      destruct (Pos.compare_spec a b); try lia; simpl in H
  end.

Lemma SFltb_negtrans (x y z : spec_float) :
  y <> S754_nan -> SFltb x y = false -> SFltb y z = false -> SFltb x z = false.
Proof.
  unfold SFltb, SFcompare. intro Hy.
  destruct x as [sx|sx| |sx mx ex], y as [sy|sy| |sy my ey],
           z as [sz|sz| |sz mz ez];
    try congruence; try reflexivity;
    repeat match goal with s : bool |- _ => destruct s end;
    try discriminate; try reflexivity;
    change (PosDef.Pos.compare_cont Eq) with Pos.compare;
    intros H1 H2; compare_cases; try discriminate; try reflexivity; try lia.
Qed.

Lemma SFltb_trans (x y z : spec_float) :
  SFltb x y = true -> SFltb y z = true -> SFltb x z = true.
Proof.
  unfold SFltb, SFcompare.
  destruct x as [sx|sx| |sx mx ex], y as [sy|sy| |sy my ey],
           z as [sz|sz| |sz mz ez];
    try discriminate; try reflexivity;
    repeat match goal with s : bool |- _ => destruct s end;
    try discriminate; try reflexivity;
    change (PosDef.Pos.compare_cont Eq) with Pos.compare;
    intros H1 H2; compare_cases; try discriminate; try reflexivity; try lia.
Qed.

Lemma SFltb_le_lt (x y z : spec_float) :
  x <> S754_nan -> y <> S754_nan ->
  SFltb x y = false -> SFltb x z = true -> SFltb y z = true.
Proof.
  unfold SFltb, SFcompare. intros Hx Hy.
  destruct x as [sx|sx| |sx mx ex], y as [sy|sy| |sy my ey],
           z as [sz|sz| |sz mz ez];
    try congruence; try reflexivity;
    repeat match goal with s : bool |- _ => destruct s end;
    try discriminate; try reflexivity;
    change (PosDef.Pos.compare_cont Eq) with Pos.compare;
    intros H1 H2; compare_cases; try discriminate; try reflexivity; try lia.
Qed.

Lemma not_nan_SF (f : float) : PrimFloat.is_nan f = false -> Prim2SF f <> S754_nan.
Proof.
  unfold PrimFloat.is_nan. rewrite eqb_spec. intros H E. rewrite E in H.
  discriminate.
Qed.

Lemma ltb_asym (x y : float) :
  PrimFloat.ltb x y = true -> PrimFloat.ltb y x = false.
Proof. rewrite !ltb_spec. apply SFltb_asym. Qed.

Lemma ltb_negtrans (x y z : float) :
  PrimFloat.is_nan y = false ->
  PrimFloat.ltb x y = false -> PrimFloat.ltb y z = false ->
  PrimFloat.ltb x z = false.
Proof.
  rewrite !ltb_spec. intro H. apply SFltb_negtrans. now apply not_nan_SF.
Qed.

Lemma ltb_trans (x y z : float) :
  PrimFloat.ltb x y = true -> PrimFloat.ltb y z = true ->
  PrimFloat.ltb x z = true.
Proof. rewrite !ltb_spec. apply SFltb_trans. Qed.

Lemma ltb_le_lt (x y z : float) :
  PrimFloat.is_nan x = false -> PrimFloat.is_nan y = false ->
  PrimFloat.ltb x y = false -> PrimFloat.ltb x z = true ->
  PrimFloat.ltb y z = true.
Proof.
  rewrite !ltb_spec. intros Hx Hy. apply SFltb_le_lt; now apply not_nan_SF.
Qed.

(** ** The sorted scores, on doubles *)

Lemma insert_desc_perm_f (x : string * float) (l : dict float) :
  Permutation (Binary64.insert_desc x l) (x :: l).
Proof.
  induction l as [|y l IH]; simpl; [reflexivity|].
  destruct (PrimFloat.ltb (snd x) (snd y)); [|reflexivity].
  rewrite IH. apply perm_swap.
Qed.

Lemma sorted_by_value_desc_perm_f (items : dict float) :
  Permutation (Binary64.sorted_by_value_desc items) items.
Proof.
  unfold Binary64.sorted_by_value_desc.
  induction items as [|x l IH]; simpl; [reflexivity|].
  rewrite insert_desc_perm_f. now constructor.
Qed.

Lemma insert_desc_descending_f (x : string * float) (l : dict float) :
  no_nan l -> descending_f l -> descending_f (Binary64.insert_desc x l).
Proof.
  unfold descending_f. intros Hn Hs.
  induction Hs as [|y l Hl IH Hy]; simpl.
  - constructor; constructor.
  - inversion Hn as [|? ? Hy_nan Hn']; subst.
    destruct (PrimFloat.ltb (snd x) (snd y)) eqn:E.
    + constructor; [now apply IH|].
      apply Forall_forall. intros z Hz.
      apply (Permutation_in _ (insert_desc_perm_f x l)) in Hz.
      destruct Hz as [<-|Hz]; [now apply ltb_asym|].
      rewrite Forall_forall in Hy. now apply Hy.
    + constructor; [now constructor|].
      constructor; [exact E|].
      rewrite Forall_forall in Hy |- *. intros z Hz.
      apply (ltb_negtrans _ (snd y)); auto.
Qed.

Lemma sorted_by_value_desc_descending_f (items : dict float) :
  no_nan items -> descending_f (Binary64.sorted_by_value_desc items).
Proof.
  unfold Binary64.sorted_by_value_desc. intro Hn.
  induction Hn as [|x l Hx Hl IH]; simpl; [constructor|].
  apply insert_desc_descending_f; [|exact IH].
  unfold no_nan. apply Forall_forall. intros z Hz.
  apply (Permutation_in _ (sorted_by_value_desc_perm_f l)) in Hz.
  unfold no_nan in Hl. rewrite Forall_forall in Hl. now apply Hl.
Qed.

(** [min(min(x, 1.0), 1.0)] is [min(x, 1.0)]. *)
Lemma cap_twice (x : float) :
  Binary64.py_min (Binary64.py_min x 1.0) 1.0 = cap_at_one x.
Proof.
  unfold Binary64.py_min, cap_at_one.
  destruct (PrimFloat.ltb 1.0 x) eqn:E; [reflexivity|]. now rewrite E.
Qed.

(** C4, as the code has it, on doubles.  For scores that are numbers, let
    the entries of the map be arranged in descending order.  The confidence
    is the dominant score plus the tiered boost of the margin (+0.35 when
    the margin is above 0.3, +0.5 x margin when it is in (0.15, 0.3], +0.2 x
    margin up to 0.15), times 0.7 when the dominant score is below 0.3 or
    plus 0.15 when it is above 0.6, capped at 1.  The margin is the computed
    difference of the dominant score and the second entry of the
    arrangement, whatever the number of non-zero scores, and the tiers are
    decided on that computed difference; there is no margin boost when the
    map has fewer than two entries. *)
Theorem calculate_confidence_formula (scores : dict float)
  (dominant : string * float) :
  no_nan scores ->
  exists arrangement,
    Permutation arrangement scores /\ descending_f arrangement /\
    Binary64._calculate_confidence scores dominant =
      cap_at_one (strength_adjust_f (snd dominant)
                    (boosted (snd dominant) arrangement)).
Proof.
  intro Hn. exists (Binary64.sorted_by_value_desc scores).
  split; [apply sorted_by_value_desc_perm_f|].
  split; [now apply sorted_by_value_desc_descending_f|].
  unfold Binary64._calculate_confidence, strength_adjust_f.
  change (match Binary64.sorted_by_value_desc scores with
          | _ :: (_, second_best) :: _ =>
              (snd dominant +
               Binary64.separation_boost (snd dominant - second_best))%float
          | _ => snd dominant
          end)
    with (boosted (snd dominant) (Binary64.sorted_by_value_desc scores)).
  destruct (PrimFloat.ltb (snd dominant) 0.3); [reflexivity|].
  destruct (PrimFloat.ltb 0.6 (snd dominant)); [apply cap_twice | reflexivity].
Qed.

Lemma second_highest_worried : second_highest_of worried_scores 0.
Proof.
  exists 0.4, [0; 0; 0; 0; 0; 0]. split; [reflexivity|]. split; [lra|].
  repeat (constructor; [lra|]). constructor.
Qed.

(** C4 as the specification states it fails: with one non-zero score, 0.4,
    the code takes the margin 0.4 - 0 and returns 0.75, where a margin of 0
    would give 0.4; on doubles the journaling note "I am worried" alone is
    such an input, and the confidence returned is 0.75. *)
Lemma confidence_margin_counterexample :
  py_max_by_value worried_scores = Ok ("anxious", 0.4) /\
  second_highest_of worried_scores 0 /\
  ~ Detector._calculate_confidence worried_scores ("anxious", 0.4) ==
    claimed_confidence worried_scores 0.4 0 /\
  Binary64.all_scores
    (Binary64.detect_emotion [] [("note", "I am worried")] None None) =
    [ ("anxious", 0.4%float); ("sad", 0%float); ("frustrated", 0%float);
      ("overwhelmed", 0%float); ("calm", 0%float); ("happy", 0%float);
      ("neutral", 0%float); ("tired", 0%float) ] /\
  Binary64.confidence
    (Binary64.detect_emotion [] [("note", "I am worried")] None None) =
    0.75%float.
Proof.
  split; [reflexivity|]. split; [exact second_highest_worried|].
  split; [vm_compute; discriminate|].
  split; vm_compute; reflexivity.
Qed.

(** On the scores 0.4 and 0.1 the computed margin is 0.30000000000000004:
    it is above 0.3, the boost is the flat 0.35 and the confidence 0.75. *)
Lemma calculate_confidence_formula_witness :
  PrimFloat.ltb 0.3 (0.4 - 0.1) = true /\
  Binary64._calculate_confidence close_scores ("anxious", 0.4%float) =
    0.75%float /\
  exists arrangement,
    Permutation arrangement close_scores /\ descending_f arrangement /\
    Binary64._calculate_confidence close_scores ("anxious", 0.4%float) =
      cap_at_one (strength_adjust_f 0.4 (boosted 0.4 arrangement)).
Proof.
  split; [reflexivity|]. split; [reflexivity|].
  apply (calculate_confidence_formula close_scores ("anxious", 0.4%float)).
  repeat (constructor; [reflexivity|]). constructor.
Defined.

Lemma normalize_scores_witness :
  exists n, Detector.normalize_scores [("anxious", 2); ("sad", 1)] = Ok n /\
    keys n = ["anxious"; "sad"] /\
    (exists m, py_max (values n) = Ok m /\ m == 1) /\
    (exists n', Detector.normalize_scores n = Ok n' /\ scores_eq n' n).
Proof.
  destruct (normalize_scores_max_one_idempotent [("anxious", 2); ("sad", 1)])
    as (n & Hn & K & Hmax & _ & Hidem).
  - discriminate.
  - exists n. split; [exact Hn|]. split; [exact K|]. split; [|exact Hidem].
    apply Hmax. constructor. simpl. lra.
Defined.

Lemma confidence_in_unit_interval_witness :
  0 <= Detector.confidence
         (Detector.detect_emotion [("thoughts", "racing")]
            [("note", "I am worried")]
            (Some (scores_only [("stressed", 0.6); ("calm", 0.3)])) None) <= 1 /\
  exists r,
    Fusion.weighted_fusion last_seen_order boosted_sources = Some r /\
    0 <= Fusion.confidence r <= 1.
Proof.
  destruct (confidence_in_unit_interval [("thoughts", "racing")]
              [("note", "I am worried")]
              (Some (scores_only [("stressed", 0.6); ("calm", 0.3)])) None
              last_seen_order boosted_sources) as (H1 & H2 & H3).
  - simpl. repeat (constructor; [simpl; lra|]). constructor.
  - exact I.
  - split; [exact H1|].
    destruct (H2 eq_refl) as [r Hr]. exists r. split; [exact Hr | exact (H3 r Hr)].
Defined.

(** ** Blank responses *)

Lemma truthy_lstrip (s : string) :
  PyStr.truthy (PyStr.lstrip s) = negb (is_blank s).
Proof.
  induction s as [|c s IH]; simpl; [reflexivity|].
  destruct (PyStr.is_space c); simpl; [exact IH | reflexivity].
Qed.

Lemma is_blank_lstrip (s : string) : is_blank (PyStr.lstrip s) = is_blank s.
Proof.
  induction s as [|c s IH]; simpl; [reflexivity|].
  destruct (PyStr.is_space c) eqn:E; simpl; [exact IH | now rewrite E].
Qed.

Lemma is_blank_rev_onto (s acc : string) :
  is_blank (PyStr.rev_onto s acc) = is_blank s && is_blank acc.
Proof.
  revert acc. induction s as [|c s IH]; intro acc; simpl; [reflexivity|].
  rewrite IH. simpl. destruct (PyStr.is_space c), (is_blank s); reflexivity.
Qed.

Lemma truthy_rev_onto (s acc : string) :
  PyStr.truthy (PyStr.rev_onto s acc) = PyStr.truthy s || PyStr.truthy acc.
Proof.
  revert acc. induction s as [|c s IH]; intro acc; simpl; [reflexivity|].
  rewrite IH. simpl. apply orb_true_r.
Qed.

Lemma truthy_strip (s : string) :
  PyStr.truthy (PyStr.strip s) = negb (is_blank s).
Proof.
  unfold PyStr.strip, PyStr.rstrip, PyStr.rev.
  rewrite truthy_rev_onto, truthy_lstrip, is_blank_rev_onto, is_blank_lstrip.
  simpl. now rewrite orb_false_r, andb_true_r.
Qed.

(** A response is skipped exactly when it is empty or whitespace only. *)
Lemma skipped_is_blank (response_text : string) :
  Detector.skipped response_text = is_blank response_text.
Proof.
  unfold Detector.skipped. rewrite truthy_strip, negb_involutive.
  destruct response_text; simpl; [reflexivity|].
  reflexivity.
Qed.

(** ** Keyword counts *)

Lemma Q_of_nat_S (n : nat) : Q_of_nat (S n) == 1 + Q_of_nat n.
Proof.
  unfold Q_of_nat. rewrite Nat2Z.inj_succ. unfold Z.succ.
  rewrite inject_Z_plus. simpl. ring.
Qed.

Lemma Q_of_nat_add (n m : nat) : Q_of_nat (n + m) == Q_of_nat n + Q_of_nat m.
Proof.
  unfold Q_of_nat. rewrite Nat2Z.inj_add, inject_Z_plus. reflexivity.
Qed.

Lemma sum_for_keyword_increments (e low e' : string) (keywords : list string) :
  sum_for e (keyword_increments low e' keywords) ==
  if String.eqb e' e then Q_of_nat (keyword_hits keywords low) else 0.
Proof.
  unfold keyword_increments, keyword_hits.
  induction keywords as [|k ks IH]; simpl.
  - destruct (String.eqb e' e); reflexivity.
  - rewrite sum_for_app, IH.
    destruct (PyStr.contains k low); simpl.
    + destruct (String.eqb e' e); [rewrite Q_of_nat_S|]; ring.
    + ring.
Qed.

Lemma sum_for_table_absent (e low : string) (table : dict (list string)) :
  ~ In e (keys table) ->
  sum_for e (flat_map (fun ek => keyword_increments low (fst ek) (snd ek)) table)
  == 0.
Proof.
  induction table as [|[e' ks] table IH]; simpl; intro H; [reflexivity|].
  rewrite sum_for_app, sum_for_keyword_increments, IH by tauto. simpl.
  destruct (String.eqb e' e) eqn:E; [|ring].
  apply String.eqb_eq in E. tauto.
Qed.

Lemma sum_for_table (e low : string) (table : dict (list string))
  (keywords : list string) :
  NoDup (keys table) -> get table e = Some keywords ->
  sum_for e (flat_map (fun ek => keyword_increments low (fst ek) (snd ek)) table)
  == Q_of_nat (keyword_hits keywords low).
Proof.
  induction table as [|[e' ks] table IH]; simpl; intros ND G; [discriminate|].
  inversion ND as [|? ? Hn ND']; subst.
  rewrite sum_for_app, sum_for_keyword_increments. simpl.
  destruct (String.eqb e' e) eqn:E.
  - apply String.eqb_eq in E; subst e'. inversion G; subst.
    rewrite sum_for_table_absent by exact Hn. ring.
  - rewrite IH by assumption. ring.
Qed.

Lemma NoDup_emotion_keywords : NoDup (keys Detector.emotion_keywords).
Proof.
  simpl. repeat (constructor; [simpl; intuition discriminate|]). constructor.
Qed.

Lemma sum_for_response (e : string) (keywords : list string) (text : string) :
  get Detector.emotion_keywords e = Some keywords ->
  sum_for e (response_increments text) == Q_of_nat (response_hits keywords text).
Proof.
  intro G. unfold response_increments, response_hits.
  rewrite skipped_is_blank. destruct (is_blank text); [reflexivity|].
  apply sum_for_table; [apply NoDup_emotion_keywords | exact G].
Qed.

Lemma sum_for_journaling (e : string) (keywords : list string)
  (responses : dict string) :
  get Detector.emotion_keywords e = Some keywords ->
  sum_for e (journaling_increments responses) ==
  Q_of_nat (total_hits keywords responses).
Proof.
  intro G. unfold journaling_increments, total_hits.
  induction responses as [|r rs IH]; simpl; [reflexivity|].
  rewrite sum_for_app, IH, Q_of_nat_add, (sum_for_response e keywords); auto.
  reflexivity.
Qed.

(** C7. The keyword scorer never raises, and the count it accumulates for a
    category before normalising is the number of pairs (response, entry of
    the category's keyword list) such that the response is not blank and the
    entry occurs in the lower-cased response: an entry counts 1 per response,
    however often it recurs there; blank responses count nothing. *)
Theorem keyword_scorer_counts (responses : dict string) :
  exists counts,
    Detector.journaling_counts responses = Ok counts /\
    keys counts = keys Detector.emotions /\
    forall e keywords,
      get Detector.emotion_keywords e = Some keywords ->
      val counts e == Q_of_nat (total_hits keywords responses).
Proof.
  rewrite journaling_counts_increments.
  destruct (journaling_increments_checked responses) as [Hk _].
  destruct (counts_spec _ Hk) as (s & Hs & K & V & _).
  exists s. split; [exact Hs|]. split; [exact K|].
  intros e keywords G. rewrite V. now apply sum_for_journaling.
Qed.

Lemma keyword_scorer_counts_witness :
  exists counts,
    Detector.journaling_counts
      [("day", "Sad, sad, SAD day"); ("night", "   ")] = Ok counts /\
    val counts "sad" == 1.
Proof.
  destruct (keyword_scorer_counts
              [("day", "Sad, sad, SAD day"); ("night", "   ")])
    as (counts & Hc & _ & V).
  exists counts. split; [exact Hc|].
  rewrite (V "sad" _ eq_refl). vm_compute. reflexivity.
Defined.

(** ** The keyword listed twice *)

Lemma is_space_lower_ascii (c : ascii) :
  PyStr.is_space (PyStr.lower_ascii c) = PyStr.is_space c.
Proof.
  destruct c as [[] [] [] [] [] [] [] []]; reflexivity.
Qed.

Lemma is_blank_lower (s : string) : is_blank (PyStr.lower s) = is_blank s.
Proof.
  induction s as [|c s IH]; simpl; [reflexivity|].
  now rewrite is_space_lower_ascii, IH.
Qed.

Lemma prefix_lower (a b : string) :
  prefix a b = true -> prefix (PyStr.lower a) (PyStr.lower b) = true.
Proof.
  revert b. induction a as [|x a IH]; intros [|y b]; cbn [prefix PyStr.lower];
    try discriminate; try reflexivity.
  destruct (ascii_dec x y) as [<-|_]; [|discriminate].
  intro H. destruct (ascii_dec (PyStr.lower_ascii x) (PyStr.lower_ascii x));
    [now apply IH | congruence].
Qed.

(** A keyword that occurs in a response occurs, lower-cased, in the
    lower-cased response. *)
Lemma contains_lower (a b : string) :
  PyStr.contains a b = true ->
  PyStr.contains (PyStr.lower a) (PyStr.lower b) = true.
Proof.
  induction b as [|y b IH]; cbn [PyStr.contains PyStr.lower].
  - rewrite !orb_false_r. apply (prefix_lower a EmptyString).
  - intro H. apply orb_true_iff in H as [H|H]; apply orb_true_iff.
    + left. apply (prefix_lower a (String y b) H).
    + right. now apply IH.
Qed.

Lemma contains_peaceful_not_blank (s : string) :
  PyStr.contains "peaceful" s = true -> is_blank s = false.
Proof.
  induction s as [|c s IH]; [discriminate|].
  cbn [PyStr.contains prefix is_blank].
  destruct (ascii_dec "p" c) as [<-|_]; [reflexivity|].
  cbn [orb]. intro H. rewrite (IH H). apply andb_false_r.
Qed.

Lemma keyword_hits_split (keywords : list string) (keyword low : string) :
  keyword_hits keywords low =
  (keyword_adds keywords keyword low +
   keyword_hits (other_keywords keywords keyword) low)%nat.
Proof.
  unfold keyword_adds, other_keywords, keyword_hits.
  induction keywords as [|k ks IH]; simpl; [reflexivity|].
  destruct (String.eqb keyword k); simpl;
    destruct (PyStr.contains k low); simpl; rewrite IH; lia.
Qed.

Lemma keyword_adds_le_occurrences (keywords : list string) (keyword low : string) :
  (keyword_adds keywords keyword low <=
   List.length (filter (String.eqb keyword) keywords))%nat.
Proof.
  unfold keyword_adds, keyword_hits. apply filter_length_le.
Qed.

Lemma single_keywords_checked :
  forallb (fun ek =>
             forallb (fun k =>
                        (List.length (filter (String.eqb k) (snd ek)) <=? 1)%nat ||
                        (String.eqb (fst ek) "calm" && String.eqb k "peaceful"))
                     (snd ek))
          Detector.emotion_keywords = true.
Proof. vm_compute. reflexivity. Qed.

Lemma filter_absent (keywords : list string) (keyword : string) :
  ~ In keyword keywords -> filter (String.eqb keyword) keywords = [].
Proof.
  induction keywords as [|k ks IH]; simpl; intro H; [reflexivity|].
  destruct (String.eqb keyword k) eqn:E.
  - apply String.eqb_eq in E. subst. tauto.
  - apply IH. tauto.
Qed.

(** C10. "peaceful" stands twice in the keyword list of "calm": a response
    in which it occurs in any letter case (by [contains_lower], a response
    that contains "peaceful" as written is one) adds 2 to the count of "calm"
    for that keyword alone, on top of what the other keywords of "calm" add;
    every other keyword of every category adds at most 1 per response. *)
Theorem peaceful_counts_twice (scores : dict Q) (response_text : string) :
  keys scores = keys Detector.emotions ->
  PyStr.contains "peaceful" (PyStr.lower response_text) = true ->
  (exists scores' calm_keywords,
     get Detector.emotion_keywords "calm" = Some calm_keywords /\
     Detector.scan_response scores response_text = Ok scores' /\
     keyword_adds calm_keywords "peaceful" (PyStr.lower response_text) = 2%nat /\
     val scores' "calm" ==
       val scores "calm" + 2 +
       Q_of_nat (keyword_hits (other_keywords calm_keywords "peaceful")
                   (PyStr.lower response_text))) /\
  (forall e keywords k,
     get Detector.emotion_keywords e = Some keywords ->
     (e, k) <> ("calm", "peaceful") ->
     (keyword_adds keywords k (PyStr.lower response_text) <= 1)%nat).
Proof.
  intros K Hp. split.
  - rewrite scan_response_increments.
    assert (Forall (fun kw => In (fst kw) (keys scores))
              (response_increments response_text)) as Hk.
    { rewrite K, <- keys_zero_scores. apply keys_known_In.
      destruct (journaling_increments_checked [("r", response_text)]) as [H _].
      unfold journaling_increments in H. simpl in H.
      now rewrite app_nil_r in H. }
    destruct (add_weights_spec _ _ Hk) as (s' & Hs' & _ & V).
    destruct (get Detector.emotion_keywords "calm") as [calm_keywords|] eqn:G;
      [|discriminate].
    exists s', calm_keywords. split; [reflexivity|]. split; [exact Hs'|].
    assert (keyword_adds calm_keywords "peaceful" (PyStr.lower response_text)
            = 2%nat) as H2.
    { inversion G; subst calm_keywords.
      unfold keyword_adds, keyword_hits.
      change (filter (String.eqb "peaceful") _) with ["peaceful"; "peaceful"].
      simpl filter. rewrite Hp. reflexivity. }
    split; [exact H2|].
    rewrite V, (sum_for_response "calm" calm_keywords _ G).
    unfold response_hits.
    rewrite <- is_blank_lower, (contains_peaceful_not_blank _ Hp).
    rewrite (keyword_hits_split calm_keywords "peaceful"), H2, Q_of_nat_add.
    unfold Q_of_nat at 1. simpl. ring.
  - intros e keywords k G Hne.
    eapply Nat.le_trans; [apply keyword_adds_le_occurrences|].
    destruct (in_dec string_dec k keywords) as [Hin|Hout];
      [|rewrite filter_absent by exact Hout; simpl; lia].
    pose proof single_keywords_checked as H. rewrite forallb_forall in H.
    specialize (H _ (get_Some_In _ _ _ G)). simpl in H.
    rewrite forallb_forall in H. specialize (H k Hin).
    apply orb_true_iff in H as [H|H].
    + now apply Nat.leb_le.
    + apply andb_true_iff in H as [H1 H2].
      apply String.eqb_eq in H1, H2. subst. congruence.
Qed.

Lemma peaceful_counts_twice_witness :
  exists scores',
    Detector.scan_response Detector.zero_scores "A Peaceful morning" = Ok scores' /\
    val scores' "calm" == 2.
Proof.
  destruct (peaceful_counts_twice Detector.zero_scores "A Peaceful morning")
    as [(scores' & calm_keywords & G & Hs & _ & V) _].
  - reflexivity.
  - reflexivity.
  - exists scores'. split; [exact Hs|]. rewrite V.
    inversion G; subst calm_keywords. vm_compute. reflexivity.
Defined.

(** ** Quality-adjusted fusion *)

Lemma mem_In_keys {V : Type} (d : dict V) (k : string) :
  mem k d = true <-> In k (keys d).
Proof.
  unfold mem. split.
  - destruct (get d k) as [v|] eqn:G; [|discriminate]. intros _.
    apply get_Some_In in G. change k with (fst (k, v)). now apply in_map.
  - intro H. apply In_keys_get in H as [v ->]. reflexivity.
Qed.

Lemma get_fold_setitem {V : Type} (g : string -> V) (l : list string)
  (d0 : dict V) (c : string) :
  get (fold_left (fun d k => setitem d k (g k)) l d0) c =
  if in_dec string_dec c l then Some (g c) else get d0 c.
Proof.
  revert d0. induction l as [|k l IH]; intro d0; simpl; [reflexivity|].
  rewrite IH. destruct (in_dec string_dec c l) as [Hin|Hout].
  - destruct (string_dec k c); reflexivity.
  - rewrite get_setitem. destruct (string_dec k c) as [->|Hne].
    + now rewrite String.eqb_refl.
    + apply String.eqb_neq in Hne. now rewrite Hne.
Qed.

Lemma contributing_inserted (sources : list Fusion.ValidResult) (c : string) :
  contributing sources c <> [] <-> In c (Fusion.inserted_categories sources).
Proof.
  unfold contributing, Fusion.inserted_categories. rewrite in_flat_map. split.
  - intro H. destruct (filter _ sources) as [|s l] eqn:F; [congruence|].
    assert (In s (filter (fun s => mem c (Fusion.vr_scores s)) sources)) as Hs
      by (rewrite F; now left).
    apply filter_In in Hs as [Hin Hm]. exists s. split; [exact Hin|].
    now apply mem_In_keys.
  - intros (s & Hin & Hk) F.
    assert (In s (filter (fun s => mem c (Fusion.vr_scores s)) sources)) as Hs.
    { apply filter_In. split; [exact Hin | now apply mem_In_keys]. }
    rewrite F in Hs. contradiction.
Qed.

Lemma weighted_sum_contributing (sources : list Fusion.ValidResult) (c : string) :
  Fusion.weighted_sum sources c ==
  sumQ (map (fun s => val (Fusion.vr_scores s) c * Fusion.vr_weight s)
            (contributing sources c)).
Proof.
  unfold Fusion.weighted_sum.
  assert (forall a,
            fold_left
              (fun acc r =>
                 match get (Fusion.vr_scores r) c with
                 | Some s => acc + s * Fusion.vr_weight r
                 | None => acc
                 end) sources a ==
            a + sumQ (map (fun s => val (Fusion.vr_scores s) c * Fusion.vr_weight s)
                          (contributing sources c))) as H.
  { induction sources as [|s l IH]; intro a; simpl; [ring|].
    rewrite IH. unfold mem.
    destruct (get (Fusion.vr_scores s) c) eqn:G; simpl;
      unfold val, get_or; rewrite ?G; ring. }
  rewrite H. ring.
Qed.

Lemma total_weight_contributing (sources : list Fusion.ValidResult) (c : string) :
  Fusion.total_weight sources c ==
  sumQ (map Fusion.vr_weight (contributing sources c)).
Proof.
  unfold Fusion.total_weight.
  assert (forall a,
            fold_left
              (fun acc r =>
                 if mem c (Fusion.vr_scores r)
                 then acc + Fusion.vr_weight r else acc) sources a ==
            a + sumQ (map Fusion.vr_weight (contributing sources c))) as H.
  { induction sources as [|s l IH]; intro a; simpl; [ring|].
    rewrite IH. destruct (mem c (Fusion.vr_scores s)); simpl; ring. }
  rewrite H. ring.
Qed.

(** The weight of a modality: base weight plus boosts, capped at 1. *)
Lemma modality_weight_formula (modality : string) (data : ModalityData) :
  Fusion._calculate_modality_weight modality data ==
    Qmin (base_weight modality + quality_boost modality data) 1 /\
  0 <= quality_boost modality data.
Proof.
  unfold Fusion._calculate_modality_weight, quality_boost. split.
  - assert (get_or Fusion.base_weights modality 0.5 = base_weight modality) as B.
    { unfold get_or, Fusion.base_weights, base_weight, get.
      rewrite !(String.eqb_sym _ modality).
      destruct (String.eqb modality "text"); [reflexivity|].
      destruct (String.eqb modality "voice"); [reflexivity|].
      destruct (String.eqb modality "face"); reflexivity. }
    rewrite B.
    apply Qmin_proper_one. ring.
  - assert (0 <= Fusion.stress_boost modality data) as H1.
    { unfold Fusion.stress_boost. destruct (stress_analysis data) as [[|b sa]|];
        try lra. destruct (_ && _); lra. }
    assert (0 <= Fusion.ensemble_boost modality data) as H2.
    { unfold Fusion.ensemble_boost. destruct (ensemble_info data); try lra.
      destruct (_ && _); lra. }
    assert (0 <= Fusion.confidence_boost data) as H3.
    { unfold Fusion.confidence_boost. destruct (Qltb _ _); lra. }
    lra.
Qed.

Lemma base_weight_bounds (modality : string) : 0.5 <= base_weight modality <= 1.
Proof.
  unfold base_weight.
  destruct (String.eqb modality "text"); [lra|].
  destruct (String.eqb modality "voice"); [lra|].
  destruct (String.eqb modality "face"); lra.
Qed.

Lemma modality_weight_positive (modality : string) (data : ModalityData) :
  0 < Fusion._calculate_modality_weight modality data.
Proof.
  destruct (modality_weight_formula modality data) as [E Hb]. rewrite E.
  pose proof (base_weight_bounds modality) as [Hlo _].
  destruct (Q.min_spec (base_weight modality + quality_boost modality data) 1)
    as [[_ M]|[_ M]]; rewrite M; lra.
Qed.

(** Every collected source comes from a modality with data, carries the
    scores and the weight computed for it, and has a non-empty score map. *)
Lemma collect_valid_results_In (modality_results : dict (option ModalityData))
  (s : Fusion.ValidResult) :
  In s (Fusion.collect_valid_results modality_results) ->
  exists data,
    In (Fusion.vr_modality s, Some data) modality_results /\
    Fusion.vr_scores s = Fusion.modality_cluster_scores (Fusion.vr_modality s) data /\
    Fusion.vr_weight s =
      Fusion._calculate_modality_weight (Fusion.vr_modality s) data.
Proof.
  induction modality_results as [|[m [d|]] l IH]; simpl; [contradiction| |].
  - destruct (Fusion.modality_cluster_scores m d) as [|x cs] eqn:C.
    + intro H. destruct (IH H) as (data & H1 & H2). eauto.
    + intros [H|H].
      * subst s. exists d.
        unfold Fusion.vr_modality, Fusion.vr_scores, Fusion.vr_weight.
        cbn [fst snd]. rewrite C. auto.
      * destruct (IH H) as (data & H1 & H2). eauto.
  - intro H. destruct (IH H) as (data & H1 & H2). eauto.
Qed.

Lemma collected_weights_positive (modality_results : dict (option ModalityData)) :
  Forall (fun s => 0 < Fusion.vr_weight s)
         (Fusion.collect_valid_results modality_results).
Proof.
  apply Forall_forall. intros s Hs.
  apply collect_valid_results_In in Hs as (data & _ & _ & ->).
  apply modality_weight_positive.
Qed.

Lemma sumQ_weights_positive (l : list Fusion.ValidResult) :
  Forall (fun s => 0 < Fusion.vr_weight s) l -> l <> [] ->
  0 < sumQ (map Fusion.vr_weight l).
Proof.
  intros H Hne. destruct l as [|s l]; [congruence|].
  inversion H as [|? ? Hs Hl]; subst. simpl.
  assert (0 <= sumQ (map Fusion.vr_weight l)) as H0.
  { clear - Hl. induction Hl as [|x l Hx _ IH]; simpl; lra. }
  lra.
Qed.

Lemma contributing_positive (sources : list Fusion.ValidResult) (c : string) :
  Forall (fun s => 0 < Fusion.vr_weight s) sources ->
  Forall (fun s => 0 < Fusion.vr_weight s) (contributing sources c).
Proof.
  intro H. apply Forall_forall. intros s Hs. apply filter_In in Hs as [Hs _].
  rewrite Forall_forall in H. auto.
Qed.

Lemma fused_score_average (sources : list Fusion.ValidResult) (c : string) :
  Forall (fun s => 0 < Fusion.vr_weight s) sources ->
  contributing sources c <> [] ->
  Fusion.fused_score sources c == weighted_average sources c.
Proof.
  intros Hw Hc. unfold Fusion.fused_score, weighted_average.
  pose proof (sumQ_weights_positive _ (contributing_positive _ c Hw) Hc) as Hpos.
  rewrite <- total_weight_contributing in Hpos.
  apply Qltb_lt in Hpos as Hb. rewrite Hb.
  rewrite weighted_sum_contributing.
  rewrite (total_weight_contributing sources c) at 1. reflexivity.
Qed.

(** The boosts of the code are those of the specification. *)
Lemma quality_boost_claimed (modality : string) (data : ModalityData) :
  quality_boost modality data = claimed_boost modality data.
Proof.
  unfold quality_boost, claimed_boost, Fusion.stress_boost,
    Fusion.ensemble_boost, Fusion.confidence_boost, Fusion.reported_confidence,
    clear_stress, models_agree, stated_confidence, val.
  f_equal; [f_equal|].
  - destruct (stress_analysis data) as [[|b sa]|];
      destruct (String.eqb modality "voice"); reflexivity.
  - destruct (ensemble_info data); destruct (String.eqb modality "face");
      reflexivity.
  - destruct (category_confidence data) as [c|]; [|reflexivity].
    destruct (Qeq_bool c 0); reflexivity.
Qed.

(** Capped at 1, the boosts add at most 0.2 to the base weight. *)
Lemma claimed_boost_effect (modality : string) (data : ModalityData) :
  base_weight modality <=
    Qmin (base_weight modality + claimed_boost modality data) 1 <=
  base_weight modality + 0.2.
Proof.
  pose proof (base_weight_bounds modality) as [Hlo Hhi].
  assert (0 <= claimed_boost modality data) as Hb.
  { rewrite <- quality_boost_claimed. apply modality_weight_formula. }
  split; [apply Q.min_glb; lra|].
  unfold claimed_boost, base_weight in *.
  destruct (String.eqb modality "text"); [eapply Qle_trans; [apply Q.le_min_r|lra]|].
  destruct (String.eqb modality "voice");
    [eapply Qle_trans; [apply Q.le_min_r|lra]|].
  cbn [andb] in *.
  eapply Qle_trans; [apply Q.le_min_l|].
  destruct (String.eqb modality "face" && models_agree data);
    destruct (Qltb 0.7 (stated_confidence data)); lra.
Qed.

(** C3. Quality-adjusted fusion: the fused score of a category that some
    source scores is the sum of (score x weight) over the sources with an
    entry for it, divided by the sum of the weights of exactly those sources;
    a category with one such source gets that source's score; and the weight
    of each source is its base weight (text 1.0, voice 0.8, face 0.7, any
    other modality 0.5) plus its boosts (+0.2 for a voice source with a
    stress likelihood above 0.5, +0.1 for a face source whose ensemble
    information mentions an ensemble, +0.1 for a stated confidence above
    0.7), capped at 1.0, which leaves it between the base weight and the
    base weight plus 0.2. *)
Theorem quality_adjusted_fusion_average
  (set_order : list string -> list string)
  (modality_results : dict (option ModalityData)) (r : Fusion.FusionResult)
  (c : string) :
  Fusion.set_iteration set_order ->
  Fusion.weighted_fusion set_order modality_results = Some r ->
  contributing (Fusion.collect_valid_results modality_results) c <> [] ->
  (exists v, get (Fusion.all_scores r) c = Some v /\
     v == weighted_average (Fusion.collect_valid_results modality_results) c) /\
  (forall s, contributing (Fusion.collect_valid_results modality_results) c = [s] ->
     val (Fusion.all_scores r) c == val (Fusion.vr_scores s) c) /\
  (forall s, In s (Fusion.collect_valid_results modality_results) ->
     exists data,
       In (Fusion.vr_modality s, Some data) modality_results /\
       Fusion.vr_weight s ==
         Qmin (base_weight (Fusion.vr_modality s) +
               claimed_boost (Fusion.vr_modality s) data) 1 /\
       base_weight (Fusion.vr_modality s) <= Fusion.vr_weight s <=
         base_weight (Fusion.vr_modality s) + 0.2) /\
  (base_weight "text" == 1.0 /\ base_weight "voice" == 0.8 /\
   base_weight "face" == 0.7).
Proof.
  intros Hset Hr Hc.
  set (sources := Fusion.collect_valid_results modality_results) in *.
  pose proof (collected_weights_positive modality_results) as Hw. fold sources in Hw.
  assert (Fusion.all_scores r = Fusion.fused_scores_of set_order sources) as Hall.
  { unfold Fusion.weighted_fusion in Hr. fold sources in Hr.
    destruct sources; [discriminate|]. inversion Hr. reflexivity. }
  assert (get (Fusion.all_scores r) c = Some (Fusion.fused_score sources c)) as G.
  { rewrite Hall. unfold Fusion.fused_scores_of.
    rewrite (get_fold_setitem (Fusion.fused_score sources)).
    destruct (in_dec string_dec c _) as [_|Hout]; [reflexivity|].
    exfalso. apply Hout. apply (proj2 (Hset _)).
    now apply contributing_inserted. }
  split; [|split; [|split]].
  - exists (Fusion.fused_score sources c). split; [exact G|].
    now apply fused_score_average.
  - intros s Hs. unfold val at 1. unfold get_or. rewrite G.
    rewrite (fused_score_average sources c Hw Hc).
    unfold weighted_average. rewrite Hs. simpl.
    assert (0 < Fusion.vr_weight s) as Hpos.
    { pose proof (contributing_positive sources c Hw) as H. rewrite Hs in H.
      now inversion H. }
    field. lra.
  - intros s Hs.
    apply collect_valid_results_In in Hs as (data & Hin & _ & Hwt).
    exists data. split; [exact Hin|].
    assert (Fusion.vr_weight s ==
            Qmin (base_weight (Fusion.vr_modality s) +
                  claimed_boost (Fusion.vr_modality s) data) 1) as E.
    { rewrite Hwt, <- quality_boost_claimed. apply modality_weight_formula. }
    split; [exact E|]. rewrite E. apply claimed_boost_effect.
  - repeat split; reflexivity.
Qed.

Lemma set_iteration_last_seen : Fusion.set_iteration last_seen_order.
Proof.
  intro l. split; [apply NoDup_nodup | intro x; apply nodup_In].
Qed.

(** Three boosted sources: text 1.0 (+0.1, capped), voice 0.8 + 0.2, face
    0.7 + 0.1; "anxious" is scored by text and voice alone. *)
Lemma quality_adjusted_fusion_average_witness :
  exists r v,
    Fusion.weighted_fusion last_seen_order boosted_sources = Some r /\
    get (Fusion.all_scores r) "anxious" = Some v /\
    v == weighted_average
           (Fusion.collect_valid_results boosted_sources) "anxious" /\
    v == (0.8 * 1 + 0.6 * 1) / (1 + 1) /\
    map Fusion.vr_modality (contributing
                              (Fusion.collect_valid_results boosted_sources)
                              "anxious") = ["text"; "voice"] /\
    (exists data,
       In ("face", Some data) boosted_sources /\
       Fusion._calculate_modality_weight "face" ensemble_face ==
         Qmin (base_weight "face" + claimed_boost "face" data) 1 /\
       base_weight "face" <=
         Fusion._calculate_modality_weight "face" ensemble_face <=
         base_weight "face" + 0.2) /\
    Fusion._calculate_modality_weight "text" confident_text == 1 /\
    Fusion._calculate_modality_weight "voice" stressed_voice == 1 /\
    Fusion._calculate_modality_weight "face" ensemble_face == 0.8.
Proof.
  destruct (Fusion.weighted_fusion last_seen_order boosted_sources)
    as [r|] eqn:Hr; [|vm_compute in Hr; discriminate].
  destruct (quality_adjusted_fusion_average last_seen_order
              boosted_sources r "anxious" set_iteration_last_seen Hr)
    as ((v & G & E) & _ & W & _).
  - vm_compute. discriminate.
  - exists r, v. split; [reflexivity|]. split; [exact G|]. split; [exact E|].
    split; [rewrite E; vm_compute; reflexivity|].
    split; [reflexivity|].
    split; [|repeat split; vm_compute; reflexivity].
    apply (W ("face", [("calm", 0.4)],
              Fusion._calculate_modality_weight "face" ensemble_face)).
    right; right; left. reflexivity.
Defined.

(** ** Monotonicity *)

Lemma sumQ_app (a b : list Q) : sumQ (a ++ b) == sumQ a + sumQ b.
Proof.
  induction a as [|x a IH]; simpl; [ring|]. rewrite IH. ring.
Qed.

Lemma val_combine_scores (i j f v : dict Q) (c : string) :
  In c (keys Detector.emotions) ->
  val (Detector._combine_scores i j f v) c =
  val i c * 0.3 + val j c * 0.4 + val f c * 0.2 + val v c * 0.1.
Proof.
  intro H. unfold val at 1. unfold get_or. rewrite combine_scores_map.
  rewrite (get_map_keys (Detector.combined_score i j f v)) by exact H.
  reflexivity.
Qed.

Lemma val_combine_scores_outside (i j f v : dict Q) (c : string) :
  ~ In c (keys Detector.emotions) ->
  val (Detector._combine_scores i j f v) c = 0.
Proof.
  intro H. unfold val, get_or.
  destruct (get (Detector._combine_scores i j f v) c) as [x|] eqn:G; [|reflexivity].
  exfalso. apply H. rewrite <- (keys_combine_scores i j f v).
  apply get_Some_In in G. change c with (fst (c, x)). now apply in_map.
Qed.

Lemma contributing_with_score (before after : list Fusion.ValidResult)
  (src : Fusion.ValidResult) (c : string) (x x' : Q) :
  get (Fusion.vr_scores src) c = Some x ->
  contributing (before ++ src :: after) c =
    contributing before c ++ src :: contributing after c /\
  contributing (before ++ with_score src c x' :: after) c =
    contributing before c ++ with_score src c x' :: contributing after c.
Proof.
  intro G. unfold contributing. rewrite !filter_app. cbn [filter].
  assert (mem c (Fusion.vr_scores src) = true) as M1.
  { unfold mem. now rewrite G. }
  assert (mem c (Fusion.vr_scores (with_score src c x')) = true) as M2.
  { unfold with_score, Fusion.vr_scores at 1. cbn [fst snd]. unfold mem.
    now rewrite get_setitem, String.eqb_refl. }
  rewrite M1, M2. split; reflexivity.
Qed.

Lemma Qdiv_le_compat (a b t : Q) : 0 < t -> a <= b -> a / t <= b / t.
Proof.
  intros Ht Hab. unfold Qdiv. apply Qmult_le_compat_r; [exact Hab|].
  apply Qinv_le_0_compat. lra.
Qed.

(** C9, as the code has it.  Simple weighted fusion: raising the score of a
    category in any source never lowers its fused score.  Quality-adjusted
    fusion: raising the score a source already has for a category, with every
    other score and every weight fixed, never lowers the fused score of that
    category. *)
Theorem fused_score_monotone (i i' j j' f f' v v' : dict Q)
  (before after : list Fusion.ValidResult) (src : Fusion.ValidResult)
  (c : string) (x x' : Q) :
  val i c <= val i' c -> val j c <= val j' c ->
  val f c <= val f' c -> val v c <= val v' c ->
  Forall (fun s => 0 < Fusion.vr_weight s) (before ++ src :: after) ->
  get (Fusion.vr_scores src) c = Some x -> x <= x' ->
  val (Detector._combine_scores i j f v) c <=
    val (Detector._combine_scores i' j' f' v') c /\
  Fusion.fused_score (before ++ src :: after) c <=
    Fusion.fused_score (before ++ with_score src c x' :: after) c.
Proof.
  intros Hi Hj Hf Hv Hw G Hx. split.
  - destruct (in_dec string_dec c (keys Detector.emotions)) as [Hin|Hout].
    + rewrite !val_combine_scores by exact Hin. lra.
    + rewrite !val_combine_scores_outside by exact Hout. lra.
  - assert (Forall (fun s => 0 < Fusion.vr_weight s)
              (before ++ with_score src c x' :: after)) as Hw'.
    { apply Forall_app in Hw as [Hb Ha]. apply Forall_app. split; [exact Hb|].
      inversion Ha; subst. constructor; assumption. }
    destruct (contributing_with_score before after src c x x' G) as [C1 C2].
    assert (contributing (before ++ src :: after) c <> []) as N1.
    { rewrite C1. destruct (contributing before c); discriminate. }
    assert (contributing (before ++ with_score src c x' :: after) c <> []) as N2.
    { rewrite C2. destruct (contributing before c); discriminate. }
    rewrite (fused_score_average _ c Hw N1), (fused_score_average _ c Hw' N2).
    pose proof (sumQ_weights_positive _ (contributing_positive _ c Hw) N1) as Hpos.
    apply Forall_app in Hw as [_ Ha]. inversion Ha as [|? ? Hs _]; subst.
    unfold weighted_average. rewrite C1, C2. rewrite C1 in Hpos.
    set (F := fun s => val (Fusion.vr_scores s) c * Fusion.vr_weight s).
    assert (F src == x * Fusion.vr_weight src) as V1.
    { unfold F, val, get_or. now rewrite G. }
    assert (F (with_score src c x') == x' * Fusion.vr_weight src) as V2.
    { unfold F, with_score, Fusion.vr_scores at 1, Fusion.vr_weight at 1.
      cbn [fst snd]. unfold val, get_or.
      now rewrite get_setitem, String.eqb_refl. }
    assert (Fusion.vr_weight (with_score src c x') = Fusion.vr_weight src) as W
      by reflexivity.
    rewrite !map_app, !sumQ_app in *. cbn [map sumQ fold_right] in *.
    rewrite V1, V2, W.
    apply Qdiv_le_compat; [exact Hpos|]. nra.
Qed.

(** C9 as the specification states it fails in the quality-adjusted mode:
    the text analyzer scores "anxious" 0.9 and "anxious" wins; when the face
    analyzer, which had no entry for "anxious" (absent, that is 0), scores it
    0.1, the fused score of "anxious" falls from 0.9 to 0.97/1.7, because the
    face weight now enters the divisor. *)
Lemma monotonicity_counterexample :
  option_map Fusion.dominant_emotion
    (Fusion.weighted_fusion last_seen_order fusion_without_face_anxious)
    = Some "anxious" /\
  option_map Fusion.dominant_emotion
    (Fusion.weighted_fusion last_seen_order fusion_with_face_anxious)
    = Some "anxious" /\
  val [("calm", 0.1)] "anxious" <=
    val (setitem [("calm", 0.1)] "anxious" 0.1) "anxious" /\
  fused_at (Fusion.weighted_fusion last_seen_order fusion_with_face_anxious)
           "anxious" <
  fused_at (Fusion.weighted_fusion last_seen_order fusion_without_face_anxious)
           "anxious" /\
  Fusion.fused_score (Fusion.collect_valid_results fusion_with_face_anxious)
    "anxious" <
  Fusion.fused_score (Fusion.collect_valid_results fusion_without_face_anxious)
    "anxious".
Proof.
  repeat split; vm_compute; reflexivity || discriminate.
Qed.

Lemma fused_score_monotone_witness :
  val (Detector._combine_scores [("calm", 0.2)] [] [] []) "calm" <=
    val (Detector._combine_scores [("calm", 0.5)] [] [] []) "calm" /\
  Fusion.fused_score
    ([("face", [("calm", 0.4)], 0.7)] ++ ("text", [("calm", 0.2)], 1.0) :: []) "calm" <=
  Fusion.fused_score
    ([("face", [("calm", 0.4)], 0.7)] ++
     with_score ("text", [("calm", 0.2)], 1.0) "calm" 0.6 :: []) "calm".
Proof.
  apply (fused_score_monotone [("calm", 0.2)] [("calm", 0.5)] [] [] [] [] [] []
           [("face", [("calm", 0.4)], 0.7)] [] ("text", [("calm", 0.2)], 1.0)
           "calm" 0.2 0.6).
  - vm_compute. discriminate.
  - vm_compute. discriminate.
  - vm_compute. discriminate.
  - vm_compute. discriminate.
  - repeat constructor.
  - reflexivity.
  - vm_compute. discriminate.
Defined.

(** ** Ties *)

Lemma first_greatest_of_max (items : dict Q) (top : string * Q) :
  NoDup (keys items) -> py_max_by_value items = Ok top ->
  first_greatest (keys items) items (fst top).
Proof.
  intros ND H. apply py_max_by_value_spec in H as (b & a & Hsplit & Hb & Ha).
  assert (forall kv, In kv items -> val items (fst kv) = snd kv) as V.
  { intros [k x] Hin. cbn [fst snd]. unfold val, get_or.
    now rewrite (In_get_NoDup items k x ND Hin). }
  assert (val items (fst top) = snd top) as Vtop.
  { apply V. rewrite Hsplit. apply in_elt. }
  exists (keys b), (keys a). split; [|split].
  - rewrite Hsplit. unfold keys. now rewrite map_app.
  - intros e He. unfold keys in He. apply in_map_iff in He as (kv & <- & Hkv).
    rewrite Vtop, (V kv).
    + rewrite Forall_forall in Hb. auto.
    + rewrite Hsplit. apply in_or_app. now left.
  - intros e He. unfold keys in He. apply in_map_iff in He as (kv & <- & Hkv).
    rewrite Vtop, (V kv).
    + rewrite Forall_forall in Ha. auto.
    + rewrite Hsplit. apply in_or_app. right. now right.
Qed.

Lemma detect_emotion_first_greatest (i j : dict string)
  (fd vd : option ModalityData) :
  first_greatest (keys Detector.emotions)
    (Detector.all_scores (Detector.detect_emotion i j fd vd))
    (Detector.emotion (Detector.detect_emotion i j fd vd)).
Proof.
  destruct (detect_emotion_body_spec i j fd vd)
    as (si & sj & sf & sv & dominant & meta & _ & _ & _ & _ &
        _ & _ & _ & _ & Hmax & _ & Hbody).
  unfold Detector.detect_emotion. rewrite Hbody.
  cbn [Detector.all_scores Detector.emotion].
  rewrite <- (keys_combine_scores si sj sf sv).
  apply first_greatest_of_max; [|exact Hmax].
  rewrite keys_combine_scores. apply NoDup_registry.
Qed.

Lemma setitem_fresh {V : Type} (d : dict V) (k : string) (v : V) :
  ~ In k (keys d) -> setitem d k v = d ++ [(k, v)].
Proof.
  induction d as [|[k0 v0] d IH]; simpl; intro H; [reflexivity|].
  destruct (String.eqb k0 k) eqn:E.
  - apply String.eqb_eq in E. subst. tauto.
  - f_equal. apply IH. tauto.
Qed.

Lemma fold_setitem_fresh {V : Type} (g : string -> V) (l : list string)
  (d0 : dict V) :
  NoDup l -> (forall k, In k l -> ~ In k (keys d0)) ->
  fold_left (fun d k => setitem d k (g k)) l d0 =
  d0 ++ map (fun k => (k, g k)) l.
Proof.
  revert d0. induction l as [|k l IH]; intros d0 ND H; simpl.
  - now rewrite app_nil_r.
  - inversion ND as [|? ? Hk ND']; subst.
    rewrite setitem_fresh by (apply H; now left).
    rewrite IH; [now rewrite <- app_assoc|exact ND'|].
    intros k' Hk' Hin. unfold keys in Hin. rewrite map_app in Hin.
    apply in_app_or in Hin as [Hin|[Hin|[]]].
    + apply (H k'); [now right | exact Hin].
    + simpl in Hin. subst. contradiction.
Qed.

Lemma fused_scores_of_map (set_order : list string -> list string)
  (sources : list Fusion.ValidResult) :
  Fusion.set_iteration set_order ->
  Fusion.fused_scores_of set_order sources =
  map (fun c => (c, Fusion.fused_score sources c))
      (set_order (Fusion.inserted_categories sources)).
Proof.
  intro Hset. unfold Fusion.fused_scores_of.
  rewrite (fold_setitem_fresh (Fusion.fused_score sources)); [reflexivity| |].
  - apply Hset.
  - intros k _ [].
Qed.

Lemma collected_scores_nonempty (modality_results : dict (option ModalityData))
  (s : Fusion.ValidResult) :
  In s (Fusion.collect_valid_results modality_results) ->
  Fusion.vr_scores s <> [].
Proof.
  induction modality_results as [|[m [d|]] l IH]; simpl; [contradiction| |exact IH].
  destruct (Fusion.modality_cluster_scores m d) as [|x cs] eqn:C; [exact IH|].
  intros [H|H]; [|now apply IH]. subst s. discriminate.
Qed.

Lemma weighted_fusion_first_greatest (set_order : list string -> list string)
  (modality_results : dict (option ModalityData)) (r : Fusion.FusionResult) :
  Fusion.set_iteration set_order ->
  Fusion.weighted_fusion set_order modality_results = Some r ->
  first_greatest
    (set_order (Fusion.inserted_categories
                  (Fusion.collect_valid_results modality_results)))
    (Fusion.all_scores r) (Fusion.dominant_emotion r).
Proof.
  intros Hset Hr. unfold Fusion.weighted_fusion in Hr.
  pose proof (collected_scores_nonempty modality_results) as Hne.
  set (sources := Fusion.collect_valid_results modality_results) in *.
  destruct sources as [|s0 rest] eqn:S; [discriminate|]. rewrite <- S in *.
  inversion Hr; subst r; clear Hr.
  cbn [Fusion.all_scores Fusion.dominant_emotion].
  rewrite (fused_scores_of_map set_order sources Hset).
  set (order := set_order (Fusion.inserted_categories sources)).
  set (fused := map (fun c => (c, Fusion.fused_score sources c)) order).
  assert (keys fused = order) as K.
  { unfold fused, keys. rewrite map_map. simpl. apply map_id. }
  assert (order <> []) as Hord.
  { assert (In s0 sources) as H0 by (rewrite S; now left).
    specialize (Hne s0 H0).
    destruct (Fusion.vr_scores s0) as [|[k x] cs] eqn:C; [congruence|].
    assert (In k order) as Hk.
    { apply (proj2 (Hset _)). unfold Fusion.inserted_categories.
      apply in_flat_map. exists s0. split; [exact H0|]. rewrite C. now left. }
    intro E. rewrite E in Hk. contradiction. }
  unfold Fusion.top_category_of.
  destruct fused as [|f0 fs] eqn:F.
  { exfalso. apply Hord. rewrite <- K. reflexivity. }
  rewrite <- F in *.
  destruct (py_max_by_value fused) as [top|] eqn:Hmax;
    [|rewrite F in Hmax; discriminate].
  rewrite <- K. apply first_greatest_of_max; [|exact Hmax].
  rewrite K. apply Hset.
Qed.

(** ** Every source abstains: the result *)

Lemma singleton_enumeration (l : list string) (c : string) :
  NoDup l -> (forall x, In x l <-> In x [c]) -> l = [c].
Proof.
  intros ND H. destruct l as [|a [|b l]].
  - exfalso. apply (proj2 (H c)). now left.
  - destruct (proj1 (H a) (or_introl eq_refl)) as [<-|[]]. reflexivity.
  - exfalso.
    destruct (proj1 (H a) (or_introl eq_refl)) as [<-|[]].
    destruct (proj1 (H b) (or_intror (or_introl eq_refl))) as [<-|[]].
    inversion ND as [|? ? Hn _]; subst. apply Hn. now left.
Qed.

Lemma fallback_cluster_scores (modality : string) (data : ModalityData) :
  cluster_scores data = None -> actionable_category data = None ->
  Fusion.modality_cluster_scores modality data = [("calm", 0.5)].
Proof.
  intros Hc Ha.
  unfold Fusion.modality_cluster_scores, Fusion._create_cluster_scores.
  rewrite Hc, Ha.
  destruct (String.eqb modality "text"), (String.eqb modality "face"),
           (String.eqb modality "voice"); reflexivity.
Qed.

(** Data without a score map and without a category, as the only
    modality: the fusion answers "calm" with confidence 1. *)
Lemma sole_fallback_fusion (set_order : list string -> list string)
  (modality : string) (data : ModalityData) :
  Fusion.set_iteration set_order ->
  cluster_scores data = None -> actionable_category data = None ->
  exists r,
    Fusion.weighted_fusion set_order [(modality, Some data)] = Some r /\
    Fusion.dominant_emotion r = "calm" /\ Fusion.confidence r == 1 /\
    scores_eq (Fusion.all_scores r) [("calm", 0.5)].
Proof.
  intros Hset Hc Ha.
  pose proof (modality_weight_positive modality data) as Hw.
  unfold Fusion.weighted_fusion. cbn [Fusion.collect_valid_results].
  rewrite (fallback_cluster_scores modality data Hc Ha).
  set (w := Fusion._calculate_modality_weight modality data) in *.
  unfold Fusion.fused_scores_of, Fusion.inserted_categories.
  cbn [flat_map Fusion.vr_scores fst snd keys map app].
  rewrite (singleton_enumeration (set_order ["calm"]) "calm");
    [|apply Hset|apply Hset].
  cbn [fold_left setitem Fusion.top_category_of py_max_by_value fst].
  eexists. split; [reflexivity|].
  cbn [Fusion.dominant_emotion Fusion.confidence Fusion.all_scores].
  split; [reflexivity|]. split.
  - unfold Fusion._calculate_fusion_confidence, Fusion.count_if,
      Fusion.agrees, Fusion.agrees_strongly.
    cbn [fold_left Fusion.vr_scores fst snd get String.eqb Ascii.eqb Bool.eqb
         List.length].
    vm_compute. reflexivity.
  - constructor; [|constructor]. split; [reflexivity|]. cbn [snd].
    unfold Fusion.fused_score, Fusion.total_weight, Fusion.weighted_sum, mem.
    cbn [fold_left Fusion.vr_scores Fusion.vr_weight fst snd get String.eqb
         Ascii.eqb Bool.eqb].
    assert (Qltb 0 (0 + w) = true) as E by (apply Qltb_lt; lra).
    rewrite E. field. lra.
Qed.

(** C1, as the code has it.  When the answers and the journaling are empty
    and both modalities abstain, [detect_emotion] does not raise and returns
    the first category of the registry, "anxious" (every fused score is 0),
    with confidence 0 and no indicator.  The quality-adjusted fusion returns
    no result exactly when every modality is absent or is a text, face or
    voice analysis with an empty score map; data that holds neither a score
    map nor a category of its own is scored "calm" 0.5 by the fusion and, as
    the only modality, gives the dominant category "calm" with confidence
    1. *)
Theorem abstention_result (fd vd : option ModalityData)
  (set_order : list string -> list string)
  (modality_results : dict (option ModalityData))
  (modality : string) (data : ModalityData) :
  modality_abstains fd -> modality_abstains vd ->
  Fusion.set_iteration set_order ->
  cluster_scores data = None -> actionable_category data = None ->
  (exists r, Detector.detect_emotion_body [] [] fd vd = Ok r /\
             Detector.detect_emotion [] [] fd vd = r /\
             Detector.emotion r = "anxious" /\
             Detector.confidence r == 0 /\
             Detector.indicators r = [] /\
             all_zero (Detector.all_scores r)) /\
  (Fusion.weighted_fusion set_order modality_results = None <->
   no_modality_scores modality_results) /\
  (exists r,
     Fusion.weighted_fusion set_order [(modality, Some data)] = Some r /\
     Fusion.dominant_emotion r = "calm" /\ Fusion.confidence r == 1 /\
     scores_eq (Fusion.all_scores r) [("calm", 0.5)]).
Proof.
  intros Hf Hv Hset Hc Ha. split; [|split].
  - destruct (detect_emotion_body_spec [] [] fd vd)
      as (si & sj & sf & sv & dominant & meta & Hi & Hj & Hsf & Hsv &
          _ & _ & _ & _ & Hmax & Hmeta & Hbody).
    assert (all_zero si) as Zi.
    { vm_compute in Hi. inversion Hi. unfold all_zero.
      repeat (constructor; [reflexivity|]). constructor. }
    assert (all_zero sj) as Zj.
    { simpl in Hj. inversion Hj. apply all_zero_zero_scores. }
    pose proof (abstaining_modality_scores fd sf Hf Hsf) as Zf.
    pose proof (abstaining_modality_scores vd sv Hv Hsv) as Zv.
    pose proof (all_zero_combine_scores si sj sf sv Zi Zj Zf Zv) as Zfinal.
    assert (dominant =
            ("anxious", Detector.combined_score si sj sf sv "anxious")) as Hd.
    { rewrite combine_scores_map in Hmax, Zfinal.
      exact (first_of_all_zero _ _ _ Zfinal Hmax). }
    eexists. split; [exact Hbody|]. split.
    { unfold Detector.detect_emotion. now rewrite Hbody. }
    simpl. split; [now rewrite Hd|]. split; [|split].
    + apply calculate_confidence_all_zero; [exact Zfinal|].
      rewrite Hd. simpl.
      unfold all_zero in Zfinal. rewrite Forall_forall in Zfinal.
      apply (Zfinal ("anxious", Detector.combined_score si sj sf sv "anxious")).
      rewrite combine_scores_map. now left.
    + now apply no_indicators.
    + exact Zfinal.
  - apply weighted_fusion_None.
  - now apply sole_fallback_fusion.
Qed.

(** C1 as the specification states it fails: with every input empty the
    dominant category is "anxious", not "calm". *)
Lemma abstention_is_not_calm :
  ~ abstention_default (Detector.detect_emotion [] [] None None).
Proof.
  intros [H _]. vm_compute in H. discriminate.
Qed.

Lemma abstention_result_witness :
  (exists r,
     Detector.detect_emotion_body [] [] None (Some (scores_only [])) = Ok r /\
     Detector.emotion r = "anxious" /\ Detector.confidence r == 0 /\
     Detector.indicators r = []) /\
  Fusion.weighted_fusion last_seen_order
    [("text", Some (scores_only [])); ("face", None)] = None /\
  (exists r,
     Fusion.weighted_fusion last_seen_order [("face", Some empty_data)] = Some r /\
     Fusion.dominant_emotion r = "calm" /\ Fusion.confidence r == 1).
Proof.
  destruct (abstention_result None (Some (scores_only [])) last_seen_order
              [("text", Some (scores_only [])); ("face", None)]
              "face" empty_data)
    as [(r & Hb & _ & He & Hc & Hi & _) [Hw (r' & Hr' & Hd' & Hc' & _)]].
  - exact I.
  - split; [now right | reflexivity].
  - exact set_iteration_last_seen.
  - reflexivity.
  - reflexivity.
  - split; [exists r; repeat split; assumption|].
    split; [|exists r'; repeat split; assumption].
    apply Hw. constructor; [split; reflexivity|].
    constructor; [exact I | constructor].
Defined.

(** ** The dominant category, on doubles *)

Lemma fold_max_by_spec_f (l : dict float) (x r : string * float) :
  no_nan (x :: l) ->
  fold_left (fun m it => if PrimFloat.ltb (snd m) (snd it) then it else m) l x
    = r ->
  exists l1 l2,
    x :: l = l1 ++ r :: l2 /\
    Forall (fun it => PrimFloat.ltb (snd it) (snd r) = true) l1 /\
    Forall (fun it => PrimFloat.ltb (snd r) (snd it) = false) l2.
Proof.
  revert x. induction l as [|y l IH]; intros x Hn Hr; simpl in Hr.
  - subst r. exists [], []. repeat split; constructor.
  - inversion Hn as [|? ? Hx Hn']; subst.
    inversion Hn' as [|? ? Hy Hl]; subst.
    destruct (PrimFloat.ltb (snd x) (snd y)) eqn:E.
    + destruct (IH y Hn' eq_refl) as (l1 & l2 & Hsplit & H1 & H2).
      exists (x :: l1), l2. split; [simpl; now rewrite Hsplit|].
      split; [|exact H2]. constructor; [|exact H1].
      destruct l1 as [|z l1]; simpl in Hsplit; injection Hsplit as Hz Hl'.
      * now rewrite <- Hz.
      * inversion H1 as [|? ? Hzr ?]; subst. eapply ltb_trans; eauto.
    + assert (no_nan (x :: l)) as Hxl by (constructor; assumption).
      destruct (IH x Hxl eq_refl) as (l1 & l2 & Hsplit & H1 & H2).
      destruct l1 as [|z l1]; simpl in Hsplit; injection Hsplit as Hz Hl'.
      * exists [], (y :: l2). split; [simpl; congruence|].
        split; [constructor|]. constructor; [now rewrite <- Hz | exact H2].
      * exists (z :: y :: l1), l2. split; [simpl; congruence|].
        split; [|exact H2].
        inversion H1 as [|? ? Hzr Hrest]; subst.
        constructor; [exact Hzr|]. constructor; [|exact Hrest].
        apply (ltb_le_lt (snd z) (snd y)); auto.
Qed.

(** On numbers, [max(items, key=...)] returns the first item of greatest
    score. *)
Lemma first_greatest_of_max_f (items : dict float) (top : string * float) :
  NoDup (keys items) -> no_nan items ->
  Binary64.py_max_by_value items = Ok top ->
  first_greatest_f (keys items) items (fst top).
Proof.
  intros ND Hn H.
  destruct items as [|x l]; [discriminate|]. simpl in H. injection H as H.
  apply fold_max_by_spec_f in H as (b & a & Hsplit & Hb & Ha); [|exact Hn].
  assert (forall kv, In kv (x :: l) -> val_f (x :: l) (fst kv) = snd kv) as V.
  { intros [k y] Hin. cbn [fst snd]. unfold val_f, get_or.
    now rewrite (In_get_NoDup (x :: l) k y ND Hin). }
  assert (val_f (x :: l) (fst top) = snd top) as Vtop.
  { apply V. rewrite Hsplit. apply in_elt. }
  exists (keys b), (keys a). split; [|split].
  - rewrite Hsplit. unfold keys. now rewrite map_app.
  - intros e He. unfold keys in He. apply in_map_iff in He as (kv & <- & Hkv).
    rewrite Vtop, (V kv).
    + rewrite Forall_forall in Hb. auto.
    + rewrite Hsplit. apply in_or_app. now left.
  - intros e He. unfold keys in He. apply in_map_iff in He as (kv & <- & Hkv).
    rewrite Vtop, (V kv).
    + rewrite Forall_forall in Ha. auto.
    + rewrite Hsplit. apply in_or_app. right. now right.
Qed.

Lemma detect_emotion_first_greatest_f (i j : dict string)
  (fa va : option Binary64.Analysis) :
  no_nan (Binary64.all_scores (Binary64.detect_emotion i j fa va)) ->
  first_greatest_f (keys Detector.emotions)
    (Binary64.all_scores (Binary64.detect_emotion i j fa va))
    (Binary64.emotion (Binary64.detect_emotion i j fa va)).
Proof.
  unfold Binary64.detect_emotion.
  destruct (Binary64.detect_emotion_body i j fa va) as [r|e] eqn:B.
  - unfold Binary64.detect_emotion_body in B.
    apply bind_Ok in B as (si & _ & B). apply bind_Ok in B as (sj & _ & B).
    apply bind_Ok in B as (sf & _ & B). apply bind_Ok in B as (sv & _ & B).
    apply bind_Ok in B as (top & Hmax & B). apply bind_Ok in B as (meta & _ & B).
    injection B as <-. cbn [Binary64.all_scores Binary64.emotion].
    intro Hn.
    change (keys Detector.emotions)
      with (keys (Binary64._combine_scores si sj sf sv)).
    apply first_greatest_of_max_f; auto. apply NoDup_registry.
  - intros _.
    cbn [Binary64.all_scores Binary64.emotion Binary64._get_fallback_result].
    exists ["anxious"; "sad"; "frustrated"; "overwhelmed"; "calm"; "happy"],
           ["tired"].
    split; [reflexivity|].
    split; intros x Hx; simpl in Hx;
      repeat (destruct Hx as [<-|Hx]; [reflexivity|]); contradiction.
Qed.

(** C2, as the code has it.  Simple weighted fusion: the dominant category
    is the first category in registry order that attains the greatest fused
    score, in exact arithmetic for face and voice scores in [0, 1] and on
    doubles whenever the fused scores are numbers.  Quality-adjusted fusion:
    the dominant category attains the greatest fused score, and among tied
    categories it is the one the iteration of the category set meets first,
    an order that is not the registry order. *)
Theorem dominant_tie_break (i j : dict string)
  (fd vd : option ModalityData) (fa va : option Binary64.Analysis)
  (set_order : list string -> list string)
  (modality_results : dict (option ModalityData)) (r : Fusion.FusionResult) :
  data_unit fd -> data_unit vd ->
  no_nan (Binary64.all_scores (Binary64.detect_emotion i j fa va)) ->
  Fusion.set_iteration set_order ->
  Fusion.weighted_fusion set_order modality_results = Some r ->
  first_greatest (keys Detector.emotions)
    (Detector.all_scores (Detector.detect_emotion i j fd vd))
    (Detector.emotion (Detector.detect_emotion i j fd vd)) /\
  first_greatest_f (keys Detector.emotions)
    (Binary64.all_scores (Binary64.detect_emotion i j fa va))
    (Binary64.emotion (Binary64.detect_emotion i j fa va)) /\
  first_greatest
    (set_order (Fusion.inserted_categories
                  (Fusion.collect_valid_results modality_results)))
    (Fusion.all_scores r) (Fusion.dominant_emotion r).
Proof.
  intros _ _ Hn Hset Hr. split; [|split].
  - apply detect_emotion_first_greatest.
  - now apply detect_emotion_first_greatest_f.
  - now apply weighted_fusion_first_greatest.
Qed.

(** C2 as the specification states it fails.  In the quality-adjusted mode
    "calm" and "anxious" tie at 0.5 and, for an iteration order the category
    set may have, the dominant category is "calm", though "anxious" stands
    before "calm" in the registry.  In the simple mode, on doubles, the
    choice depends on the iteration order of the answers: the sums
    0.7 + 0.6 + 0.2 and 0.2 + 0.7 + 0.6 of the weights of "calm" differ in
    the last bit, so that the same three answers give "neutral" in one
    order and a tie, resolved to "calm", in another. *)
Lemma tie_break_counterexample :
  Fusion.set_iteration last_seen_order /\
  option_map Fusion.dominant_emotion
    (Fusion.weighted_fusion last_seen_order tie_calm_first) = Some "calm" /\
  fused_at (Fusion.weighted_fusion last_seen_order tie_calm_first) "anxious" ==
    fused_at (Fusion.weighted_fusion last_seen_order tie_calm_first) "calm" /\
  precedes "anxious" "calm" Fusion.unified_categories /\
  precedes "anxious" "calm" (keys Detector.emotions) /\
  Permutation answers_energy_first answers_feeling_first /\
  Binary64.detect_emotion_body answers_energy_first [] None None =
    Ok (Binary64.detect_emotion answers_energy_first [] None None) /\
  Binary64.emotion (Binary64.detect_emotion answers_energy_first [] None None) =
    "neutral" /\
  Binary64.detect_emotion_body answers_feeling_first [] None None =
    Ok (Binary64.detect_emotion answers_feeling_first [] None None) /\
  Binary64.emotion (Binary64.detect_emotion answers_feeling_first [] None None) =
    "calm".
Proof.
  split; [exact set_iteration_last_seen|].
  split; [reflexivity|]. split; [vm_compute; reflexivity|].
  split; [|split; [|split]].
  - exists ["stressed"], ["frustrated"; "sad"; "overwhelmed"; "positive"], [].
    reflexivity.
  - exists [], ["sad"; "frustrated"; "overwhelmed"], ["happy"; "neutral"; "tired"].
    reflexivity.
  - unfold answers_energy_first, answers_feeling_first.
    apply Permutation_sym. apply (Permutation_cons_app [_; _] []). reflexivity.
  - repeat split; vm_compute; reflexivity.
Qed.

(** A genuine tie in each mode: the note "sad and happy" scores "sad" and
    "happy" alike and "sad", the earlier in the registry, wins; "calm" and
    "anxious" tie in the fusion and "calm", met first, wins. *)
Lemma dominant_tie_break_witness :
  exists r,
    Fusion.weighted_fusion last_seen_order tie_calm_first = Some r /\
    val (Detector.all_scores
           (Detector.detect_emotion [] [("note", "sad and happy")] None None))
        "sad" ==
    val (Detector.all_scores
           (Detector.detect_emotion [] [("note", "sad and happy")] None None))
        "happy" /\
    Detector.emotion
      (Detector.detect_emotion [] [("note", "sad and happy")] None None) = "sad" /\
    first_greatest (keys Detector.emotions)
      (Detector.all_scores
         (Detector.detect_emotion [] [("note", "sad and happy")] None None))
      (Detector.emotion
         (Detector.detect_emotion [] [("note", "sad and happy")] None None)) /\
    val_f (Binary64.all_scores
             (Binary64.detect_emotion [] [("note", "sad and happy")] None None))
          "sad" =
    val_f (Binary64.all_scores
             (Binary64.detect_emotion [] [("note", "sad and happy")] None None))
          "happy" /\
    Binary64.emotion
      (Binary64.detect_emotion [] [("note", "sad and happy")] None None) = "sad" /\
    first_greatest_f (keys Detector.emotions)
      (Binary64.all_scores
         (Binary64.detect_emotion [] [("note", "sad and happy")] None None))
      (Binary64.emotion
         (Binary64.detect_emotion [] [("note", "sad and happy")] None None)) /\
    val (Fusion.all_scores r) "calm" == val (Fusion.all_scores r) "anxious" /\
    Fusion.dominant_emotion r = "calm" /\
    first_greatest
      (last_seen_order
         (Fusion.inserted_categories
            (Fusion.collect_valid_results tie_calm_first)))
      (Fusion.all_scores r) (Fusion.dominant_emotion r).
Proof.
  destruct (Fusion.weighted_fusion last_seen_order tie_calm_first)
    as [r|] eqn:Hr; [|vm_compute in Hr; discriminate].
  destruct (dominant_tie_break [] [("note", "sad and happy")] None None
              None None last_seen_order tie_calm_first r I I) as (H1 & H2 & H3).
  - vm_compute. repeat (constructor; [reflexivity|]). constructor.
  - exact set_iteration_last_seen.
  - exact Hr.
  - exists r. split; [reflexivity|].
    split; [vm_compute; reflexivity|]. split; [vm_compute; reflexivity|].
    split; [exact H1|].
    split; [vm_compute; reflexivity|]. split; [vm_compute; reflexivity|].
    split; [exact H2|].
    vm_compute in Hr. injection Hr as <-.
    split; [vm_compute; reflexivity|]. split; [reflexivity | exact H3].
Defined.

(** * Further properties of the detector *)

Lemma unit_scaled (s : dict Q) (m : Q) :
  nonneg s -> Forall (fun v => v <= m) (values s) ->
  unit_scores (map (fun kv => (fst kv, snd kv / (if Qltb 0 m then m else 1))) s).
Proof.
  unfold nonneg, unit_scores, values. intros Hn Hm.
  rewrite Forall_forall in *. intros kv Hkv.
  apply in_map_iff in Hkv as (kv0 & <- & H0). simpl.
  pose proof (Hn _ H0) as Hlo.
  pose proof (Hm _ (in_map snd _ _ H0)) as Hhi.
  case_Qltb 0 m.
  - split; [apply Qle_shift_div_l; lra | apply Qle_shift_div_r; lra].
  - assert (snd kv0 / 1 == snd kv0) as E1 by field. rewrite E1. lra.
Qed.

Lemma normalize_scores_unit (s n : dict Q) :
  nonneg s -> Detector.normalize_scores s = Ok n -> unit_scores n.
Proof.
  intros Hn H. destruct s as [|a s]; [discriminate|].
  destruct (normalize_scores_Ok (a :: s)) as (m & Hm & E); [discriminate|].
  pose proof (unit_scaled (a :: s) m Hn (proj2 (py_max_spec _ _ Hm))) as U.
  rewrite E in H. injection H as <-. exact U.
Qed.

Lemma unit_zero_scores : unit_scores Detector.zero_scores.
Proof.
  unfold unit_scores. apply Forall_forall. intros kv H.
  unfold Detector.zero_scores in H. apply in_map_iff in H as (e & <- & _).
  simpl. lra.
Qed.

Lemma scorer_unit (adds n : dict Q) :
  keys_known adds = true -> weights_nonneg adds = true ->
  (s <- Detector.add_weights Detector.zero_scores adds ;;
   Detector.normalize_scores s) = Ok n ->
  unit_scores n.
Proof.
  intros Hk Hw H. destruct (counts_spec adds Hk) as (s & Hs & _ & _ & Hnn).
  rewrite Hs in H. cbn [bind] in H.
  eapply normalize_scores_unit; [apply Hnn; exact Hw | exact H].
Qed.

Lemma score_initial_unit (responses : dict string) (n : dict Q) :
  Detector._score_initial_responses responses = Ok n -> unit_scores n.
Proof.
  unfold Detector._score_initial_responses. rewrite initial_counts_increments.
  destruct (initial_increments_checked responses) as [Hk Hw].
  now apply scorer_unit.
Qed.

Lemma score_journaling_unit (responses : dict string) (n : dict Q) :
  Detector._score_journaling_responses responses = Ok n -> unit_scores n.
Proof.
  unfold Detector._score_journaling_responses.
  destruct responses as [|r rs].
  - intro H. injection H as <-. apply unit_zero_scores.
  - rewrite journaling_counts_increments.
    destruct (journaling_increments_checked (r :: rs)) as [Hk Hw].
    now apply scorer_unit.
Qed.

Lemma score_modality_unit (data : option ModalityData) (n : dict Q) :
  data_nonneg data ->
  Detector.score_modality Detector.face_mapping data = Ok n -> unit_scores n.
Proof.
  unfold Detector.score_modality. intros Hd H.
  destruct (data_truthy data); cbn [negb] in H;
    [|injection H as <-; apply unit_zero_scores].
  destruct data as [d|]; [|injection H as <-; apply unit_zero_scores].
  simpl in Hd.
  destruct (cluster_scores d) as [native|];
    [|injection H as <-; apply unit_zero_scores].
  rewrite mapped_counts_increments in H.
  eapply scorer_unit; [apply mapped_increments_known | | exact H].
  now apply mapped_increments_nonneg.
Qed.

(** X2. Every scorer returns a score for each registry category, all of
    them in [0, 1]: the answers scorer and the journaling scorer for every
    input, the face and voice scorers for native scores in [0, 1]. *)
Theorem scorers_return_unit_scores (initial journaling : dict string)
  (face_data voice_data : option ModalityData) :
  data_unit face_data -> data_unit voice_data ->
  exists si sj sf sv,
    Detector._score_initial_responses initial = Ok si /\
    Detector._score_journaling_responses journaling = Ok sj /\
    Detector._score_face face_data = Ok sf /\
    Detector._score_voice voice_data = Ok sv /\
    keys si = keys Detector.emotions /\ keys sj = keys Detector.emotions /\
    keys sf = keys Detector.emotions /\ keys sv = keys Detector.emotions /\
    unit_scores si /\ unit_scores sj /\ unit_scores sf /\ unit_scores sv.
Proof.
  intros Hf Hv.
  destruct (score_initial_spec initial) as (si & Hi & Ki & _).
  destruct (score_journaling_spec journaling) as (sj & Hj & Kj & _).
  destruct (score_modality_spec face_data) as (sf & Hsf & Kf & _).
  destruct (score_modality_spec voice_data) as (sv & Hsv & Kv & _).
  exists si, sj, sf, sv.
  repeat (split; [assumption|]).
  split; [now apply (score_initial_unit initial)|].
  split; [now apply (score_journaling_unit journaling)|].
  split; [apply (score_modality_unit face_data) |
          apply (score_modality_unit voice_data)];
    auto using data_unit_nonneg.
Qed.

Lemma scorers_return_unit_scores_witness :
  exists sf,
    Detector._score_face
      (Some (scores_only [("stressed", 0.6); ("calm", 0.3)])) = Ok sf /\
    unit_scores sf.
Proof.
  destruct (scorers_return_unit_scores [] []
              (Some (scores_only [("stressed", 0.6); ("calm", 0.3)])) None)
    as (si & sj & sf & sv & _ & _ & Hsf & _ & _ & _ & _ & _ & _ & _ & Uf & _).
  - simpl. repeat (constructor; [simpl; lra|]). constructor.
  - exact I.
  - exists sf. split; assumption.
Defined.

Lemma known_answer_weights (question answer : string) :
  known_answer question answer = false ->
  Detector.answer_weights question answer = [].
Proof.
  unfold known_answer, Detector.answer_weights, mem.
  destruct (get Detector.question_weights question) as [answers|]; [|reflexivity].
  destruct (get answers answer); [discriminate | reflexivity].
Qed.

(** X3. Lenient parsing: an answer whose question is not in the weight
    table, or whose value is not among the answers of its question, does not
    change the scores of the structured answers. *)
Theorem unknown_answers_are_ignored (before after : dict string)
  (question answer : string) :
  known_answer question answer = false ->
  Detector._score_initial_responses (before ++ (question, answer) :: after) =
  Detector._score_initial_responses (before ++ after).
Proof.
  intro H. unfold Detector._score_initial_responses.
  rewrite !initial_counts_increments. unfold initial_increments.
  rewrite !flat_map_app. cbn [flat_map fst snd].
  now rewrite (known_answer_weights _ _ H).
Qed.

Lemma unknown_answers_are_ignored_witness :
  Detector._score_initial_responses
    ([("thoughts", "racing")] ++ ("shoe_size", "large") :: [("worry", "a_lot")]) =
  Detector._score_initial_responses
    ([("thoughts", "racing")] ++ [("worry", "a_lot")]).
Proof.
  apply (unknown_answers_are_ignored [("thoughts", "racing")] [("worry", "a_lot")]
           "shoe_size" "large").
  reflexivity.
Defined.

Lemma val_scaled (s : dict Q) (d : Q) (e : string) :
  val (map (fun kv => (fst kv, snd kv / d)) s) e == val s e / d.
Proof.
  unfold val, get_or. induction s as [|[k x] s IH]; simpl.
  - unfold Qdiv. ring.
  - destruct (String.eqb k e); [reflexivity | exact IH].
Qed.

Lemma sum_for_untouched (e : string) (adds : dict Q) :
  forallb (fun kw => negb (String.eqb (fst kw) e)) adds = true ->
  sum_for e adds == 0.
Proof.
  induction adds as [|[k w] adds IH]; simpl; intro H; [reflexivity|].
  apply andb_true_iff in H as [H1 H2]. apply negb_true_iff in H1.
  rewrite H1, (IH H2). ring.
Qed.

Lemma mapped_increments_untouched (e : string) (mapping : dict string)
  (native_scores : dict Q) :
  forallb (fun m => negb (String.eqb (snd m) e)) mapping = true ->
  forallb (fun kw => negb (String.eqb (fst kw) e))
          (mapped_increments mapping native_scores) = true.
Proof.
  intro H. apply forallb_flat_map. intros es _.
  destruct (get mapping (fst es)) as [m|] eqn:G; [|reflexivity].
  rewrite forallb_forall in H. specialize (H _ (get_Some_In _ _ _ G)).
  simpl in *. now rewrite H.
Qed.

Lemma score_modality_untouched (e : string) (data : option ModalityData) :
  forallb (fun m => negb (String.eqb (snd m) e)) Detector.face_mapping = true ->
  exists n, Detector.score_modality Detector.face_mapping data = Ok n /\
            val n e == 0.
Proof.
  intro Hm. unfold Detector.score_modality.
  assert (exists n, Ok Detector.zero_scores = Ok n /\ val n e == 0) as Z.
  { exists Detector.zero_scores. split; [reflexivity | apply val_zero_scores]. }
  destruct (data_truthy data); cbn [negb]; [|exact Z].
  destruct data as [d|]; [|exact Z].
  destruct (cluster_scores d) as [native|]; [|exact Z].
  rewrite mapped_counts_increments.
  destruct (counts_spec _ (mapped_increments_known native)) as (s & Hs & K & V & _).
  rewrite Hs. cbn [bind].
  assert (s <> []) as Hne by (intro; subst; discriminate).
  destruct (normalize_scores_Ok s Hne) as (m & _ & Hn).
  eexists. split; [exact Hn|].
  rewrite val_scaled, V, (sum_for_untouched e) by
    (now apply mapped_increments_untouched).
  unfold Qdiv. ring.
Qed.

(** X4. The face and voice scorers never give "neutral" or "tired" a score
    above 0, whatever the analyzer reports: no native tag maps to them. *)
Theorem face_and_voice_never_score_neutral_or_tired
  (face_data voice_data : option ModalityData) :
  exists sf sv,
    Detector._score_face face_data = Ok sf /\
    Detector._score_voice voice_data = Ok sv /\
    val sf "neutral" == 0 /\ val sf "tired" == 0 /\
    val sv "neutral" == 0 /\ val sv "tired" == 0.
Proof.
  unfold Detector._score_face, Detector._score_voice, Detector.voice_mapping.
  destruct (score_modality_untouched "neutral" face_data eq_refl) as (sf & Hf & F1).
  destruct (score_modality_untouched "tired" face_data eq_refl) as (sf' & Hf' & F2).
  destruct (score_modality_untouched "neutral" voice_data eq_refl) as (sv & Hv & V1).
  destruct (score_modality_untouched "tired" voice_data eq_refl) as (sv' & Hv' & V2).
  assert (sf' = sf) by congruence. assert (sv' = sv) by congruence. subst.
  exists sf, sv. repeat split; assumption.
Qed.

Lemma unit_val (s : dict Q) (e : string) : unit_scores s -> 0 <= val s e <= 1.
Proof.
  intro H. unfold val, get_or. destruct (get s e) as [x|] eqn:G; [|lra].
  apply get_Some_In in G. unfold unit_scores in H. rewrite Forall_forall in H.
  exact (H _ G).
Qed.

Lemma optional_score_unit (data : option ModalityData) (n : dict Q) :
  data_nonneg data ->
  (if data_truthy data
   then Detector.score_modality Detector.face_mapping data else Ok []) = Ok n ->
  unit_scores n /\ (data_truthy data = false -> n = []).
Proof.
  intros Hd H. destruct (data_truthy data).
  - split; [now apply (score_modality_unit data) | discriminate].
  - injection H as <-. split; [constructor | reflexivity].
Qed.

(** X5. For face and voice scores in [0, 1] every fused score of
    [detect_emotion] lies in [0, 1]; when neither face nor voice data is
    given no fused score exceeds 0.7, the sum of the weights of the answers
    and the journaling. *)
Theorem fused_scores_bounded (i j : dict string) (fd vd : option ModalityData) :
  data_unit fd -> data_unit vd ->
  unit_scores (Detector.all_scores (Detector.detect_emotion i j fd vd)) /\
  (data_truthy fd = false -> data_truthy vd = false ->
   Forall (fun kv => snd kv <= 0.7)
          (Detector.all_scores (Detector.detect_emotion i j fd vd))).
Proof.
  intros Hfd Hvd.
  destruct (detect_emotion_body_spec i j fd vd)
    as (si & sj & sf & sv & dominant & meta & Hi & Hj & Hf & Hv &
        _ & _ & _ & _ & _ & _ & Hbody).
  unfold Detector.detect_emotion. rewrite Hbody. cbn [Detector.all_scores].
  pose proof (score_initial_unit i si Hi) as Ui.
  pose proof (score_journaling_unit j sj Hj) as Uj.
  unfold Detector._score_face, Detector._score_voice, Detector.voice_mapping in *.
  destruct (optional_score_unit fd sf (data_unit_nonneg fd Hfd) Hf) as [Uf Ef].
  destruct (optional_score_unit vd sv (data_unit_nonneg vd Hvd) Hv) as [Uv Ev].
  rewrite combine_scores_map. split.
  - unfold unit_scores. apply Forall_forall. intros kv H.
    apply in_map_iff in H as (e & <- & _). simpl. unfold Detector.combined_score.
    pose proof (unit_val si e Ui). pose proof (unit_val sj e Uj).
    pose proof (unit_val sf e Uf). pose proof (unit_val sv e Uv).
    unfold val in *. lra.
  - intros Tf Tv. rewrite (Ef Tf), (Ev Tv).
    apply Forall_forall. intros kv H.
    apply in_map_iff in H as (e & <- & _). simpl. unfold Detector.combined_score.
    pose proof (unit_val si e Ui). pose proof (unit_val sj e Uj).
    unfold val, get_or in *. simpl. lra.
Qed.

Lemma fused_scores_bounded_witness :
  unit_scores
    (Detector.all_scores
       (Detector.detect_emotion [("thoughts", "racing")]
          [("note", "I am worried")]
          (Some (scores_only [("stressed", 0.6); ("calm", 0.3)])) None)) /\
  Forall (fun kv => snd kv <= 0.7)
    (Detector.all_scores
       (Detector.detect_emotion [("thoughts", "racing")]
          [("note", "I am worried")] None None)).
Proof.
  split.
  - apply (fused_scores_bounded [("thoughts", "racing")]
             [("note", "I am worried")]
             (Some (scores_only [("stressed", 0.6); ("calm", 0.3)])) None).
    + simpl. repeat (constructor; [simpl; lra|]). constructor.
    + exact I.
  - exact (proj2 (fused_scores_bounded [("thoughts", "racing")]
                    [("note", "I am worried")] None None I I) eq_refl eq_refl).
Defined.

Lemma second_entry_bounds (scores : dict Q) (dominant a : string * Q)
  (k2 : string) (v2 : Q) (r : dict Q) :
  nonneg scores -> py_max_by_value scores = Ok dominant ->
  sorted_by_value_desc scores = a :: (k2, v2) :: r ->
  0 <= v2 <= snd dominant.
Proof.
  intros Hnn Hmax S. apply py_max_by_value_max in Hmax as [_ Hle].
  assert (In (k2, v2) scores) as H2.
  { apply in_sorted_by_value_desc. rewrite S. right; now left. }
  split.
  - unfold nonneg in Hnn. rewrite Forall_forall in Hnn. exact (Hnn _ H2).
  - exact (Hle _ H2).
Qed.

(** X6. A weak signal stays weak: for non-negative scores whose dominant
    score is below 0.3, the confidence is at least 0.7 times that score and
    below 0.315. *)
Theorem weak_signal_confidence (scores : dict Q) (dominant : string * Q) :
  nonneg scores -> py_max_by_value scores = Ok dominant ->
  snd dominant < 0.3 ->
  snd dominant * 0.7 <= Detector._calculate_confidence scores dominant /\
  Detector._calculate_confidence scores dominant < 0.315.
Proof.
  intros Hnn Hmax Hweak.
  assert (0 <= snd dominant) as Hs.
  { apply py_max_by_value_max in Hmax as [Hin _].
    unfold nonneg in Hnn. rewrite Forall_forall in Hnn. now apply Hnn. }
  unfold Detector._calculate_confidence.
  apply Qltb_lt in Hweak as Hb. rewrite Hb.
  assert (snd dominant <=
          match sorted_by_value_desc scores with
          | _ :: (_, second_best) :: _ =>
              snd dominant +
              Detector.separation_boost (snd dominant - second_best)
          | _ => snd dominant
          end < 0.45) as [Hlo Hhi].
  { destruct (sorted_by_value_desc scores) as [|a [|[k2 v2] r]] eqn:S;
      try (split; lra).
    pose proof (second_entry_bounds _ _ _ _ _ _ Hnn Hmax S) as [H0 H1].
    unfold Detector.separation_boost.
    case_Qltb 0.3 (snd dominant - v2); [lra|].
    case_Qltb 0.15 (snd dominant - v2); split; lra. }
  set (c := match sorted_by_value_desc scores with
            | _ :: (_, second_best) :: _ => _ | _ => _ end) in *.
  rewrite Q.min_l by lra. split; lra.
Qed.

Lemma weak_signal_confidence_witness :
  Detector._calculate_confidence [("anxious", 0.2); ("sad", 0.1)] ("anxious", 0.2)
  < 0.315.
Proof.
  apply (weak_signal_confidence [("anxious", 0.2); ("sad", 0.1)] ("anxious", 0.2)).
  - repeat (constructor; [simpl; lra|]). constructor.
  - reflexivity.
  - simpl. lra.
Defined.

(** X7. A signal that is not weak is never lowered: for non-negative scores
    whose dominant score is at least 0.3 the confidence is at least that
    score (capped at 1); and a dominant score above 0.6 that leads the
    second-highest score by more than 0.3 has confidence exactly 1. *)
Theorem strong_signal_confidence (scores : dict Q) (dominant : string * Q) :
  nonneg scores -> py_max_by_value scores = Ok dominant ->
  0.3 <= snd dominant ->
  Qmin (snd dominant) 1 <= Detector._calculate_confidence scores dominant /\
  (forall second,
     second_highest_of scores second ->
     0.6 < snd dominant -> 0.3 < snd dominant - second ->
     Detector._calculate_confidence scores dominant == 1).
Proof.
  intros Hnn Hmax Hs.
  apply Qltb_ge in Hs as Hb. split.
  - unfold Detector._calculate_confidence. rewrite Hb.
    assert (snd dominant <=
            match sorted_by_value_desc scores with
            | _ :: (_, second_best) :: _ =>
                snd dominant +
                Detector.separation_boost (snd dominant - second_best)
            | _ => snd dominant
            end) as Hc.
    { destruct (sorted_by_value_desc scores) as [|a [|[k2 v2] r]] eqn:S;
        try apply Qle_refl.
      pose proof (second_entry_bounds _ _ _ _ _ _ Hnn Hmax S) as [H0 H1].
      pose proof (separation_boost_bounds (snd dominant - v2)). lra. }
    set (c := match sorted_by_value_desc scores with
              | _ :: (_, second_best) :: _ => _ | _ => _ end) in *.
    assert (Qmin (snd dominant) 1 <= snd dominant) as M1 by apply Q.le_min_l.
    assert (Qmin (snd dominant) 1 <= 1) as M2 by apply Q.le_min_r.
    case_Qltb 0.6 (snd dominant).
    + apply Q.min_glb; [|lra]. apply Q.min_glb; lra.
    + apply Q.min_glb; lra.
  - intros second H2 Hhigh Hlead.
    destruct (second_best_unique scores second H2) as (a & k2 & v2 & r & S & E).
    unfold Detector._calculate_confidence. rewrite S, Hb.
    apply Qltb_lt in Hhigh as Hh. rewrite Hh.
    unfold Detector.separation_boost.
    assert (Qltb 0.3 (snd dominant - v2) = true) as Hl by (apply Qltb_lt; lra).
    rewrite Hl.
    rewrite (Q.min_r (snd dominant + 0.35 + 0.15) 1.0) by lra.
    rewrite Q.min_l; lra.
Qed.

Lemma strong_signal_confidence_witness :
  Qmin 0.7 1 <=
  Detector._calculate_confidence [("anxious", 0.7); ("sad", 0.2)] ("anxious", 0.7).
Proof.
  apply (strong_signal_confidence [("anxious", 0.7); ("sad", 0.2)] ("anxious", 0.7)).
  - repeat (constructor; [simpl; lra|]). constructor.
  - reflexivity.
  - simpl. lra.
Defined.

Lemma journaling_indicator_silent (e : string) (responses : dict string) :
  Detector.among e ["anxious"; "sad"; "frustrated"; "overwhelmed"] = false ->
  Detector.journaling_indicator e responses = [].
Proof.
  unfold Detector.among; cbn [existsb]. intro H.
  repeat (apply orb_false_iff in H as [? H]).
  induction responses as [|[q t] rs IH]; cbn [Detector.journaling_indicator];
    [reflexivity|].
  destruct (PyStr.truthy t && _); [|exact IH].
  unfold Detector.writing_indicator.
  repeat match goal with E : String.eqb e _ = false |- _ => rewrite E; clear E end.
  reflexivity.
Qed.

(** X8. [_get_indicators] returns at most three indicators, and for a
    dominant emotion other than anxious, overwhelmed, sad, tired, frustrated
    and happy (so for calm and neutral) no answer and no journaling text
    yields an indicator: without face and voice data the list is empty. *)
Theorem indicators_need_evidence (i j : dict string)
  (fd vd : option ModalityData) (e : string) :
  (List.length (Detector._get_indicators i j fd vd e) <= 3)%nat /\
  (Detector.among e ["anxious"; "overwhelmed"; "sad"; "tired"; "frustrated"; "happy"]
     = false ->
   Detector._get_indicators i j None None e = []).
Proof.
  split.
  - unfold Detector._get_indicators. apply firstn_le_length.
  - unfold Detector.among; cbn [existsb]. intro H.
    repeat (apply orb_false_iff in H as [? H]).
    unfold Detector._get_indicators.
    rewrite journaling_indicator_silent.
    + unfold Detector.among; cbn [existsb Detector.category_indicator].
      repeat match goal with E : String.eqb e _ = false |- _ => rewrite E end.
      rewrite !andb_false_r. reflexivity.
    + unfold Detector.among; cbn [existsb].
      repeat match goal with E : String.eqb e _ = false |- _ => rewrite E end.
      reflexivity.
Qed.

Lemma indicators_need_evidence_witness :
  Detector._get_indicators [("thoughts", "racing"); ("physical", "relaxed")]
    [("note", "I feel calm and also worried today")] None None "calm" = [].
Proof.
  apply (indicators_need_evidence [("thoughts", "racing"); ("physical", "relaxed")]
           [("note", "I feel calm and also worried today")] None None "calm").
  reflexivity.
Defined.

(** X9. For ASCII text, only the first substantial journaling response
    (non-empty, more than 10 characters once stripped) is examined for a
    writing indicator: the responses after it have no effect. *)
Theorem first_substantial_response_decides (e : string)
  (before after : dict string) (question_id response_text : string) :
  Forall (fun r => is_ascii (snd r) = true) before ->
  is_ascii response_text = true ->
  Forall (fun r => substantial (snd r) = false) before ->
  substantial response_text = true ->
  Detector.journaling_indicator e
    (before ++ (question_id, response_text) :: after) =
  Detector.writing_indicator e (PyStr.lower response_text).
Proof.
  intros _ _ Hb Ht. induction Hb as [|[q t] rs Hr _ IH];
    cbn [app Detector.journaling_indicator].
  - unfold substantial in Ht. now rewrite Ht.
  - unfold substantial in Hr. simpl in Hr. now rewrite Hr.
Qed.

Lemma first_substantial_response_decides_witness :
  Detector.journaling_indicator "anxious"
    ([("a", "ok")] ++ ("b", "nothing special happened") ::
     [("c", "I am so worried and nervous")]) =
  Detector.writing_indicator "anxious" (PyStr.lower "nothing special happened").
Proof.
  apply (first_substantial_response_decides "anxious" [("a", "ok")]
           [("c", "I am so worried and nervous")] "b" "nothing special happened").
  - repeat constructor.
  - reflexivity.
  - repeat constructor.
  - reflexivity.
Defined.

(** ** Journaling responses that differ in letter case or are blank *)

Lemma response_increments_lower (t t' : string) :
  PyStr.lower t = PyStr.lower t' ->
  response_increments t = response_increments t'.
Proof.
  intro H. unfold response_increments.
  rewrite !skipped_is_blank.
  rewrite <- (is_blank_lower t), <- (is_blank_lower t'), H.
  reflexivity.
Qed.

(** X10. The journaling scorer is case-insensitive: two lists of responses
    whose texts agree up to letter case get the same scores. *)
Theorem journaling_is_case_insensitive (responses responses' : dict string) :
  Forall2 (fun a b => PyStr.lower (snd a) = PyStr.lower (snd b))
          responses responses' ->
  Detector._score_journaling_responses responses =
  Detector._score_journaling_responses responses'.
Proof.
  intro H.
  assert (journaling_increments responses = journaling_increments responses') as E.
  { unfold journaling_increments.
    induction H as [|a b rs rs' Hab _ IH]; simpl; [reflexivity|].
    now rewrite (response_increments_lower _ _ Hab), IH. }
  unfold Detector._score_journaling_responses.
  destruct H as [|a b rs rs' Hab H]; [reflexivity|].
  rewrite !journaling_counts_increments. now rewrite E.
Qed.

Lemma journaling_is_case_insensitive_witness :
  Detector._score_journaling_responses [("note", "I AM Worried")] =
  Detector._score_journaling_responses [("note", "i am worried")].
Proof.
  apply (journaling_is_case_insensitive [("note", "I AM Worried")]
           [("note", "i am worried")]).
  repeat constructor.
Defined.

Lemma response_increments_blank (t : string) :
  is_blank t = true -> response_increments t = [].
Proof.
  intro H. unfold response_increments. now rewrite skipped_is_blank, H.
Qed.

Lemma normalize_zero_scores :
  Detector.normalize_scores Detector.zero_scores = Ok Detector.zero_scores.
Proof. reflexivity. Qed.

(** X11. A blank journaling response (empty or whitespace only) changes
    nothing: the scores with it are the scores without it. *)
Theorem blank_responses_are_ignored (before after : dict string)
  (question_id response_text : string) :
  is_blank response_text = true ->
  Detector._score_journaling_responses
    (before ++ (question_id, response_text) :: after) =
  Detector._score_journaling_responses (before ++ after).
Proof.
  intro H.
  assert (journaling_increments (before ++ (question_id, response_text) :: after)
          = journaling_increments (before ++ after)) as E.
  { unfold journaling_increments. rewrite !flat_map_app. cbn [flat_map snd].
    now rewrite (response_increments_blank _ H). }
  unfold Detector._score_journaling_responses.
  destruct (before ++ (question_id, response_text) :: after) as [|r rs] eqn:L.
  { destruct before; discriminate. }
  rewrite journaling_counts_increments, E.
  destruct (before ++ after) as [|r' rs'] eqn:L'.
  - unfold journaling_increments. cbn [flat_map Detector.add_weights foldM bind].
    apply normalize_zero_scores.
  - now rewrite journaling_counts_increments.
Qed.

Lemma blank_responses_are_ignored_witness :
  Detector._score_journaling_responses
    ([("a", "I am worried")] ++ ("b", "   ") :: []) =
  Detector._score_journaling_responses ([("a", "I am worried")] ++ []).
Proof.
  apply (blank_responses_are_ignored [("a", "I am worried")] [] "b" "   ").
  reflexivity.
Defined.

(** * Further properties of the quality-adjusted fusion *)

(** X12. The reliability weight of a modality always lies in [0.5, 1], and
    the weight of the text modality is exactly 1 whatever its data says. *)
Theorem modality_weight_range (modality : string) (data : ModalityData) :
  0.5 <= Fusion._calculate_modality_weight modality data <= 1 /\
  Fusion._calculate_modality_weight "text" data == 1.
Proof.
  split.
  - destruct (modality_weight_formula modality data) as [E Hb]. rewrite E.
    pose proof (base_weight_bounds modality) as [Hlo _].
    split; [apply Q.min_glb; lra | apply Q.le_min_r].
  - destruct (modality_weight_formula "text" data) as [E Hb]. rewrite E.
    apply Q.min_r. change (base_weight "text") with 1.0. lra.
Qed.

Lemma keys_map_pairs {V : Type} (g : string -> V) (l : list string) :
  keys (map (fun c => (c, g c)) l) = l.
Proof.
  unfold keys. rewrite map_map. simpl. apply map_id.
Qed.

(** X14. Whenever [weighted_fusion] returns a result: the modalities used
    are, in the order of the input, those whose data is there and is not a
    text, face or voice analysis with an empty score map; the fused map has
    each category scored by some source exactly once and no other; and the
    dominant emotion is one of these categories (the default "calm" of the
    code is never taken). *)
Theorem weighted_fusion_result_shape (set_order : list string -> list string)
  (modality_results : dict (option ModalityData)) (r : Fusion.FusionResult) :
  Fusion.set_iteration set_order ->
  Fusion.weighted_fusion set_order modality_results = Some r ->
  Fusion.modalities_used r = map fst (filter gives_scores modality_results) /\
  NoDup (keys (Fusion.all_scores r)) /\
  (forall c, In c (keys (Fusion.all_scores r)) <->
             exists s, In s (Fusion.collect_valid_results modality_results) /\
                       In c (keys (Fusion.vr_scores s))) /\
  In (Fusion.dominant_emotion r) (keys (Fusion.all_scores r)).
Proof.
  intros Hset Hr.
  pose proof (weighted_fusion_first_greatest set_order modality_results r Hset Hr)
    as (b & a & Hsplit & _).
  pose proof (modalities_collected modality_results) as Hused.
  unfold Fusion.weighted_fusion in Hr.
  set (sources := Fusion.collect_valid_results modality_results) in *.
  destruct sources as [|s0 rest] eqn:S; [discriminate|]. rewrite <- S in *.
  injection Hr as <-.
  cbn [Fusion.modalities_used Fusion.all_scores Fusion.dominant_emotion] in *.
  assert (keys (Fusion.fused_scores_of set_order sources) =
          set_order (Fusion.inserted_categories sources)) as K.
  { now rewrite (fused_scores_of_map set_order sources Hset), keys_map_pairs. }
  rewrite K.
  split; [exact Hused|]. split; [apply Hset|]. split.
  - intro c. rewrite (proj2 (Hset _) c).
    unfold Fusion.inserted_categories. apply in_flat_map.
  - rewrite Hsplit. apply in_elt.
Qed.

Lemma weighted_fusion_result_shape_witness :
  exists r,
    Fusion.weighted_fusion last_seen_order
      (("voice", None) :: ("face", Some (scores_only [])) ::
       fusion_with_face_anxious) = Some r /\
    Fusion.modalities_used r = ["text"; "face"] /\
    NoDup (keys (Fusion.all_scores r)) /\
    In (Fusion.dominant_emotion r) (keys (Fusion.all_scores r)).
Proof.
  destruct (Fusion.weighted_fusion last_seen_order
              (("voice", None) :: ("face", Some (scores_only [])) ::
               fusion_with_face_anxious))
    as [r|] eqn:Hr; [|vm_compute in Hr; discriminate].
  destruct (weighted_fusion_result_shape last_seen_order
              (("voice", None) :: ("face", Some (scores_only [])) ::
               fusion_with_face_anxious)
              r set_iteration_last_seen Hr) as (Hm & Hn & _ & Hd).
  exists r. repeat split; assumption.
Defined.

Lemma count_if_acc {A : Type} (p : A -> bool) (l : list A) (n : nat) :
  fold_left (fun n x => if p x then S n else n) l n =
  (n + List.length (filter p l))%nat.
Proof.
  revert n. induction l as [|x l IH]; intro n; simpl; [lia|].
  rewrite IH. destruct (p x); simpl; lia.
Qed.

Lemma count_if_filter {A : Type} (p : A -> bool) (l : list A) :
  Fusion.count_if p l = List.length (filter p l).
Proof.
  unfold Fusion.count_if. now rewrite count_if_acc.
Qed.

Lemma filter_all {A : Type} (p : A -> bool) (l : list A) :
  (forall x, In x l -> p x = true) -> filter p l = l.
Proof.
  induction l as [|x l IH]; simpl; intro H; [reflexivity|].
  rewrite (H x (or_introl eq_refl)). f_equal. apply IH. auto.
Qed.

Lemma filter_none {A : Type} (p : A -> bool) (l : list A) :
  (forall x, In x l -> p x = false) -> filter p l = [].
Proof.
  induction l as [|x l IH]; simpl; intro H; [reflexivity|].
  rewrite (H x (or_introl eq_refl)). apply IH. auto.
Qed.

Lemma fold_boost_none {A : Type} (p : A -> bool) (l : list A) (b : Q) :
  (forall x, In x l -> p x = false) ->
  fold_left (fun b r => if p r then b + 0.1 else b) l b = b.
Proof.
  revert b. induction l as [|x l IH]; intros b H; simpl; [reflexivity|].
  rewrite (H x (or_introl eq_refl)). apply IH. intros; apply H; now right.
Qed.

Lemma agrees_strongly_agrees (d : string) (s : Fusion.ValidResult) :
  Fusion.agrees d s = false -> Fusion.agrees_strongly d s = false.
Proof.
  unfold Fusion.agrees, Fusion.agrees_strongly.
  destruct (get (Fusion.vr_scores s) d) as [x|]; [|reflexivity].
  intro H. apply Qltb_ge in H.
  case_Qltb 0.5 x; [lra | reflexivity].
Qed.

(** X15. The fusion confidence is 1 when every source scores the dominant
    emotion above 0.3, and 0 when no source does. *)
Theorem fusion_confidence_extremes (sources : list Fusion.ValidResult)
  (dominant : string) :
  sources <> [] ->
  ((forall s, In s sources -> Fusion.agrees dominant s = true) ->
   Fusion._calculate_fusion_confidence sources dominant == 1) /\
  ((forall s, In s sources -> Fusion.agrees dominant s = false) ->
   Fusion._calculate_fusion_confidence sources dominant == 0).
Proof.
  intro Hne.
  assert ((0 <? List.length sources)%nat = true) as Hlen.
  { apply Nat.ltb_lt. destruct sources; [congruence | simpl; lia]. }
  assert (0 < inject_Z (Z.of_nat (List.length sources))) as Hpos.
  { apply Nat.ltb_lt in Hlen. unfold Qlt; simpl. lia. }
  unfold Fusion._calculate_fusion_confidence. rewrite Hlen, count_if_filter.
  split; intro H.
  - rewrite (filter_all _ _ H).
    pose proof (fold_boost_nonneg (Fusion.agrees_strongly dominant) sources 0
                  (Qle_refl 0)) as Hb.
    assert (inject_Z (Z.of_nat (List.length sources)) /
            inject_Z (Z.of_nat (List.length sources)) == 1) as E by (field; lra).
    rewrite E. rewrite Q.min_r by lra. reflexivity.
  - rewrite (filter_none _ _ H).
    rewrite fold_boost_none by (intros; apply agrees_strongly_agrees; auto).
    cbn [List.length].
    assert (inject_Z (Z.of_nat 0) / inject_Z (Z.of_nat (List.length sources)) + 0
            == 0) as E.
    { change (inject_Z (Z.of_nat 0)) with 0. unfold Qdiv. ring. }
    rewrite E. now rewrite Q.min_l by lra.
Qed.

Lemma fusion_confidence_extremes_witness :
  Fusion._calculate_fusion_confidence
    [("text", [("anxious", 0.9)], 1.0); ("face", [("anxious", 0.4)], 0.7)]
    "anxious" == 1.
Proof.
  apply (fusion_confidence_extremes
           [("text", [("anxious", 0.9)], 1.0); ("face", [("anxious", 0.4)], 0.7)]
           "anxious").
  - discriminate.
  - intros s [<-|[<-|[]]]; reflexivity.
Defined.

Lemma count_if_le_length {A : Type} (p : A -> bool) (l : list A) :
  (Fusion.count_if p l <= List.length l)%nat.
Proof.
  rewrite count_if_filter. apply filter_length_le.
Qed.

(** X16. The fusion quality is one of "high", "medium", "low" and
    "very_low" (never "unknown"); with at most one source it is never
    "high", and with three or more sources it is "high" or "medium". *)
Theorem fusion_quality_tags (sources : list Fusion.ValidResult)
  (fusion_confidence : Q) :
  In (Fusion._assess_fusion_quality sources fusion_confidence)
     ["high"; "medium"; "low"; "very_low"] /\
  ((List.length sources <= 1)%nat ->
   Fusion._assess_fusion_quality sources fusion_confidence <> "high") /\
  ((3 <= List.length sources)%nat ->
   In (Fusion._assess_fusion_quality sources fusion_confidence)
      ["high"; "medium"]).
Proof.
  unfold Fusion._assess_fusion_quality.
  pose proof (count_if_le_length (fun r => Qltb 0.8 (Fusion.vr_weight r)) sources)
    as Hc.
  set (n := List.length sources) in *.
  set (k := Fusion.count_if _ sources) in *.
  set (q := (_ + _ + _)%nat).
  assert (forall t : nat,
            In (if (4 <=? t)%nat then "high"
                else if (2 <=? t)%nat then "medium"
                else if (1 <=? t)%nat then "low" else "very_low")
               ["high"; "medium"; "low"; "very_low"]) as T.
  { intro t. destruct (4 <=? t)%nat; [simpl; tauto|].
    destruct (2 <=? t)%nat; [simpl; tauto|].
    destruct (1 <=? t)%nat; simpl; tauto. }
  split; [apply T|]. split.
  - intro Hn.
    assert (q <= 2)%nat as Hq.
    { subst q.
      assert ((3 <=? n)%nat = false) as -> by (apply Nat.leb_gt; lia).
      assert ((2 <=? n)%nat = false) as -> by (apply Nat.leb_gt; lia).
      assert ((2 <=? k)%nat = false) as -> by (apply Nat.leb_gt; lia).
      destruct (Qltb 0.8 fusion_confidence); [simpl; lia|].
      destruct (Qltb 0.6 fusion_confidence); simpl; lia. }
    assert ((4 <=? q)%nat = false) as -> by (apply Nat.leb_gt; lia).
    destruct (2 <=? q)%nat; [discriminate|].
    destruct (1 <=? q)%nat; discriminate.
  - intro Hn.
    assert (2 <= q)%nat as Hq.
    { subst q.
      assert ((3 <=? n)%nat = true) as -> by (apply Nat.leb_le; lia). lia. }
    destruct (4 <=? q)%nat; [simpl; tauto|].
    assert ((2 <=? q)%nat = true) as -> by (apply Nat.leb_le; lia).
    simpl; tauto.
Qed.

Lemma fusion_quality_tags_witness :
  Fusion._assess_fusion_quality [("text", [("anxious", 0.9)], 1.0)] 1 <> "high".
Proof.
  apply (fusion_quality_tags [("text", [("anxious", 0.9)], 1.0)] 1).
  simpl. lia.
Defined.

Lemma create_cluster_scores_nonempty (modality : string) (data : ModalityData) :
  cluster_scores data = None ->
  Fusion._create_cluster_scores modality data <> [].
Proof.
  intro H. unfold Fusion._create_cluster_scores. rewrite H.
  destruct (String.eqb modality "text"); [discriminate|].
  destruct (actionable_category data);
    destruct (String.eqb modality "face");
    try destruct (String.eqb modality "voice"); discriminate.
Qed.

Lemma unknown_modality_scores (modality : string) (data : ModalityData) :
  Fusion.among_modalities modality = false ->
  Fusion.modality_cluster_scores modality data = [("calm", 0.5)].
Proof.
  intro H. unfold Fusion.modality_cluster_scores. rewrite H.
  unfold Fusion.among_modalities in H.
  apply orb_false_iff in H as [H Hv]. apply orb_false_iff in H as [Ht Hf].
  unfold Fusion._create_cluster_scores. rewrite Ht, Hf, Hv.
  now destruct (cluster_scores data).
Qed.

Lemma collect_valid_results_intro (modality_results : dict (option ModalityData))
  (modality : string) (data : ModalityData) :
  In (modality, Some data) modality_results ->
  Fusion.modality_cluster_scores modality data <> [] ->
  In (modality, Fusion.modality_cluster_scores modality data,
      Fusion._calculate_modality_weight modality data)
     (Fusion.collect_valid_results modality_results).
Proof.
  intros Hin Hne.
  induction modality_results as [|[m [d|]] l IH]; simpl; [contradiction| |].
  - destruct Hin as [Hin|Hin].
    + injection Hin as -> ->.
      destruct (Fusion.modality_cluster_scores modality data) eqn:C;
        [congruence | now left].
    + destruct (Fusion.modality_cluster_scores m d); [|right]; now apply IH.
  - destruct Hin as [Hin|Hin]; [discriminate | now apply IH].
Qed.

(** X17. A modality whose data has no score map, or whose name is not
    text, face or voice, still takes part in the fusion: [weighted_fusion]
    returns a result that lists it among the modalities used; a modality of
    another name always contributes the single score "calm" 0.5, whatever
    its data holds. *)
Theorem data_without_scores_still_votes (set_order : list string -> list string)
  (modality_results : dict (option ModalityData)) (modality : string)
  (data : ModalityData) :
  In (modality, Some data) modality_results ->
  cluster_scores data = None \/ Fusion.among_modalities modality = false ->
  (exists r, Fusion.weighted_fusion set_order modality_results = Some r /\
             In modality (Fusion.modalities_used r)) /\
  (Fusion.among_modalities modality = false ->
   Fusion.modality_cluster_scores modality data = [("calm", 0.5)]).
Proof.
  intros Hin Hcase. split; [|apply unknown_modality_scores].
  assert (Fusion.modality_cluster_scores modality data <> []) as Hne.
  { destruct Hcase as [Hc|Hm].
    - unfold Fusion.modality_cluster_scores. rewrite Hc.
      now apply create_cluster_scores_nonempty.
    - rewrite (unknown_modality_scores modality data Hm). discriminate. }
  pose proof (collect_valid_results_intro _ _ _ Hin Hne) as Hv.
  unfold Fusion.weighted_fusion.
  destruct (Fusion.collect_valid_results modality_results) as [|s0 rest] eqn:S;
    [contradiction|].
  eexists. split; [reflexivity|].
  cbn [Fusion.modalities_used].
  apply (in_map Fusion.vr_modality) in Hv. exact Hv.
Qed.

Lemma data_without_scores_still_votes_witness :
  exists r,
    Fusion.weighted_fusion last_seen_order
      [("pulse", Some (scores_only [("anxious", 0.9)]))] = Some r /\
    In "pulse" (Fusion.modalities_used r).
Proof.
  apply (data_without_scores_still_votes last_seen_order
           [("pulse", Some (scores_only [("anxious", 0.9)]))] "pulse"
           (scores_only [("anxious", 0.9)])).
  - now left.
  - right. reflexivity.
Defined.

(** ** The details of each modality *)

Lemma py_max_of_values (items : dict Q) (top : string * Q) :
  py_max_by_value items = Ok top -> py_max (values items) = Ok (snd top).
Proof.
  destruct items as [|x l]; simpl; [discriminate|].
  intro H. injection H as <-. f_equal.
  revert x. induction l as [|y l IH]; intro x; simpl; [reflexivity|].
  rewrite <- IH. destruct (Qltb (snd x) (snd y)); reflexivity.
Qed.

Lemma modality_detail_spec (s : Fusion.ValidResult) :
  Fusion.vr_scores s <> [] ->
  exists d, FusionDetails.modality_detail s = Ok d /\ describes s d.
Proof.
  intro Hne. unfold FusionDetails.modality_detail.
  destruct (Fusion.vr_scores s) as [|x l] eqn:S; [congruence|].
  destruct (py_max_by_value (x :: l)) as [top|] eqn:Hmax; [|discriminate].
  rewrite (py_max_of_values _ _ Hmax). cbn [bind].
  eexists. split; [reflexivity|].
  apply py_max_by_value_max in Hmax as [Hin Hle].
  unfold describes. cbn [FusionDetails.weight FusionDetails.top_category
                         FusionDetails.confidence].
  rewrite S. split; [reflexivity|]. split.
  - now destruct top.
  - apply Forall_forall. exact Hle.
Qed.

Lemma In_keys_setitem {V : Type} (d : dict V) (k m : string) (v : V) :
  In m (keys (setitem d k v)) <-> m = k \/ In m (keys d).
Proof.
  induction d as [|[k0 v0] d IH]; simpl.
  - intuition.
  - destruct (String.eqb k0 k) eqn:E; simpl.
    + apply String.eqb_eq in E. subst. intuition.
    + rewrite IH. intuition.
Qed.

Lemma modality_details_fold (sources : list Fusion.ValidResult)
  (acc : dict FusionDetails.ModalityDetail) :
  Forall (fun s => Fusion.vr_scores s <> []) sources ->
  exists details,
    foldM (fun details r =>
             d <- FusionDetails.modality_detail r ;;
             Ok (setitem details (Fusion.vr_modality r) d))
          sources acc = Ok details /\
    (forall m, In m (keys details) <->
               In m (keys acc) \/ In m (map Fusion.vr_modality sources)) /\
    (forall m d, get details m = Some d ->
                 get acc m = Some d \/
                 exists s, In s sources /\ Fusion.vr_modality s = m /\
                           describes s d).
Proof.
  intro H. revert acc. induction H as [|s l Hs _ IH]; intro acc; simpl.
  - exists acc. split; [reflexivity|]. split; [intuition | auto].
  - destruct (modality_detail_spec s Hs) as (d0 & Hd & Hdesc).
    rewrite Hd. cbn [bind].
    destruct (IH (setitem acc (Fusion.vr_modality s) d0)) as (details & Hf & K & G).
    exists details. split; [exact Hf|]. split.
    + intro m. rewrite K, In_keys_setitem. intuition.
    + intros m d Hg. destruct (G m d Hg) as [Hacc|(s' & Hin & Hm & Hdes)].
      * rewrite get_setitem in Hacc.
        destruct (String.eqb (Fusion.vr_modality s) m) eqn:E; [|now left].
        apply String.eqb_eq in E. injection Hacc as <-.
        right. exists s. auto.
      * right. exists s'. auto.
Qed.

(** X18. [_get_modality_details] never raises on the sources that
    [weighted_fusion] collects; it has one entry per modality used, and each
    entry carries the weight of a source of that modality, a category of
    that source's score map with its score as confidence, and no score of
    that map exceeds it (the placeholder "unknown" is never needed). *)
Theorem modality_details_describe_sources
  (modality_results : dict (option ModalityData)) :
  exists details,
    FusionDetails._get_modality_details
      (Fusion.collect_valid_results modality_results) = Ok details /\
    (forall m, In m (keys details) <->
               In m (map Fusion.vr_modality
                       (Fusion.collect_valid_results modality_results))) /\
    (forall m d, get details m = Some d ->
                 exists s,
                   In s (Fusion.collect_valid_results modality_results) /\
                   Fusion.vr_modality s = m /\ describes s d).
Proof.
  assert (Forall (fun s => Fusion.vr_scores s <> [])
            (Fusion.collect_valid_results modality_results)) as Hne.
  { apply Forall_forall. apply collected_scores_nonempty. }
  destruct (modality_details_fold _ [] Hne) as (details & Hf & K & G).
  exists details. split; [exact Hf|]. split.
  - intro m. rewrite K. simpl. intuition.
  - intros m d Hg. destruct (G m d Hg) as [Hacc|H]; [discriminate | exact H].
Qed.

(** * Properties of the check-in flow around the detector *)

Lemma category_of_answers_spec (energy thoughts physical feeling : string) :
  exists c,
    Prompts.category_of_answers energy thoughts physical feeling = Ok c /\
    In c (keys Detector.emotions) /\ c <> "tired".
Proof.
  unfold Prompts.category_of_answers, Prompts.score_energy,
    Prompts.score_thoughts, Prompts.score_physical, Prompts.score_feeling.
  (destruct (String.eqb energy "high"); [|destruct (String.eqb energy "low")]);
  (destruct (String.eqb thoughts "racing");
     [|destruct (String.eqb thoughts "stuck")]);
  (destruct (String.eqb physical "tense");
     [|destruct (String.eqb physical "relaxed")]);
  (destruct (String.eqb feeling "crying");
     [|destruct (String.eqb feeling "screaming");
       [|destruct (String.eqb feeling "laughing");
         [|destruct (String.eqb feeling "nothing")]]]);
  (lazymatch goal with
   | |- exists c, ?X = _ /\ _ =>
       let v := eval vm_compute in X in
       lazymatch v with Ok ?c0 => exists c0 end
   end;
   split; [vm_compute; reflexivity | split; [simpl; tauto | discriminate]]).
Qed.

(** X19. [determine_emotion_category] never raises and always returns a
    registry category, and that category is never "tired": whenever "tired"
    has the greatest score, "sad" or "neutral", which stand before it, has
    it too. *)
Theorem determine_emotion_category_never_tired (initial_responses : dict string) :
  exists c,
    Prompts.determine_emotion_category_body initial_responses = Ok c /\
    Prompts.determine_emotion_category initial_responses = c /\
    In c (keys Detector.emotions) /\ c <> "tired".
Proof.
  unfold Prompts.determine_emotion_category,
    Prompts.determine_emotion_category_body.
  destruct (category_of_answers_spec
              (get_or initial_responses "energy_level" "moderate")
              (get_or initial_responses "thoughts" "flowing")
              (get_or initial_responses "physical" "neutral")
              (get_or initial_responses "feeling_like" "nothing"))
    as (c & Hc & Hin & Hne).
  exists c. rewrite Hc. auto.
Qed.

Lemma validate_valid_pairs (question_id response : string) :
  Prompts.validate_initial_response question_id response = true ->
  In (question_id, response) valid_pairs.
Proof.
  unfold Prompts.validate_initial_response, valid_pairs.
  destruct (find _ Prompts.initial_questions) as [question|] eqn:F;
    [|discriminate].
  apply find_some in F as [Hin Hid]. apply String.eqb_eq in Hid.
  intro H. apply existsb_exists in H as (v & Hv & E).
  apply String.eqb_eq in E. subst.
  apply in_flat_map. exists question. split; [exact Hin|].
  apply in_map_iff. exists v. auto.
Qed.

Lemma valid_pairs_checked :
  forallb (fun qa =>
             known_answer (fst qa) (snd qa) &&
             match Detector.answer_weights (fst qa) (snd qa) with
             | [] => false
             | _ => true
             end)
          valid_pairs = true.
Proof. vm_compute. reflexivity. Qed.

(** X20. Every answer that [validate_initial_response] accepts is known to
    the weight table of the detector and adds weights there: a validated
    answer is never silently ignored by the scorer.  The converse fails: no
    answer to "worry", "mood_comparison" or "need_most", which the detector
    scores, passes validation. *)
Theorem validated_answers_are_scored (question_id response : string) :
  (Prompts.validate_initial_response question_id response = true ->
   known_answer question_id response = true /\
   Detector.answer_weights question_id response <> []) /\
  (In question_id ["worry"; "mood_comparison"; "need_most"] ->
   Prompts.validate_initial_response question_id response = false).
Proof.
  split.
  - intro H. apply validate_valid_pairs in H.
    pose proof valid_pairs_checked as C. rewrite forallb_forall in C.
    specialize (C _ H). cbn [fst snd] in C.
    apply andb_true_iff in C as [C1 C2]. split; [exact C1|].
    destruct (Detector.answer_weights question_id response); [discriminate|].
    discriminate.
  - intros [<-|[<-|[<-|[]]]]; reflexivity.
Qed.

Lemma validated_answers_are_scored_witness :
  known_answer "feeling_like" "crying" = true /\
  Detector.answer_weights "feeling_like" "crying" <> [].
Proof.
  apply (validated_answers_are_scored "feeling_like" "crying").
  reflexivity.
Defined.

Lemma detect_emotion_in_registry (i j : dict string)
  (fd vd : option ModalityData) :
  In (Detector.emotion (Detector.detect_emotion i j fd vd))
     (keys Detector.emotions).
Proof.
  destruct (detect_emotion_body_spec i j fd vd)
    as (si & sj & sf & sv & dominant & meta & _ & _ & _ & _ &
        _ & _ & _ & _ & _ & Hmeta & Hbody).
  unfold Detector.detect_emotion. rewrite Hbody. cbn [Detector.emotion].
  apply get_Some_In in Hmeta.
  change (fst dominant) with (fst (fst dominant, meta)). now apply in_map.
Qed.

(** X21. The actions looked up for the emotion that [detect_emotion]
    returns are always an entry of the action table, with exactly three
    immediate and three short-term actions; the one-action default plan is
    returned only for a name outside the registry. *)
Theorem detected_emotion_has_actions (i j : dict string)
  (fd vd : option ModalityData) (other : string) :
  In (Detector.emotion (Detector.detect_emotion i j fd vd),
      Actions._get_actions_for_emotion
        (Detector.emotion (Detector.detect_emotion i j fd vd)))
     Actions.actions /\
  List.length
    (Actions.immediate
       (Actions._get_actions_for_emotion
          (Detector.emotion (Detector.detect_emotion i j fd vd)))) = 3%nat /\
  List.length
    (Actions.short_term
       (Actions._get_actions_for_emotion
          (Detector.emotion (Detector.detect_emotion i j fd vd)))) = 3%nat /\
  (~ In other (keys Detector.emotions) ->
   Actions._get_actions_for_emotion other = Actions.default_plan).
Proof.
  pose proof (detect_emotion_in_registry i j fd vd) as H.
  set (e := Detector.emotion (Detector.detect_emotion i j fd vd)) in *.
  split; [|split; [|split]].
  - simpl in H. repeat (destruct H as [<-|H]; [simpl; tauto|]). contradiction.
  - simpl in H. repeat (destruct H as [<-|H]; [reflexivity|]). contradiction.
  - simpl in H. repeat (destruct H as [<-|H]; [reflexivity|]). contradiction.
  - intro Hout. unfold Actions._get_actions_for_emotion, get_or.
    destruct (get Actions.actions other) as [plan|] eqn:G; [|reflexivity].
    exfalso. apply Hout. apply get_Some_In in G.
    change (keys Detector.emotions) with (keys Actions.actions).
    change other with (fst (other, plan)). now apply in_map.
Qed.

Lemma detected_emotion_has_actions_witness :
  Actions._get_actions_for_emotion "bored" = Actions.default_plan.
Proof.
  apply (detected_emotion_has_actions [] [] None None "bored").
  simpl. intuition discriminate.
Defined.

Lemma modality_details_describe_sources_witness :
  exists details d,
    FusionDetails._get_modality_details
      (Fusion.collect_valid_results fusion_with_face_anxious) = Ok details /\
    get details "text" = Some d /\
    exists s,
      In s (Fusion.collect_valid_results fusion_with_face_anxious) /\
      Fusion.vr_modality s = "text" /\ describes s d.
Proof.
  destruct (modality_details_describe_sources fusion_with_face_anxious)
    as (details & Hd & K & G).
  destruct (get details "text") as [d|] eqn:E.
  - exists details, d. split; [exact Hd|]. split; [exact E|].
    exact (G "text" d E).
  - exfalso.
    assert (In "text" (keys details)) as Hin by (apply K; left; reflexivity).
    apply In_keys_get in Hin as [d Hd']. congruence.
Defined.
